(** * PayMind: the x402 payment-authorization protocol and its budgeted ledger

    A shallow embedding of the parts of the repository that carry the
    protocol, each definition next to the source it is read from:
    - the [AgentRegistry] contract ([src/unnamed/part_002]) and the
      [PaymentLedger] contract (the Solidity text in
      [src/frontend/src/lib/api.ts], lines 193-377): Solidity ^0.8.24, checked
      [uint256] arithmetic, a reverting call leaves the storage untouched;
    - [src/backend/src/x402/facilitator.ts]: requirement issuer and proof
      verifier;
    - [src/backend/src/x402/client.ts]: the two-leg payment client;
    - the wallet and ledger modules of the backend (the texts in
      [src/backend/src/config.ts], lines 59-206 and 207-395);
    - the gateway, x402/server.ts ([src/unnamed/part_003]), and the payments
      of the agent, agent/core.ts (the text in
      [src/backend/src/agent/analyzer.ts], lines 477-740);
    followed by the properties the specification states about them.
    Further properties follow: of the two contracts under arbitrary
    transactions, of the gateway, of the client and of the backend ledger.

    What the code obtains from outside (the clock, [Math.random], [fetch],
    the [ethers] signer, signature recovery and contract calls) is an explicit
    argument of the function that uses it. A string stands for the UTF-8
    bytes of the JavaScript string; a draw of [Math.random] is a double, and
    its product with 1000000 is the double product. *)

From Stdlib Require Import ZArith List Bool Lia String Ascii.
From stdpp Require Import base gmap sets list strings pretty.

Local Open Scope string_scope.
Local Open Scope Z_scope.

(** ** Outcomes of calls *)

(** A Solidity external call either returns, reverts with the message of a
    failed [require], or panics (checked-arithmetic overflow is [Panic 0x11]). *)
Inductive result (A : Type) : Type :=
| Ok (a : A)
| Revert (reason : string)
| Panic (code : Z).
Arguments Ok {A} a.
Arguments Revert {A} reason.
Arguments Panic {A} code.

Definition rbind {A B} (r : result A) (k : A -> result B) : result B :=
  match r with
  | Ok a => k a
  | Revert s => Revert s
  | Panic c => Panic c
  end.

Notation "x <-! c ;; k" := (rbind c (fun x => k))
  (at level 100, c at next level, right associativity).
Notation "'require!' b 'else' msg ;; k" := (if b then k else Revert msg)
  (at level 100, b at next level, msg at next level, right associativity).

Definition succeeds {A} (r : result A) : bool :=
  match r with Ok _ => true | _ => false end.

(** A JavaScript call either returns a value or throws an error carrying a
    message. *)
Inductive outcome (A : Type) : Type :=
| Returned (a : A)
| Thrown (message : string).
Arguments Returned {A} a.
Arguments Thrown {A} message.

Definition obind {A B} (o : outcome A) (k : A -> outcome B) : outcome B :=
  match o with
  | Returned a => k a
  | Thrown m => Thrown m
  end.

Notation "x <-? c ;; k" := (obind c (fun x => k))
  (at level 100, c at next level, right associativity).

(** ** Solidity machine integers *)

Definition MAX_UINT256 : Z := 2 ^ 256 - 1.

Definition uint256 (x : Z) : Prop := 0 <= x <= MAX_UINT256.

(** [x + y] on [uint256] under Solidity ^0.8: the sum, or [Panic(0x11)]. *)
Definition checked_add (x y : Z) : result Z :=
  if x + y <=? MAX_UINT256 then Ok (x + y) else Panic 17.

(** [1 days] *)
Definition ONE_DAY : Z := 86400.

Definition address := Z.

(** The transaction context a function reads: [msg.sender], [block.timestamp]. *)
Record Msg := mkMsg { msg_sender : address; block_timestamp : Z }.

(** A transaction that does not return leaves the storage as it was. *)
Definition transact {S : Type} (call : S -> result S) (st : S) : S :=
  match call st with
  | Ok st' => st'
  | _ => st
  end.

(** ** contracts/AgentRegistry.sol *)

Module AgentRegistry.

Record Agent := mkAgent {
  wallet : address;
  name : string;
  dailyBudget : Z;
  spentToday : Z;
  lastResetDay : Z;
  active : bool;
  registeredAt : Z
}.

(** The value a mapping holds at a key that was never written. *)
Definition zeroAgent : Agent := mkAgent 0 EmptyString 0 0 0 false 0.

Record state := mkState {
  agents : gmap address Agent;
  agentList : list address;
  paymentLedger : address;
  owner : address
}.

(** [agents[a]] *)
Definition agentAt (st : state) (a : address) : Agent :=
  default zeroAgent (agents st !! a).

Definition setAgent (st : state) (a : address) (v : Agent) : state :=
  mkState (<[a := v]> (agents st)) (agentList st) (paymentLedger st) (owner st).

Definition set_spentToday (a : Agent) (v : Z) : Agent :=
  mkAgent (wallet a) (name a) (dailyBudget a) v (lastResetDay a) (active a)
          (registeredAt a).

Definition set_lastResetDay (a : Agent) (v : Z) : Agent :=
  mkAgent (wallet a) (name a) (dailyBudget a) (spentToday a) v (active a)
          (registeredAt a).

Definition set_dailyBudget (a : Agent) (v : Z) : Agent :=
  mkAgent (wallet a) (name a) v (spentToday a) (lastResetDay a) (active a)
          (registeredAt a).

Definition set_active (a : Agent) (v : bool) : Agent :=
  mkAgent (wallet a) (name a) (dailyBudget a) (spentToday a) (lastResetDay a) v
          (registeredAt a).

(** [constructor()] *)
Definition init (m : Msg) : state := mkState ∅ [] 0 (msg_sender m).

Definition setPaymentLedger (m : Msg) (_paymentLedger : address) (st : state)
  : result state :=
  require! (msg_sender m =? owner st) else "AgentRegistry: caller is not owner" ;;
  require! negb (_paymentLedger =? 0) else "AgentRegistry: zero address" ;;
  Ok (mkState (agents st) (agentList st) _paymentLedger (owner st)).

Definition registerAgent (m : Msg) (name : string) (dailyBudget : Z) (st : state)
  : result state :=
  require! (wallet (agentAt st (msg_sender m)) =? 0)
    else "AgentRegistry: already registered" ;;
  require! (0 <? Z.of_nat (String.length name)) else "AgentRegistry: empty name" ;;
  require! (0 <? dailyBudget) else "AgentRegistry: zero budget" ;;
  let a := mkAgent (msg_sender m) name dailyBudget 0 (block_timestamp m / ONE_DAY) true
                   (block_timestamp m) in
  Ok (mkState (<[msg_sender m := a]> (agents st)) (agentList st ++ [msg_sender m])
              (paymentLedger st) (owner st)).

Definition deactivateAgent (m : Msg) (st : state) : result state :=
  require! negb (wallet (agentAt st (msg_sender m)) =? 0)
    else "AgentRegistry: agent not registered" ;;
  Ok (setAgent st (msg_sender m) (set_active (agentAt st (msg_sender m)) false)).

Definition updateBudget (m : Msg) (newBudget : Z) (st : state) : result state :=
  require! negb (wallet (agentAt st (msg_sender m)) =? 0)
    else "AgentRegistry: agent not registered" ;;
  require! (0 <? newBudget) else "AgentRegistry: zero budget" ;;
  Ok (setAgent st (msg_sender m) (set_dailyBudget (agentAt st (msg_sender m)) newBudget)).

(** [canSpend] is a [view]: it returns a boolean and writes nothing. *)
Definition canSpend (m : Msg) (agent : address) (amount : Z) (st : state)
  : result bool :=
  let a := agentAt st agent in
  if (wallet a =? 0) || negb (active a) then Ok false else
  let currentDay := block_timestamp m / ONE_DAY in
  let spent := if lastResetDay a <? currentDay then 0 else spentToday a in
  total <-! checked_add spent amount ;;
  Ok (total <=? dailyBudget a).

(** The storage writes of the day rollover inside [recordSpend]. *)
Definition rollover (currentDay : Z) (a : Agent) : Agent :=
  if lastResetDay a <? currentDay
  then set_lastResetDay (set_spentToday a 0) currentDay
  else a.

Definition recordSpend (m : Msg) (agent : address) (amount : Z) (st : state)
  : result state :=
  require! (msg_sender m =? paymentLedger st)
    else "AgentRegistry: caller is not PaymentLedger" ;;
  let a := agentAt st agent in
  require! negb (wallet a =? 0) else "AgentRegistry: agent not registered" ;;
  require! active a else "AgentRegistry: agent not active" ;;
  let currentDay := block_timestamp m / ONE_DAY in
  let a := rollover currentDay a in
  total <-! checked_add (spentToday a) amount ;;
  require! (total <=? dailyBudget a) else "AgentRegistry: exceeds daily budget" ;;
  spent' <-! checked_add (spentToday a) amount ;;
  Ok (setAgent st agent (set_spentToday a spent')).

Definition getAgent (walletAddr : address) (st : state) : result Agent :=
  require! negb (wallet (agentAt st walletAddr) =? 0)
    else "AgentRegistry: agent not found" ;;
  Ok (agentAt st walletAddr).

Definition getAgentCount (st : state) : Z := Z.of_nat (length (agentList st)).

(** The spent amount both [canSpend] and [recordSpend] compare against the
    budget at day [today], in the words of the specification. *)
Definition effectiveSpent (today : Z) (a : Agent) : Z :=
  if lastResetDay a <? today then 0 else spentToday a.




(** What one transaction at time [t] can do to the record stored for [key]:
    nothing, its registration, its deactivation, a new budget, or a
    recorded spend. *)
Inductive agentStep (key : address) (t : Z) (old : Agent) : Agent -> Prop :=
| agent_unchanged : agentStep key t old old
| agent_registered (n : string) (b : Z) :
    wallet old = 0 -> 0 < b ->
    agentStep key t old (mkAgent key n b 0 (t / ONE_DAY) true t)
| agent_deactivated :
    wallet old <> 0 -> agentStep key t old (set_active old false)
| agent_rebudgeted (b : Z) :
    wallet old <> 0 -> 0 < b -> agentStep key t old (set_dailyBudget old b)
| agent_spent (x : Z) :
    wallet old <> 0 -> active old = true ->
    effectiveSpent (t / ONE_DAY) old + x <= MAX_UINT256 ->
    effectiveSpent (t / ONE_DAY) old + x <= dailyBudget old ->
    agentStep key t old
      (set_spentToday (rollover (t / ONE_DAY) old)
                      (effectiveSpent (t / ONE_DAY) old + x)).

(** The registrations are in order: every key either holds its own record
    and is listed, or holds nothing and is not; nobody is listed twice. *)
Definition registrationsInOrder (st : state) : Prop :=
  NoDup (agentList st) /\
  forall k : address,
    (wallet (agentAt st k) = k /\ k <> 0 /\ k ∈ agentList st) \/
    (agentAt st k = zeroAgent /\ k ∉ agentList st).

End AgentRegistry.

(** ** JavaScript strings and numbers *)

(** Strings are modelled as sequences of 8-bit characters; the functions below
    follow ECMAScript on the ASCII range, which is where addresses, decimal
    amounts and the keys of this protocol live. *)
Module JS.

(** [String.prototype.toLowerCase] *)
Definition lowerChar (c : ascii) : ascii :=
  let n := nat_of_ascii c in
  if ((65 <=? n) && (n <=? 90))%nat then ascii_of_nat (n + 32) else c.

Fixpoint toLowerCase (s : string) : string :=
  match s with
  | EmptyString => EmptyString
  | String c r => String (lowerChar c) (toLowerCase r)
  end.

(** [`${n}`] for an integral Number of magnitude below 1e21. *)
Definition numberToString (n : Z) : string := pretty n.

(** [StrWhiteSpaceChar], on the UTF-8 bytes of a string: TAB, LF, VT, FF,
    CR, SP in one byte; U+00A0 in two; U+1680, U+2000 to U+200A, U+2028,
    U+2029, U+202F, U+205F, U+3000 and U+FEFF in three. *)
Definition isWhiteSpace1 (c : ascii) : bool :=
  let n := nat_of_ascii c in
  (((9 <=? n) && (n <=? 13)) || (n =? 32))%nat.

Definition isWhiteSpace2 (c1 c2 : ascii) : bool :=
  ((nat_of_ascii c1 =? 194) && (nat_of_ascii c2 =? 160))%nat.

Definition isWhiteSpace3 (c1 c2 c3 : ascii) : bool :=
  let n1 := nat_of_ascii c1 in
  let n2 := nat_of_ascii c2 in
  let n3 := nat_of_ascii c3 in
  (((n1 =? 225) && (n2 =? 154) && (n3 =? 128))
   || ((n1 =? 226) && (n2 =? 128)
       && (((128 <=? n3) && (n3 <=? 138)) || (n3 =? 168) || (n3 =? 169) || (n3 =? 175)))
   || ((n1 =? 226) && (n2 =? 129) && (n3 =? 159))
   || ((n1 =? 227) && (n2 =? 128) && (n3 =? 128))
   || ((n1 =? 239) && (n2 =? 187) && (n3 =? 191)))%nat.

(** White space dropped from the front of a string. *)
Fixpoint trimStart (s : string) : string :=
  match s with
  | EmptyString => EmptyString
  | String c1 r1 =>
      if isWhiteSpace1 c1 then trimStart r1
      else match r1 with
           | EmptyString => s
           | String c2 r2 =>
               if isWhiteSpace2 c1 c2 then trimStart r2
               else match r2 with
                    | EmptyString => s
                    | String c3 r3 =>
                        if isWhiteSpace3 c1 c2 c3 then trimStart r3 else s
                    end
           end
  end.

(** White space dropped from the front of a reversed string, that is from
    the end of the string: the bytes of a character come last byte first. *)
Fixpoint trimStartReversed (s : string) : string :=
  match s with
  | EmptyString => EmptyString
  | String c1 r1 =>
      if isWhiteSpace1 c1 then trimStartReversed r1
      else match r1 with
           | EmptyString => s
           | String c2 r2 =>
               if isWhiteSpace2 c2 c1 then trimStartReversed r2
               else match r2 with
                    | EmptyString => s
                    | String c3 r3 =>
                        if isWhiteSpace3 c3 c2 c1 then trimStartReversed r3 else s
                    end
           end
  end.

Definition trim (s : string) : string :=
  String.rev (trimStartReversed (String.rev (trimStart s))).

Definition digitValue (c : ascii) : option Z :=
  let n := Z.of_nat (nat_of_ascii c) in
  if (48 <=? n) && (n <=? 57) then Some (n - 48)
  else if (97 <=? n) && (n <=? 102) then Some (n - 87)
  else if (65 <=? n) && (n <=? 70) then Some (n - 55)
  else None.

Fixpoint parseDigits (radix acc : Z) (s : string) : option Z :=
  match s with
  | EmptyString => Some acc
  | String c r =>
      match digitValue c with
      | Some d => if d <? radix then parseDigits radix (acc * radix + d) r else None
      | None => None
      end
  end.

Definition parseInteger (radix : Z) (s : string) : option Z :=
  match s with
  | EmptyString => None
  | _ => parseDigits radix 0 s
  end.

(** [StringToBigInt]: surrounding white space is dropped, the empty string is
    [0n], a decimal literal may carry a sign, [0x], [0o] and [0b] literals
    may not; anything else is no BigInt. *)
Definition StringToBigInt (s : string) : option Z :=
  match trim s with
  | EmptyString => Some 0
  | String "+" r => parseInteger 10 r
  | String "-" r => Z.opp <$> parseInteger 10 r
  | String "0" (String p r) as t =>
      if (p =? "x")%char || (p =? "X")%char then parseInteger 16 r
      else if (p =? "o")%char || (p =? "O")%char then parseInteger 8 r
      else if (p =? "b")%char || (p =? "B")%char then parseInteger 2 r
      else parseInteger 10 t
  | t => parseInteger 10 t
  end.

(** [BigInt(s)] on a string: the integer, or a [SyntaxError]. *)
Definition BigInt (s : string) : outcome Z :=
  match StringToBigInt s with
  | Some z => Returned z
  | None => Thrown ("Cannot convert " ++ s ++ " to a BigInt")
  end.

(** A finite double that is not negative, [mantissa * 2^exponent]. The
    values of [Math.random] are such doubles below 1. *)
Record double := mkDouble { mantissa : Z; exponent : Z }.

Definition isDouble (d : double) : Prop :=
  0 <= mantissa d < 2 ^ 53 /\ -1074 <= exponent d <= 971.

(** [d < 1], for a double: the exponent is not positive then. *)
Definition belowOne (d : double) : Prop := mantissa d < 2 ^ (- exponent d).

(** [m * 2^e] as a double: exact when [m] has at most 53 bits and the
    exponent is at least -1074; otherwise the low bits are dropped and the
    rest is rounded to the nearest, ties to even. (A mantissa of [2^53]
    stands for [2^52] with the next exponent.) *)
Definition round53 (m e : Z) : double :=
  let s := Z.max (Z.log2 m - 52) (-1074 - e) in
  if s <=? 0 then mkDouble m e
  else
    let q := m / 2 ^ s in
    let r := m mod 2 ^ s in
    let half := 2 ^ (s - 1) in
    let n := if r <? half then q
             else if half <? r then q + 1
             else if Z.even q then q else q + 1 in
    mkDouble n (e + s).

(** [a * b] on doubles that are not negative, below the overflow
    threshold: the exact product, rounded. *)
Definition times (a b : double) : double :=
  round53 (mantissa a * mantissa b) (exponent a + exponent b).

(** [Math.floor] *)
Definition floor (d : double) : Z :=
  if 0 <=? exponent d then mantissa d * 2 ^ exponent d
  else mantissa d / 2 ^ (- exponent d).

(** [Math.floor(Math.random() * 1000000)], for a draw [u] of [Math.random]. *)
Definition randomNonce (u : double) : Z := floor (times u (mkDouble 1000000 0)).

(** [Math.floor(Date.now() / 1000)], for a clock reading in milliseconds. *)
Definition unixSeconds (dateNow : Z) : Z := dateNow / 1000.

End JS.

(** ** backend/src/config.ts *)

Module Config.
Definition bsc_chainId : Z := 56.
Definition contracts_usdt : string := "0x55d398326f99059fF775485246999027B3197955".
Definition securityQueryCost : string := "100000000000000".
Definition priceQueryCost : string := "50000000000000".
Definition whaleQueryCost : string := "200000000000000".
Definition sentimentQueryCost : string := "50000000000000".
End Config.

(** ** backend/src/x402/facilitator.ts *)

Module Facilitator.

Record PaymentRequirement := mkRequirement {
  rq_amount : string;
  rq_currency : string;
  rq_receiver : string;
  rq_resource : string;
  rq_network : string;
  rq_chainId : Z;
  rq_nonce : Z;
  rq_expiry : Z
}.

Record PaymentProof := mkProof {
  signature : string;
  from : string;
  to : string;
  amount : string;
  resource : string;
  nonce : Z;
  expiry : Z
}.

Record Domain := mkDomain { d_name : string; d_version : string; d_chainId : Z }.

Definition PAYMENT_DOMAIN : Domain := mkDomain "PayMind-x402" "1" Config.bsc_chainId.

(** The [PaymentAuthorization] value that is hashed and signed. *)
Record TypedValue := mkValue {
  v_from : string;
  v_to : string;
  v_amount : string;
  v_resource : string;
  v_nonce : Z;
  v_expiry : Z
}.

Record Verification := mkVerification {
  valid : bool;
  signer : string;
  reason : option string
}.

Definition rejected (signer reason : string) : Verification :=
  mkVerification false signer (Some reason).

(** [createPaymentRequirement], reading one [Math.random] draw and the
    clock. *)
Definition createPaymentRequirement (random : JS.double) (dateNow : Z)
    (resource amount receiver : string) : PaymentRequirement :=
  mkRequirement amount Config.contracts_usdt receiver resource "bsc"
    Config.bsc_chainId (JS.randomNonce random) (JS.unixSeconds dateNow + 300).

Definition nonceKey (proof : PaymentProof) : string :=
  from proof ++ "-" ++ JS.numberToString (nonce proof).

Definition typedValue (proof : PaymentProof) : TypedValue :=
  mkValue (from proof) (to proof) (amount proof) (resource proof) (nonce proof)
          (expiry proof).

Section Verifier.

(** [ethers.verifyTypedData(domain, PAYMENT_TYPES, value, signature)]: the
    recovered signer address, or an error (malformed signature or value). *)
Variable verifyTypedData : Domain -> TypedValue -> string -> outcome string.

(** The body of the [try] block. The second component is the module-level
    set [usedNonces] after the call. *)
Definition verifyBody (dateNow : Z) (usedNonces : gset string)
    (proof : PaymentProof) (expectedResource expectedAmount : string)
  : outcome (Verification * gset string) :=
  let now := JS.unixSeconds dateNow in
  if expiry proof <? now then
    Returned (rejected EmptyString "Payment proof expired", usedNonces)
  else
  let key := nonceKey proof in
  if decide (key ∈ usedNonces) then
    Returned (rejected EmptyString "Nonce already used", usedNonces)
  else
  paid <-? JS.BigInt (amount proof) ;;
  expected <-? JS.BigInt expectedAmount ;;
  if paid <? expected then
    Returned (rejected EmptyString
      ("Insufficient payment: " ++ amount proof ++ " < " ++ expectedAmount),
      usedNonces)
  else
  if negb (String.eqb (resource proof) expectedResource) then
    Returned (rejected EmptyString
      ("Resource mismatch: " ++ resource proof ++ " !== " ++ expectedResource),
      usedNonces)
  else
  recoveredAddress <-?
    verifyTypedData PAYMENT_DOMAIN (typedValue proof) (signature proof) ;;
  if negb (String.eqb (JS.toLowerCase recoveredAddress)
                      (JS.toLowerCase (from proof))) then
    Returned (rejected recoveredAddress "Signature does not match claimed sender",
              usedNonces)
  else
    Returned (mkVerification true recoveredAddress None, {[ key ]} ∪ usedNonces).

Definition verifyPaymentProof (dateNow : Z) (usedNonces : gset string)
    (proof : PaymentProof) (expectedResource expectedAmount : string)
  : Verification * gset string :=
  match verifyBody dateNow usedNonces proof expectedResource expectedAmount with
  | Returned r => r
  | Thrown message => (rejected EmptyString ("Verification error: " ++ message), usedNonces)
  end.

(** *** The checks, as the specification lists them

    Each check is written as a predicate of its own, with the rejection it
    reports; [verdict] reports the earliest failing one in [checkOrder].
    The expiry check is taken with the comparison of the source,
    [proof.expiry < now] fails. *)
Inductive Checkpoint : Type :=
| CheckExpiry | CheckReplay | CheckAmount | CheckResource | CheckSignature.

Definition checkOrder : list Checkpoint :=
  [CheckExpiry; CheckReplay; CheckAmount; CheckResource; CheckSignature].

Definition amountsCompared (proof : PaymentProof) (expectedAmount : string)
  : outcome (Z * Z) :=
  paid <-? JS.BigInt (amount proof) ;;
  expected <-? JS.BigInt expectedAmount ;;
  Returned (paid, expected).

Definition recovered (proof : PaymentProof) : outcome string :=
  verifyTypedData PAYMENT_DOMAIN (typedValue proof) (signature proof).

Definition passes (dateNow : Z) (usedNonces : gset string) (proof : PaymentProof)
    (expectedResource expectedAmount : string) (c : Checkpoint) : bool :=
  match c with
  | CheckExpiry => negb (expiry proof <? JS.unixSeconds dateNow)
  | CheckReplay => negb (bool_decide (nonceKey proof ∈ usedNonces))
  | CheckAmount =>
      match amountsCompared proof expectedAmount with
      | Returned (paid, expected) => expected <=? paid
      | Thrown _ => false
      end
  | CheckResource => String.eqb (resource proof) expectedResource
  | CheckSignature =>
      match recovered proof with
      | Returned r => String.eqb (JS.toLowerCase r) (JS.toLowerCase (from proof))
      | Thrown _ => false
      end
  end.

Definition rejection (proof : PaymentProof) (expectedResource expectedAmount : string)
    (c : Checkpoint) : Verification :=
  match c with
  | CheckExpiry => rejected EmptyString "Payment proof expired"
  | CheckReplay => rejected EmptyString "Nonce already used"
  | CheckAmount =>
      match amountsCompared proof expectedAmount with
      | Returned _ =>
          rejected EmptyString ("Insufficient payment: " ++ amount proof ++ " < " ++ expectedAmount)
      | Thrown message => rejected EmptyString ("Verification error: " ++ message)
      end
  | CheckResource =>
      rejected EmptyString ("Resource mismatch: " ++ resource proof ++ " !== " ++ expectedResource)
  | CheckSignature =>
      match recovered proof with
      | Returned r => rejected r "Signature does not match claimed sender"
      | Thrown message => rejected EmptyString ("Verification error: " ++ message)
      end
  end.

Definition firstFailing (dateNow : Z) (usedNonces : gset string) (proof : PaymentProof)
    (expectedResource expectedAmount : string) : option Checkpoint :=
  List.find (fun c => negb (passes dateNow usedNonces proof expectedResource
                                   expectedAmount c))
            checkOrder.

Definition verdict (dateNow : Z) (usedNonces : gset string) (proof : PaymentProof)
    (expectedResource expectedAmount : string) : Verification * gset string :=
  match firstFailing dateNow usedNonces proof expectedResource expectedAmount with
  | Some c => (rejection proof expectedResource expectedAmount c, usedNonces)
  | None =>
      (mkVerification true
         (match recovered proof with Returned r => r | Thrown _ => EmptyString end) None,
       {[ nonceKey proof ]} ∪ usedNonces)
  end.

End Verifier.

End Facilitator.

(** ** JSON values as the client reads them *)

Module JSON.

(** Numbers are the integral ones, which is what nonces, expiries and status
    codes are. *)
#[local] Unset Elimination Schemes.
Inductive json : Type :=
| JNull
| JBool (b : bool)
| JNum (n : Z)
| JStr (s : string)
| JArr (items : list json)
| JObj (fields : list (string * json)).
#[local] Set Elimination Schemes.

(** A JavaScript value read out of a parsed body: [None] is [undefined]. *)
Definition jsval : Type := option json.

Definition undefined : jsval := None.

(** [ToBoolean] *)
Definition truthy (v : jsval) : bool :=
  match v with
  | None => false
  | Some JNull => false
  | Some (JBool b) => b
  | Some (JNum n) => negb (n =? 0)
  | Some (JStr s) => negb (String.eqb s EmptyString)
  | Some (JArr _) => true
  | Some (JObj _) => true
  end.

(** [a || b] *)
Definition orElse (a b : jsval) : jsval := if truthy a then a else b.

Fixpoint lookupField (k : string) (fields : list (string * json)) : jsval :=
  match fields with
  | [] => None
  | (k', v) :: rest => if String.eqb k k' then Some v else lookupField k rest
  end.

(** [v.k] for a parsed value [v] and one of the keys read by the client
    (none of which is a built-in property of strings, numbers or arrays):
    a [TypeError] on [null], the field of an object, [undefined] otherwise. *)
Definition getProp (v : json) (k : string) : outcome jsval :=
  match v with
  | JNull => Thrown ("Cannot read properties of null (reading '" ++ k ++ "')")
  | JObj fields => Returned (lookupField k fields)
  | _ => Returned undefined
  end.

End JSON.

(** ** backend/src/blockchain/wallet.ts *)

Module Wallet.

(** The [PaymentAuthorization] value handed to the signer by the client;
    the fields coming from a parsed body are whatever the server sent. *)
Record AuthValue := mkAuthValue {
  a_from : string;
  a_to : JSON.jsval;
  a_amount : JSON.jsval;
  a_resource : JSON.jsval;
  a_nonce : JSON.jsval;
  a_expiry : JSON.jsval
}.

Record SignParams := mkSignParams {
  p_to : JSON.jsval;
  p_amount : JSON.jsval;
  p_resource : JSON.jsval;
  p_nonce : JSON.jsval;
  p_expiry : JSON.jsval
}.

(** What the process environment and the [ethers] library answer. *)
Record Env := mkEnv {
  (** [config.wallet.privateKey] *)
  privateKey : string;
  (** [new ethers.JsonRpcProvider(...)] *)
  newProvider : outcome unit;
  (** [new ethers.Wallet(privateKey, provider)]: the wallet's address *)
  newWallet : outcome string;
  (** [wallet.signTypedData(domain, types, value)] *)
  signTypedData : Facilitator.Domain -> AuthValue -> outcome string
}.

Definition ZeroAddress : string := "0x0000000000000000000000000000000000000000".

Definition getProvider (e : Env) : outcome unit := newProvider e.

(** The address of the wallet [getWallet] returns. *)
Definition getWallet (e : Env) : outcome string :=
  if String.eqb (privateKey e) EmptyString then
    Thrown "PRIVATE_KEY not set in environment. Agent wallet unavailable."
  else
    _ <-? getProvider e ;; newWallet e.

Definition getAgentAddress (e : Env) : outcome string :=
  if String.eqb (privateKey e) EmptyString then Returned ZeroAddress else getWallet e.

Definition signPaymentAuthorization (e : Env) (params : SignParams) : outcome string :=
  walletAddress <-? getWallet e ;;
  signTypedData e (Facilitator.mkDomain "PayMind-x402" "1" Config.bsc_chainId)
    (mkAuthValue walletAddress (p_to params) (p_amount params) (p_resource params)
                 (p_nonce params) (p_expiry params)).

End Wallet.

(** ** backend/src/x402/client.ts *)

Module Client.
Import JSON.

Record Request := mkRequest {
  url : string;
  method : string;
  headers : list (string * string)
}.

(** A [fetch] response: [json] and [text] are what reading the body as JSON
    or as text gives. *)
Record Response := mkResponse {
  status : Z;
  statusText : string;
  json : outcome JSON.json;
  text : outcome string
}.

(** [Response.ok]: the status is in the range 200-299. *)
Definition ok (r : Response) : bool := (200 <=? status r) && (status r <=? 299).

Record PaymentProof := mkProof {
  signature : string;
  from : string;
  to : jsval;
  amount : jsval;
  resource : jsval;
  nonce : jsval;
  expiry : jsval
}.

Record PayAndFetchResult := mkResult {
  data : JSON.json;
  paid : bool;
  paymentAmount : jsval;
  paymentProof : option PaymentProof
}.

Record World := mkWorld {
  wallet_env : Wallet.Env;
  (** the answer to the [n]-th call of [fetch] *)
  fetch : nat -> Request -> outcome Response;
  Math_random : JS.double;
  Date_now : Z;
  (** [encodePaymentHeader]: base64 of the proof's JSON text *)
  encodePaymentHeader : PaymentProof -> string
}.

Definition plainRequest (url : string) : Request :=
  mkRequest url "GET" [("Accept", "application/json")].

Definition paidRequest (url encodedPayment : string) : Request :=
  mkRequest url "GET"
    [("Accept", "application/json"); ("X-402-Payment", encodedPayment)].

(** The [try] block reading the requirement out of the 402 body. *)
Definition parseRequirement (firstResponse : Response) : outcome JSON.json :=
  match (body <-? json firstResponse ;;
         nested <-? getProp body "paymentRequirement" ;;
         Returned (match orElse nested (Some body) with
                   | Some r => r
                   | None => body
                   end)) with
  | Returned r => Returned r
  | Thrown _ => Thrown "Could not parse 402 payment requirement from server"
  end.

(** From the parsed requirement to the signed proof. *)
Definition signProof (w : World) (amount : jsval) (requirement : JSON.json)
  : outcome (jsval * PaymentProof) :=
  rq_amount <-? getProp requirement "amount" ;;
  let paymentAmount := orElse amount rq_amount in
  agentAddress <-? Wallet.getAgentAddress (wallet_env w) ;;
  rq_nonce <-? getProp requirement "nonce" ;;
  let nonce := orElse rq_nonce (Some (JNum (JS.randomNonce (Math_random w)))) in
  rq_expiry <-? getProp requirement "expiry" ;;
  let expiry := orElse rq_expiry (Some (JNum (JS.unixSeconds (Date_now w) + 300))) in
  receiver <-? getProp requirement "receiver" ;;
  resource <-? getProp requirement "resource" ;;
  signature <-? Wallet.signPaymentAuthorization (wallet_env w)
    (Wallet.mkSignParams receiver paymentAmount resource nonce expiry) ;;
  Returned (paymentAmount,
            mkProof signature agentAddress receiver paymentAmount resource nonce expiry).

(** [payAndFetch(url, amount)]: the requests sent, in order, and the outcome
    of the promise. *)
Definition payAndFetch (w : World) (url : string) (amount : jsval)
  : list Request * outcome PayAndFetchResult :=
  let first := plainRequest url in
  match fetch w 0%nat first with
  | Thrown e => ([first], Thrown e)
  | Returned firstResponse =>
    if negb (status firstResponse =? 402) then
      if negb (ok firstResponse) then
        ([first], Thrown ("Request failed: " ++ JS.numberToString (status firstResponse)
                            ++ " " ++ statusText firstResponse))
      else
        ([first], data <-? json firstResponse ;;
                  Returned (mkResult data false (Some (JStr "0")) None))
    else
      match (requirement <-? parseRequirement firstResponse ;;
             signProof w amount requirement) with
      | Thrown e => ([first], Thrown e)
      | Returned (paymentAmount, proof) =>
        let second := paidRequest url (encodePaymentHeader w proof) in
        ([first; second],
         paidResponse <-? fetch w 1%nat second ;;
         if negb (ok paidResponse) then
           errorBody <-? text paidResponse ;;
           Thrown ("Paid request failed: " ++ JS.numberToString (status paidResponse)
                     ++ " — " ++ errorBody)
         else
           data <-? json paidResponse ;;
           Returned (mkResult data true paymentAmount (Some proof)))
      end
  end.

(** The outcome of the second leg, case by case: what the paid request
    answers decides the call. *)
Definition secondLeg (w : World) (second : Request) (paymentAmount : jsval)
    (proof : PaymentProof) : outcome PayAndFetchResult :=
  match fetch w 1%nat second with
  | Thrown e => Thrown e
  | Returned paidResponse =>
      if ok paidResponse then
        match json paidResponse with
        | Returned data => Returned (mkResult data true paymentAmount (Some proof))
        | Thrown e => Thrown e
        end
      else
        match text paidResponse with
        | Returned errorBody =>
            Thrown ("Paid request failed: " ++ JS.numberToString (status paidResponse)
                      ++ " — " ++ errorBody)
        | Thrown e => Thrown e
        end
  end.

(** [createPaymentProof(resource, receiver, amount)]: a proof signed ahead
    of any challenge, with the client's own nonce and expiry, and its
    header encoding. *)
Definition createPaymentProof (w : World) (resource receiver amount : string)
  : outcome (PaymentProof * string) :=
  agentAddress <-? Wallet.getAgentAddress (wallet_env w) ;;
  let nonce := Some (JNum (JS.randomNonce (Math_random w))) in
  let expiry := Some (JNum (JS.unixSeconds (Date_now w) + 300)) in
  signature <-? Wallet.signPaymentAuthorization (wallet_env w)
    (Wallet.mkSignParams (Some (JStr receiver)) (Some (JStr amount))
                         (Some (JStr resource)) nonce expiry) ;;
  let proof := mkProof signature agentAddress (Some (JStr receiver))
                       (Some (JStr amount)) (Some (JStr resource)) nonce expiry in
  Returned (proof, encodePaymentHeader w proof).

(** The proof as the verifier's interface types it, when every field has
    its declared type. *)
Definition typed (p : PaymentProof) : option Facilitator.PaymentProof :=
  match to p, amount p, resource p, nonce p, expiry p with
  | Some (JStr t), Some (JStr a), Some (JStr r), Some (JNum n), Some (JNum e) =>
      Some (Facilitator.mkProof (signature p) (from p) t a r n e)
  | _, _, _, _, _ => None
  end.

(** The value the wallet signs for a typed [PaymentAuthorization]. *)
Definition authValue (v : Facilitator.TypedValue) : Wallet.AuthValue :=
  Wallet.mkAuthValue (Facilitator.v_from v) (Some (JStr (Facilitator.v_to v)))
    (Some (JStr (Facilitator.v_amount v))) (Some (JStr (Facilitator.v_resource v)))
    (Some (JNum (Facilitator.v_nonce v))) (Some (JNum (Facilitator.v_expiry v))).

End Client.

(** ** backend/src/blockchain/ledger.ts *)

Module Ledger.

Record PaymentRecord := mkRecord {
  agent : string;
  provider : string;
  amount : string;
  serviceType : string;
  txHash : string;
  timestamp : Z
}.

Record AgentStats := mkAgentStats {
  totalSpent : string;
  queryCount : Z;
  firstPayment : Z;
  lastPayment : Z
}.

(** [inMemoryStats]: [totalSpent] is a BigInt there. *)
Record MemoryStats := mkMemoryStats {
  m_totalSpent : Z;
  m_queryCount : Z;
  m_firstPayment : Z;
  m_lastPayment : Z
}.

(** The module-level fallback store. *)
Record Memory := mkMemory {
  inMemoryLedger : list PaymentRecord;
  inMemoryStats : MemoryStats
}.


Record LogResult := mkLogResult {
  success : bool;
  onChain : bool;
  txReceipt : option string
}.

(** What the deployed contract answers through [ethers] at the time of a
    call: each call returns or throws (unreachable node, revert, bad data). *)
Record World := mkWorld {
  (** [config.contracts.paymentLedger] *)
  paymentLedger : string;
  wallet_env : Wallet.Env;
  Date_now : Z;
  (** [ethers.id] *)
  ethers_id : string -> string;
  (** [contract.logPayment(...)] followed by [tx.wait()]: the receipt hash *)
  contract_logPayment : string -> string -> string -> string -> outcome string;
  (** [contract.getPaymentsByAgent(addr)], mapped to records *)
  contract_getPaymentsByAgent : string -> outcome (list PaymentRecord);
  (** [contract.getAgentStats(addr)], mapped to stats *)
  contract_getAgentStats : string -> outcome AgentStats
}.

Definition hasContract (w : World) : bool :=
  negb (String.eqb (paymentLedger w) EmptyString)
  && negb (String.eqb (paymentLedger w) EmptyString)
  && negb (String.eqb (paymentLedger w) "deployed_contract_address").

(** [getContract() !== null] *)
Definition getContract (w : World) : bool :=
  if negb (hasContract w) then false
  else match Wallet.getWallet (wallet_env w) with
       | Returned _ => true
       | Thrown _ => false
       end.

(** [getReadOnlyContract() !== null] *)
Definition getReadOnlyContract (w : World) : bool :=
  if negb (hasContract w) then false
  else match Wallet.getProvider (wallet_env w) with
       | Returned _ => true
       | Thrown _ => false
       end.

(** The in-memory branch of [logPayment]. The record is pushed before the
    amount is converted. *)
Definition logInMemory (w : World) (mem : Memory)
    (provider amount serviceType txHash : string) : Memory * outcome LogResult :=
  let now := JS.unixSeconds (Date_now w) in
  match Wallet.getAgentAddress (wallet_env w) with
  | Thrown e => (mem, Thrown e)
  | Returned agentAddress =>
    let record := mkRecord agentAddress provider amount serviceType txHash now in
    let ledger' := (inMemoryLedger mem ++ [record])%list in
    match JS.BigInt amount with
    | Thrown e => (mkMemory ledger' (inMemoryStats mem), Thrown e)
    | Returned amtBig =>
      let st := inMemoryStats mem in
      let st' := mkMemoryStats (m_totalSpent st + amtBig) (m_queryCount st + 1)
                   (if m_firstPayment st =? 0 then now else m_firstPayment st) now in
      (mkMemory ledger' st', Returned (mkLogResult true false None))
    end
  end.

Definition logPayment (w : World) (mem : Memory)
    (provider amount serviceType txHash : string) : Memory * outcome LogResult :=
  if getContract w then
    match contract_logPayment w provider amount serviceType (ethers_id w txHash) with
    | Returned receiptHash => (mem, Returned (mkLogResult true true (Some receiptHash)))
    | Thrown _ => logInMemory w mem provider amount serviceType txHash
    end
  else logInMemory w mem provider amount serviceType txHash.

(** [agentAddress || getAgentAddress()] *)
Definition resolveAgent (w : World) (agentAddress : option string) : outcome string :=
  match agentAddress with
  | Some a => if String.eqb a EmptyString then Wallet.getAgentAddress (wallet_env w)
              else Returned a
  | None => Wallet.getAgentAddress (wallet_env w)
  end.

Definition sameAddress (addr : string) (r : PaymentRecord) : bool :=
  String.eqb (JS.toLowerCase (agent r)) (JS.toLowerCase addr).

Definition getPaymentsByAgent (w : World) (mem : Memory) (agentAddress : option string)
  : outcome (list PaymentRecord) :=
  addr <-? resolveAgent w agentAddress ;;
  let fromMemory := List.filter (sameAddress addr) (inMemoryLedger mem) in
  if getReadOnlyContract w then
    match contract_getPaymentsByAgent w addr with
    | Returned payments => Returned payments
    | Thrown _ => Returned fromMemory
    end
  else Returned fromMemory.

Definition getAgentStats (w : World) (mem : Memory) (agentAddress : option string)
  : outcome AgentStats :=
  addr <-? resolveAgent w agentAddress ;;
  let st := inMemoryStats mem in
  let fromMemory := mkAgentStats (pretty (m_totalSpent st)) (m_queryCount st)
                      (m_firstPayment st) (m_lastPayment st) in
  if getReadOnlyContract w then
    match contract_getAgentStats w addr with
    | Returned stats => Returned stats
    | Thrown _ => Returned fromMemory
    end
  else Returned fromMemory.

(** The sum of the amounts of a list of records, where every amount
    converts to a BigInt. *)
Fixpoint sumAmounts (rs : list PaymentRecord) : option Z :=
  match rs with
  | [] => Some 0
  | r :: rest =>
      match JS.StringToBigInt (amount r), sumAmounts rest with
      | Some a, Some s => Some (a + s)
      | _, _ => None
      end
  end.

(** One commit: the arguments of a [logPayment] call and the world it runs
    in. *)
Record Commit := mkCommit {
  c_world : World;
  c_provider : string;
  c_amount : string;
  c_serviceType : string;
  c_txHash : string
}.

Definition commit (mem : Memory) (c : Commit) : Memory :=
  fst (logPayment (c_world c) mem (c_provider c) (c_amount c) (c_serviceType c)
                  (c_txHash c)).

Definition commitAll (cs : list Commit) (mem : Memory) : Memory :=
  fold_left commit cs mem.

End Ledger.

(** ** contracts/PaymentLedger.sol *)

Module PaymentLedger.

Record Payment := mkPayment {
  agent : address;
  dataSource : string;
  amount : Z;
  dataHash : Z;
  timestamp : Z;
  queryType : string
}.

Record state := mkState {
  payments : list Payment;
  totalSpentByAgent : gmap address Z;
  paymentCountByAgent : gmap address Z;
  spentBySourceByAgent : gmap (address * string) Z
}.

(** The two deployed contracts: the ledger at address [this], and the
    registry it was constructed with. *)
Record chain := mkChain {
  this : address;
  agentRegistry : AgentRegistry.state;
  ledger : state
}.

(** [m[k]] for a mapping to [uint256] *)
Definition at0 {K} `{Countable K} (m : gmap K Z) (k : K) : Z := default 0 (m !! k).

Definition deploy (this : address) (registry : AgentRegistry.state) : chain :=
  mkChain this registry (mkState [] ∅ ∅ ∅).

Definition logPayment (m : Msg) (dataSource : string) (amount dataHash : Z)
    (queryType : string) (c : chain) : result chain :=
  require! (0 <? Z.of_nat (String.length dataSource))
    else "PaymentLedger: empty dataSource" ;;
  require! (0 <? amount) else "PaymentLedger: zero amount" ;;
  require! (0 <? Z.of_nat (String.length queryType))
    else "PaymentLedger: empty queryType" ;;
  let inner := mkMsg (this c) (block_timestamp m) in
  allowed <-! AgentRegistry.canSpend inner (msg_sender m) amount (agentRegistry c) ;;
  require! allowed else
    "PaymentLedger: agent cannot spend (not registered, inactive, or exceeds budget)" ;;
  registry' <-! AgentRegistry.recordSpend inner (msg_sender m) amount (agentRegistry c) ;;
  let payment := mkPayment (msg_sender m) dataSource amount dataHash (block_timestamp m)
                           queryType in
  let l := ledger c in
  total <-! checked_add (at0 (totalSpentByAgent l) (msg_sender m)) amount ;;
  count <-! checked_add (at0 (paymentCountByAgent l) (msg_sender m)) 1 ;;
  bySource <-! checked_add (at0 (spentBySourceByAgent l) (msg_sender m, dataSource)) amount ;;
  Ok (mkChain (this c) registry'
        (mkState (payments l ++ [payment])
                 (<[msg_sender m := total]> (totalSpentByAgent l))
                 (<[msg_sender m := count]> (paymentCountByAgent l))
                 (<[(msg_sender m, dataSource) := bySource]> (spentBySourceByAgent l)))).

Definition getPaymentCount (c : chain) : Z := Z.of_nat (length (payments (ledger c))).

Definition paymentsOf (a : address) (ps : list Payment) : list Payment :=
  List.filter (fun p => agent p =? a) ps.

(** The loop of [getAgentStats] over [payments]: first and last timestamp of
    the agent's payments. *)
Definition scanTimestamps (a : address) (ps : list Payment) : bool * Z * Z :=
  fold_left (fun (acc : bool * Z * Z) (p : Payment) =>
               let '(foundFirst, firstPayment, lastPayment) := acc in
               if agent p =? a then
                 (true, if foundFirst then firstPayment else timestamp p, timestamp p)
               else (foundFirst, firstPayment, lastPayment))
            ps (false, 0, 0).

(** [getAgentStats(agent)]: (totalSpent, count, firstPayment, lastPayment) *)
Definition getAgentStats (a : address) (c : chain) : Z * Z * Z * Z :=
  let totalSpent := at0 (totalSpentByAgent (ledger c)) a in
  let count := at0 (paymentCountByAgent (ledger c)) a in
  if count =? 0 then (0, 0, 0, 0)
  else let '(_, firstPayment, lastPayment) := scanTimestamps a (payments (ledger c)) in
       (totalSpent, count, firstPayment, lastPayment).

(** The sum of the amounts of a list of payments. *)
Definition sumAmounts (ps : list Payment) : Z :=
  fold_right (fun p acc => amount p + acc) 0 ps.

(** The transactions an account can send to the two contracts. *)
Inductive Tx : Type :=
| SetPaymentLedger (m : Msg) (_paymentLedger : address)
| RegisterAgent (m : Msg) (name : string) (dailyBudget : Z)
| DeactivateAgent (m : Msg)
| UpdateBudget (m : Msg) (newBudget : Z)
| RecordSpend (m : Msg) (agent : address) (amount : Z)
| LogPayment (m : Msg) (dataSource : string) (amount dataHash : Z) (queryType : string).

Definition onRegistry (f : AgentRegistry.state -> result AgentRegistry.state)
    (c : chain) : result chain :=
  registry' <-! f (agentRegistry c) ;;
  Ok (mkChain (this c) registry' (ledger c)).

Definition call (tx : Tx) (c : chain) : result chain :=
  match tx with
  | SetPaymentLedger m a => onRegistry (AgentRegistry.setPaymentLedger m a) c
  | RegisterAgent m n b => onRegistry (AgentRegistry.registerAgent m n b) c
  | DeactivateAgent m => onRegistry (AgentRegistry.deactivateAgent m) c
  | UpdateBudget m b => onRegistry (AgentRegistry.updateBudget m b) c
  | RecordSpend m a x => onRegistry (AgentRegistry.recordSpend m a x) c
  | LogPayment m ds x h q => logPayment m ds x h q c
  end.

Definition exec (c : chain) (tx : Tx) : chain := transact (call tx) c.

Definition execAll (txs : list Tx) (c : chain) : chain := fold_left exec txs c.

(** *** The other functions of the contract *)

(** An element of a freshly allocated [Payment[]]. *)
Definition zeroPayment : Payment := mkPayment 0 EmptyString 0 0 0 EmptyString.

(** [new Payment[](n)] *)
Definition newArray (n : Z) : list Payment := replicate (Z.to_nat n) zeroPayment.

(** [a[i] = p] on a memory array: [Panic(0x32)] outside its bounds. *)
Definition store (a : list Payment) (i : Z) (p : Payment) : result (list Payment) :=
  if (0 <=? i) && (i <? Z.of_nat (length a)) then Ok (<[Z.to_nat i := p]> a)
  else Panic 50.

(** [a[i]] on a storage array: [Panic(0x32)] outside its bounds. *)
Definition load (a : list Payment) (i : Z) : result Payment :=
  if 0 <=? i then
    match a !! Z.to_nat i with
    | Some p => Ok p
    | None => Panic 50
    end
  else Panic 50.

(** [x - y] on [uint256]: the difference, or [Panic(0x11)]. *)
Definition checked_sub (x y : Z) : result Z :=
  if y <=? x then Ok (x - y) else Panic 17.

(** The loop of [getPaymentsByAgent] over the payments from position [i]
    on: [ps] is what is left of [payments], [index] the next free slot. *)
Fixpoint collect (a : address) (count : Z) (ps : list Payment) (index : Z)
    (agentPayments : list Payment) : result (list Payment) :=
  match ps with
  | [] => Ok agentPayments
  | p :: rest =>
      if agent p =? a then
        agentPayments' <-! store agentPayments index p ;;
        index' <-! checked_add index 1 ;;
        if index' =? count then Ok agentPayments'
        else collect a count rest index' agentPayments'
      else collect a count rest index agentPayments
  end.

Definition getPaymentsByAgent (a : address) (c : chain) : result (list Payment) :=
  let count := at0 (paymentCountByAgent (ledger c)) a in
  collect a count (payments (ledger c)) 0 (newArray count).

(** The loop of [getRecentPayments]: [recent[i] = payments[startIndex + i]]
    for [i] in [slots]. *)
Definition copyRecent (ps : list Payment) (startIndex : Z) (slots : list nat)
    (recent : list Payment) : result (list Payment) :=
  fold_left (fun acc i =>
               recent <-! acc ;;
               j <-! checked_add startIndex (Z.of_nat i) ;;
               p <-! load ps j ;;
               store recent (Z.of_nat i) p)
            slots (Ok recent).

Definition getRecentPayments (count : Z) (c : chain) : result (list Payment) :=
  let total := Z.of_nat (length (payments (ledger c))) in
  let count := if total <? count then total else count in
  startIndex <-! checked_sub total count ;;
  copyRecent (payments (ledger c)) startIndex (seq 0 (Z.to_nat count)) (newArray count).

(** The day of a timestamp, as [AgentRegistry] counts days. *)
Definition dayOf (t : Z) : Z := t / ONE_DAY.

(** The payments of agent [a] made on day [d], and what they sum to. *)
Definition paymentsOnDay (a : address) (d : Z) (ps : list Payment) : list Payment :=
  List.filter (fun p => (agent p =? a) && (dayOf (timestamp p) =? d)) ps.

(** The payments of agent [a] to source [ds]. *)
Definition paymentsToSource (a : address) (ds : string) (ps : list Payment)
  : list Payment :=
  List.filter (fun p => (agent p =? a) && String.eqb (dataSource p) ds) ps.

(** The account that sends a transaction, and the numbers it carries. *)
Definition txMsg (tx : Tx) : Msg :=
  match tx with
  | SetPaymentLedger m _ | RegisterAgent m _ _ | DeactivateAgent m
  | UpdateBudget m _ | RecordSpend m _ _ | LogPayment m _ _ _ _ => m
  end.

(** ABI-decoded arguments are [uint256] values, and the block timestamp
    is one. *)
Definition wellFormed (tx : Tx) : Prop :=
  uint256 (block_timestamp (txMsg tx)) /\
  match tx with
  | RegisterAgent _ _ b | UpdateBudget _ b => uint256 b
  | RecordSpend _ _ x | LogPayment _ _ x _ _ => uint256 x
  | _ => True
  end.

(** The registry a ledger is deployed with: freshly constructed by
    [deployer]. *)
Definition genesis (deployer : Msg) (this : address) : chain :=
  deploy this (AgentRegistry.init deployer).


(** *** The transactions as a step relation

    [spendable] is the condition under which [recordSpend] returns, [spent]
    the registry it leaves; [step c tx c'] holds when [tx] returns on [c]
    and leaves [c']. *)
Definition spendable (reg : AgentRegistry.state) (today : Z) (a : address) (x : Z)
  : Prop :=
  let ag := AgentRegistry.agentAt reg a in
  AgentRegistry.wallet ag <> 0 /\
  AgentRegistry.active ag = true /\
  AgentRegistry.effectiveSpent today ag + x <= MAX_UINT256 /\
  AgentRegistry.effectiveSpent today ag + x <= AgentRegistry.dailyBudget ag.

Definition spent (reg : AgentRegistry.state) (today : Z) (a : address) (x : Z)
  : AgentRegistry.state :=
  let ag := AgentRegistry.agentAt reg a in
  AgentRegistry.setAgent reg a
    (AgentRegistry.set_spentToday (AgentRegistry.rollover today ag)
       (AgentRegistry.effectiveSpent today ag + x)).

Inductive step (c : chain) : Tx -> chain -> Prop :=
| step_setPaymentLedger (m : Msg) (a : address) :
    msg_sender m = AgentRegistry.owner (agentRegistry c) ->
    a <> 0 ->
    step c (SetPaymentLedger m a)
      (mkChain (this c)
         (AgentRegistry.mkState (AgentRegistry.agents (agentRegistry c))
            (AgentRegistry.agentList (agentRegistry c)) a
            (AgentRegistry.owner (agentRegistry c)))
         (ledger c))
| step_registerAgent (m : Msg) (n : string) (b : Z) :
    AgentRegistry.wallet (AgentRegistry.agentAt (agentRegistry c) (msg_sender m)) = 0 ->
    n <> EmptyString ->
    0 < b ->
    step c (RegisterAgent m n b)
      (mkChain (this c)
         (AgentRegistry.mkState
            (<[msg_sender m :=
                 AgentRegistry.mkAgent (msg_sender m) n b 0
                   (block_timestamp m / ONE_DAY) true (block_timestamp m)]>
               (AgentRegistry.agents (agentRegistry c)))
            (AgentRegistry.agentList (agentRegistry c) ++ [msg_sender m])
            (AgentRegistry.paymentLedger (agentRegistry c))
            (AgentRegistry.owner (agentRegistry c)))
         (ledger c))
| step_deactivateAgent (m : Msg) :
    AgentRegistry.wallet (AgentRegistry.agentAt (agentRegistry c) (msg_sender m)) <> 0 ->
    step c (DeactivateAgent m)
      (mkChain (this c)
         (AgentRegistry.setAgent (agentRegistry c) (msg_sender m)
            (AgentRegistry.set_active
               (AgentRegistry.agentAt (agentRegistry c) (msg_sender m)) false))
         (ledger c))
| step_updateBudget (m : Msg) (b : Z) :
    AgentRegistry.wallet (AgentRegistry.agentAt (agentRegistry c) (msg_sender m)) <> 0 ->
    0 < b ->
    step c (UpdateBudget m b)
      (mkChain (this c)
         (AgentRegistry.setAgent (agentRegistry c) (msg_sender m)
            (AgentRegistry.set_dailyBudget
               (AgentRegistry.agentAt (agentRegistry c) (msg_sender m)) b))
         (ledger c))
| step_recordSpend (m : Msg) (a : address) (x : Z) :
    msg_sender m = AgentRegistry.paymentLedger (agentRegistry c) ->
    spendable (agentRegistry c) (block_timestamp m / ONE_DAY) a x ->
    step c (RecordSpend m a x)
      (mkChain (this c) (spent (agentRegistry c) (block_timestamp m / ONE_DAY) a x)
               (ledger c))
| step_logPayment (m : Msg) (ds : string) (x h : Z) (q : string) :
    this c = AgentRegistry.paymentLedger (agentRegistry c) ->
    ds <> EmptyString ->
    0 < x ->
    q <> EmptyString ->
    spendable (agentRegistry c) (block_timestamp m / ONE_DAY) (msg_sender m) x ->
    at0 (totalSpentByAgent (ledger c)) (msg_sender m) + x <= MAX_UINT256 ->
    at0 (paymentCountByAgent (ledger c)) (msg_sender m) + 1 <= MAX_UINT256 ->
    at0 (spentBySourceByAgent (ledger c)) (msg_sender m, ds) + x <= MAX_UINT256 ->
    step c (LogPayment m ds x h q)
      (mkChain (this c)
         (spent (agentRegistry c) (block_timestamp m / ONE_DAY) (msg_sender m) x)
         (mkState
            (payments (ledger c)
               ++ [mkPayment (msg_sender m) ds x h (block_timestamp m) q])
            (<[msg_sender m := at0 (totalSpentByAgent (ledger c)) (msg_sender m) + x]>
               (totalSpentByAgent (ledger c)))
            (<[msg_sender m := at0 (paymentCountByAgent (ledger c)) (msg_sender m) + 1]>
               (paymentCountByAgent (ledger c)))
            (<[(msg_sender m, ds) :=
                 at0 (spentBySourceByAgent (ledger c)) (msg_sender m, ds) + x]>
               (spentBySourceByAgent (ledger c))))).

(** The aggregates agree with the recorded payments, agent by agent. *)
Definition aggregatesAgree (l : state) : Prop :=
  forall a,
    at0 (totalSpentByAgent l) a = sumAmounts (paymentsOf a (payments l)) /\
    at0 (paymentCountByAgent l) a = Z.of_nat (length (paymentsOf a (payments l))).

(** The per-source aggregates agree with the recorded payments, and the
    counters are [uint256] values. *)
Definition sourcesAgree (l : state) : Prop :=
  forall (a : address) (ds : string),
    at0 (spentBySourceByAgent l) (a, ds)
      = sumAmounts (paymentsToSource a ds (payments l)).

Definition countsBounded (l : state) : Prop :=
  forall a : address, at0 (paymentCountByAgent l) a <= MAX_UINT256.

(** What the registry holds for an agent covers what the ledger recorded
    for it on the registry's current day, no payment of the agent is dated
    after that day, and an unregistered address has no payment. *)
Definition daysAgree (c : chain) : Prop :=
  forall a : address,
    let ag := AgentRegistry.agentAt (agentRegistry c) a in
    sumAmounts (paymentsOnDay a (AgentRegistry.lastResetDay ag) (payments (ledger c)))
      <= AgentRegistry.spentToday ag /\
    Forall (fun p => dayOf (timestamp p) <= AgentRegistry.lastResetDay ag)
           (paymentsOf a (payments (ledger c))) /\
    (AgentRegistry.wallet ag = 0 -> paymentsOf a (payments (ledger c)) = []).

(** The payment a [logPayment] transaction records. *)
Definition recorded (tx : Tx) : option Payment :=
  match tx with
  | LogPayment m ds x h q =>
      Some (mkPayment (msg_sender m) ds x h (block_timestamp m) q)
  | _ => None
  end.

End PaymentLedger.

(** ** The payment header, as the gateway reads it (facilitator.ts) *)

Module Header.
Import JSON.

(** The value [JSON.stringify] writes for a proof. *)
Definition proofJson (p : Facilitator.PaymentProof) : JSON.json :=
  JObj [("signature", JStr (Facilitator.signature p));
        ("from", JStr (Facilitator.from p));
        ("to", JStr (Facilitator.to p));
        ("amount", JStr (Facilitator.amount p));
        ("resource", JStr (Facilitator.resource p));
        ("nonce", JNum (Facilitator.nonce p));
        ("expiry", JNum (Facilitator.expiry p))].

(** The parsed value read at the type [PaymentProof], when its fields have
    the declared types. *)
Definition asProof (parsed : JSON.json) : option Facilitator.PaymentProof :=
  match parsed with
  | JObj fields =>
      match lookupField "signature" fields, lookupField "from" fields,
            lookupField "to" fields, lookupField "amount" fields,
            lookupField "resource" fields, lookupField "nonce" fields,
            lookupField "expiry" fields with
      | Some (JStr s), Some (JStr f), Some (JStr t), Some (JStr a), Some (JStr r),
        Some (JNum n), Some (JNum e) => Some (Facilitator.mkProof s f t a r n e)
      | _, _, _, _, _, _, _ => None
      end
  | _ => None
  end.

Section Parse.

(** [JSON.parse(Buffer.from(header, "base64").toString("utf-8"))] *)
Variable decode : string -> outcome JSON.json.

(** The body of the [try] block of [parsePaymentHeader]: the parsed value
    or [null]. *)
Definition parseBody (header : string) : outcome (option JSON.json) :=
  parsed <-? decode header ;;
  signature <-? getProp parsed "signature" ;;
  from <-? getProp parsed "from" ;;
  to <-? getProp parsed "to" ;;
  amount <-? getProp parsed "amount" ;;
  resource <-? getProp parsed "resource" ;;
  nonce <-? getProp parsed "nonce" ;;
  expiry <-? getProp parsed "expiry" ;;
  if negb (truthy signature) || negb (truthy from) || negb (truthy to)
     || negb (truthy amount) || negb (truthy resource)
     || (match nonce with None => true | Some _ => false end)
     || negb (truthy expiry)
  then Returned None
  else Returned (Some parsed).

(** [parsePaymentHeader(header)]: the parsed value, or [None] for [null]. *)
Definition parsePaymentHeader (header : string) : option JSON.json :=
  match parseBody header with
  | Returned r => r
  | Thrown _ => None
  end.

End Parse.

End Header.

(** ** The gateway: x402/server.ts ([src/unnamed/part_003]) *)

Module Gateway.

(** What a request to a protected route is answered with. *)
Inductive Response : Type :=
| PaymentRequired (requirement : Facilitator.PaymentRequirement) (message : string)
| InvalidPayment (message : string)
| PaymentRejected (reason : option string) (requirement : Facilitator.PaymentRequirement)
| Served (data : JSON.json) (payer amount service : string)
| ServiceFailed (error : string).

Definition status (r : Response) : Z :=
  match r with
  | PaymentRequired _ _ => 402
  | InvalidPayment _ => 400
  | PaymentRejected _ _ => 402
  | Served _ _ _ _ => 200
  | ServiceFailed _ => 500
  end.

(** The JSON a [PaymentRequirement] is sent as. *)
Definition requirementJson (r : Facilitator.PaymentRequirement) : JSON.json :=
  JSON.JObj [("amount", JSON.JStr (Facilitator.rq_amount r));
             ("currency", JSON.JStr (Facilitator.rq_currency r));
             ("receiver", JSON.JStr (Facilitator.rq_receiver r));
             ("resource", JSON.JStr (Facilitator.rq_resource r));
             ("network", JSON.JStr (Facilitator.rq_network r));
             ("chainId", JSON.JNum (Facilitator.rq_chainId r));
             ("nonce", JSON.JNum (Facilitator.rq_nonce r));
             ("expiry", JSON.JNum (Facilitator.rq_expiry r))].

(** The body handed to [c.json] for each answer; an [undefined] reason is
    left out by the serialization. *)
Definition body (r : Response) : JSON.json :=
  match r with
  | PaymentRequired requirement message =>
      JSON.JObj [("error", JSON.JStr "Payment Required");
                 ("code", JSON.JNum 402);
                 ("paymentRequirement", requirementJson requirement);
                 ("message", JSON.JStr message)]
  | InvalidPayment message =>
      JSON.JObj [("error", JSON.JStr "Invalid Payment");
                 ("code", JSON.JNum 400);
                 ("message", JSON.JStr message)]
  | PaymentRejected reason requirement =>
      JSON.JObj ([("error", JSON.JStr "Payment Rejected");
                  ("code", JSON.JNum 402)]
                 ++ match reason with
                    | Some text => [("reason", JSON.JStr text)]
                    | None => []
                    end
                 ++ [("paymentRequirement", requirementJson requirement)])%list
  | Served data payer amount service =>
      JSON.JObj [("success", JSON.JBool true);
                 ("data", data);
                 ("payment", JSON.JObj [("payer", JSON.JStr payer);
                                        ("amount", JSON.JStr amount);
                                        ("service", JSON.JStr service)])]
  | ServiceFailed error =>
      JSON.JObj [("success", JSON.JBool false); ("error", JSON.JStr error)]
  end.

(** The middleware answers itself, or sets [x402_payer] and [x402_amount]
    and calls [next]. *)
Inductive Guarded : Type :=
| Reply (r : Response)
| Next (x402_payer x402_amount : string).

(** What the middleware reads from outside during one request. *)
Record Env := mkEnv {
  (** [DATA_PROVIDER], the agent address read when the module is loaded *)
  DATA_PROVIDER : string;
  (** the clock read by the verifier *)
  dateNow : Z;
  (** the draw and the clock read by the requirement issuer *)
  issueRandom : JS.double;
  issueNow : Z
}.

(** [DATA_PROVIDER || "0x0000000000000000000000000000000000000000"] *)
Definition receiver (e : Env) : string :=
  if String.eqb (DATA_PROVIDER e) EmptyString then Wallet.ZeroAddress
  else DATA_PROVIDER e.

Definition challenge (e : Env) (resource amount : string)
  : Facilitator.PaymentRequirement :=
  Facilitator.createPaymentRequirement (issueRandom e) (issueNow e) resource amount
    (receiver e).

Inductive Service : Type := Security | Price | Whale.

Definition serviceName (s : Service) : string :=
  match s with Security => "security" | Price => "price" | Whale => "whale" end.

Definition serviceCost (s : Service) : string :=
  match s with
  | Security => Config.securityQueryCost
  | Price => Config.priceQueryCost
  | Whale => Config.whaleQueryCost
  end.

(** [`/api/x402/security/${token}`] and its siblings *)
Definition serviceResource (s : Service) (token : string) : string :=
  "/api/x402/" ++ serviceName s ++ "/" ++ token.

Section Middleware.

Variable verifyTypedData :
  Facilitator.Domain -> Facilitator.TypedValue -> string -> outcome string.

(** [parsePaymentHeader] at its declared type,
    [string -> PaymentProof | null]. *)
Variable parsePaymentHeader : string -> option Facilitator.PaymentProof.

(** [x402Middleware(resource, amount)] on a request carrying
    [paymentHeader] (if any), with the replay set before and after. *)
Definition x402Middleware (e : Env) (resource amount : string)
    (paymentHeader : option string) (usedNonces : gset string)
  : Guarded * gset string :=
  match paymentHeader with
  | None =>
      (Reply (PaymentRequired (challenge e resource amount)
                ("This endpoint requires an x402 micropayment of " ++ amount
                   ++ " wei. Include a signed X-402-Payment header.")),
       usedNonces)
  | Some header =>
      if String.eqb header EmptyString then
        (Reply (PaymentRequired (challenge e resource amount)
                  ("This endpoint requires an x402 micropayment of " ++ amount
                     ++ " wei. Include a signed X-402-Payment header.")),
         usedNonces)
      else
      match parsePaymentHeader header with
      | None =>
          (Reply (InvalidPayment
             "Could not parse X-402-Payment header. Expected base64-encoded JSON."),
           usedNonces)
      | Some proof =>
          let '(verification, usedNonces') :=
            Facilitator.verifyPaymentProof verifyTypedData (dateNow e) usedNonces
              proof resource amount in
          if negb (Facilitator.valid verification) then
            (Reply (PaymentRejected (Facilitator.reason verification)
                      (challenge e resource amount)),
             usedNonces')
          else
            (Next (Facilitator.signer verification) (Facilitator.amount proof),
             usedNonces')
      end
  end.

(** A protected route: the middleware, then the handler, which asks the
    data service ([data] is what it answers for [token]). *)
Definition route (s : Service) (e : Env) (token : string) (data : outcome JSON.json)
    (paymentHeader : option string) (usedNonces : gset string)
  : Response * gset string :=
  match x402Middleware e (serviceResource s token) (serviceCost s) paymentHeader
          usedNonces with
  | (Reply r, used') => (r, used')
  | (Next payer amount, used') =>
      (match data with
       | Returned d => Served d payer amount (serviceName s)
       | Thrown message => ServiceFailed message
       end, used')
  end.

(** A sequence of requests to the three routes, oldest first, and the
    responses; the replay set is the one of the facilitator module,
    shared by the routes. *)
Record Request := mkRequest {
  rq_service : Service;
  rq_env : Env;
  rq_token : string;
  rq_data : outcome JSON.json;
  rq_header : option string
}.

Definition handle (rq : Request) (usedNonces : gset string)
  : Response * gset string :=
  route (rq_service rq) (rq_env rq) (rq_token rq) (rq_data rq) (rq_header rq)
        usedNonces.

Fixpoint serve (rqs : list Request) (usedNonces : gset string)
  : list Response * gset string :=
  match rqs with
  | [] => ([], usedNonces)
  | rq :: rest =>
      let '(r, used') := handle rq usedNonces in
      let '(rs, used'') := serve rest used' in
      (r :: rs, used'')
  end.

End Middleware.

End Gateway.

(** ** The agent: agent/core.ts (the text in [src/backend/src/agent/analyzer.ts],
    lines 477-740)

    The payments of [analyzeToken] and the fields of its result that depend
    on them; the [timing] fields, which only read the clock, are left out. *)

Module Agent.

(** What [analyzeToken] obtains from outside during one call. A data
    service that rejects leaves its data [null]. *)
Record World := mkWorld {
  (** [ethers.isAddress(tokenAddress)] *)
  isAddress : bool;
  (** [analyzeTokenSecurity], [getTokenPrice], [getWhaleTransactions] *)
  analyzeTokenSecurity : outcome JSON.json;
  getTokenPrice : outcome JSON.json;
  getWhaleTransactions : outcome JSON.json;
  (** [getBasicSentiment(tokenAddress, priceData || undefined)] *)
  getBasicSentiment : JSON.jsval -> outcome JSON.json;
  (** the ledger module's world when the payment for a service is logged,
      and [`${Date.now()}`] at that moment *)
  ledgerAt : string -> Ledger.World;
  stampAt : string -> string;
  (** [synthesizeReport(tokenAddress, securityData, priceData, whaleData,
      sentimentData)]: the report, or the message of the error thrown *)
  synthesizeReport : JSON.json -> JSON.json -> JSON.json -> JSON.json
                     -> outcome JSON.json
}.

Record Entry := mkEntry {
  service : string;
  amount : string;
  e_success : bool
}.

Record AnalysisResult := mkResult {
  success : bool;
  report : option JSON.json;
  error : option string;
  payments_total : string;
  payments_breakdown : list Entry
}.

Definition PROVIDER_ADDRESS : string := "0x0000000000000000000000000000000000000001".

(** The data of a settled call: the value if fulfilled, [null] otherwise. *)
Definition settled (r : outcome JSON.json) : JSON.json :=
  match r with
  | Returned data => data
  | Thrown _ => JSON.JNull
  end.

(** One [if (data) { const payment = await logPayment(...);
    paymentBreakdown.push(...) }] block, on the in-memory store and the
    breakdown so far; an exception of [logPayment] ends the call. *)
Definition logged (w : World) (tokenAddress name cost : string) (data : JSON.json)
    (acc : Ledger.Memory * outcome (list Entry))
  : Ledger.Memory * outcome (list Entry) :=
  match acc with
  | (mem, Thrown e) => (mem, Thrown e)
  | (mem, Returned paymentBreakdown) =>
      if JSON.truthy (Some data) then
        match Ledger.logPayment (ledgerAt w name) mem PROVIDER_ADDRESS cost name
                (name ++ "-" ++ tokenAddress ++ "-" ++ stampAt w name) with
        | (mem', Returned payment) =>
            (mem', Returned (paymentBreakdown
                               ++ [mkEntry name cost (Ledger.success payment)])%list)
        | (mem', Thrown e) => (mem', Thrown e)
        end
      else (mem, Returned paymentBreakdown)
  end.

(** [paymentBreakdown.reduce((sum, p) => sum + BigInt(p.amount), BigInt(0))] *)
Definition totalOf (paymentBreakdown : list Entry) : outcome Z :=
  fold_left (fun (sum : outcome Z) (p : Entry) =>
               s <-? sum ;; a <-? JS.BigInt (amount p) ;; Returned (s + a))
            paymentBreakdown (Returned 0).

(** [analyzeToken(tokenAddress)], with the in-memory ledger before and
    after. *)
Definition analyzeToken (w : World) (mem : Ledger.Memory) (tokenAddress : string)
  : Ledger.Memory * outcome AnalysisResult :=
  if negb (isAddress w) then
    (mem, Returned (mkResult false None
                      (Some ("Invalid token address: " ++ tokenAddress)) "0" []))
  else
    let securityData := settled (analyzeTokenSecurity w) in
    let priceData := settled (getTokenPrice w) in
    let whaleData := settled (getWhaleTransactions w) in
    let sentimentData :=
      settled (getBasicSentiment w (JSON.orElse (Some priceData) JSON.undefined)) in
    match logged w tokenAddress "sentiment" Config.sentimentQueryCost sentimentData
            (logged w tokenAddress "whale" Config.whaleQueryCost whaleData
               (logged w tokenAddress "price" Config.priceQueryCost priceData
                  (logged w tokenAddress "security" Config.securityQueryCost securityData
                     (mem, Returned [])))) with
    | (mem', Thrown e) => (mem', Thrown e)
    | (mem', Returned paymentBreakdown) =>
        match totalOf paymentBreakdown with
        | Thrown e => (mem', Thrown e)
        | Returned totalPayment =>
            match synthesizeReport w securityData priceData whaleData sentimentData with
            | Returned r =>
                (mem', Returned (mkResult true (Some r) None (pretty totalPayment)
                                   paymentBreakdown))
            | Thrown message =>
                (mem', Returned (mkResult false None
                                   (Some ("Analysis failed: " ++ message))
                                   (pretty totalPayment) paymentBreakdown))
            end
        end
    end.

(** What is due for the data that arrived: the services in the order they
    are paid, with their prices. *)
Definition due (securityData priceData whaleData sentimentData : JSON.json)
  : list (string * string) :=
  (if JSON.truthy (Some securityData) then [("security", Config.securityQueryCost)] else [])
  ++ (if JSON.truthy (Some priceData) then [("price", Config.priceQueryCost)] else [])
  ++ (if JSON.truthy (Some whaleData) then [("whale", Config.whaleQueryCost)] else [])
  ++ (if JSON.truthy (Some sentimentData) then [("sentiment", Config.sentimentQueryCost)]
      else []).

End Agent.

(** ** Concrete scenarios *)

Module Scenario.

(** Scenario A: the registry owned by account 1, ledger at 9, agent 7
    registered on day 20000 with a daily budget of 1,000,000. *)
Definition day0 : Z := 20000 * ONE_DAY.

Definition registry0 : AgentRegistry.state :=
  transact (AgentRegistry.setPaymentLedger (mkMsg 1 day0) 9)
    (AgentRegistry.init (mkMsg 1 day0)).

Definition registryA : AgentRegistry.state :=
  transact (AgentRegistry.registerAgent (mkMsg 7 day0) "agent" 1000000) registry0.

Definition asLedger (t : Z) : Msg := mkMsg 9 t.

(** A stand-in for signature recovery in the examples: the signature is the
    signer's address in clear. Like the real recovery, it does not depend
    on the letter case in which [from] is written. *)
Definition clearSigner (_ : Facilitator.Domain) (_ : Facilitator.TypedValue)
    (signature : string) : outcome string := Returned signature.

Definition verify := Facilitator.verifyPaymentProof clearSigner.

Definition payer : string := "0xAbCd000000000000000000000000000000000001".
Definition payerLower : string := "0xabcd000000000000000000000000000000000001".
Definition provider : string := "0x0000000000000000000000000000000000000002".
Definition priceResource : string := "/api/x402/price/0xToken".

(** Scenario B/C: a proof for the price endpoint, expiring at second 2000. *)
Definition proofB : Facilitator.PaymentProof :=
  Facilitator.mkProof payer payer provider Config.priceQueryCost priceResource 42 2000.

(** The same proof with [from] written in lower case. *)
Definition proofB_lower : Facilitator.PaymentProof :=
  Facilitator.mkProof payer payerLower provider Config.priceQueryCost priceResource
                      42 2000.

(** Scenario B on the client side: the gateway answers the plain request
    with a 402 challenge for 50,000,000,000,000 and the paid request with
    the data. The signer and the header encoding are stand-ins. *)
Definition walletB : Wallet.Env :=
  Wallet.mkEnv "0xkey" (Returned tt) (Returned payer)
    (fun _ v => Returned ("signed-by-" ++ Wallet.a_from v)).

Definition requirementB : JSON.json :=
  JSON.JObj [("amount", JSON.JStr Config.priceQueryCost);
             ("currency", JSON.JStr Config.contracts_usdt);
             ("receiver", JSON.JStr provider);
             ("resource", JSON.JStr priceResource);
             ("network", JSON.JStr "bsc");
             ("chainId", JSON.JNum 56);
             ("nonce", JSON.JNum 42);
             ("expiry", JSON.JNum 2000)].

Definition challengeB : Client.Response :=
  Client.mkResponse 402 "Payment Required"
    (Returned (JSON.JObj [("error", JSON.JStr "Payment Required");
                          ("code", JSON.JNum 402);
                          ("paymentRequirement", requirementB)]))
    (Returned EmptyString).

Definition dataB : JSON.json :=
  JSON.JObj [("success", JSON.JBool true)].

Definition gatewayB (n : nat) (rq : Client.Request) : outcome Client.Response :=
  match n with
  | O => Returned challengeB
  | _ => Returned (Client.mkResponse 200 "OK" (Returned dataB) (Returned EmptyString))
  end.

Definition worldB : Client.World :=
  Client.mkWorld walletB gatewayB (JS.mkDouble 1 (-1)) 1999000
    (fun proof => "b64:" ++ Client.signature proof).

(** A server that answers the plain request with an error that is no
    challenge. *)
Definition serverError : Client.Response :=
  Client.mkResponse 500 "Internal Server Error"
    (Returned (JSON.JObj [("error", JSON.JStr "boom")])) (Returned "boom").

Definition worldDown : Client.World :=
  Client.mkWorld walletB (fun _ _ => Returned serverError) (JS.mkDouble 1 (-1)) 1999000
    (fun proof => "b64:" ++ Client.signature proof).



(** A backend without a ledger contract. *)
Definition ledgerAbsent : Ledger.World :=
  Ledger.mkWorld EmptyString walletB 1999000
    (fun s => "id:" ++ s)
    (fun _ _ _ _ => Thrown "no contract")
    (fun _ => Thrown "no contract")
    (fun _ => Thrown "no contract").

Definition priceRecord : Ledger.PaymentRecord :=
  Ledger.mkRecord payer provider Config.priceQueryCost "price" "price-0xToken-1" 1999.

Definition memoryOne : Ledger.Memory :=
  Ledger.mkMemory [priceRecord] (Ledger.mkMemoryStats 50000000000000 1 1999 1999).


(** The two contracts deployed, the agent of scenario A registered. *)
Definition chainA : PaymentLedger.chain := PaymentLedger.deploy 9 registryA.

End Scenario.

(** ** A walk through the two contracts, the gateway and the client *)

Module Walkthrough.

(** Account 1 deploys the registry, the ledger is deployed at address 9. *)
Definition deployer : Msg := mkMsg 1 Scenario.day0.

Definition start : PaymentLedger.chain := PaymentLedger.genesis deployer 9.

(** The owner links the ledger, account 7 registers with a daily budget of
    1,000,000 and logs 400,000; a second payment of 700,000 on the same
    day is over the budget and reverts; the same payment goes through on
    the next day. *)
Definition txs : list PaymentLedger.Tx :=
  [PaymentLedger.SetPaymentLedger (mkMsg 1 Scenario.day0) 9;
   PaymentLedger.RegisterAgent (mkMsg 7 Scenario.day0) "agent" 1000000;
   PaymentLedger.LogPayment (mkMsg 7 (Scenario.day0 + 60)) "goplus" 400000 11 "security";
   PaymentLedger.LogPayment (mkMsg 7 (Scenario.day0 + 120)) "dexscreener" 700000 12 "price";
   PaymentLedger.LogPayment (mkMsg 7 (Scenario.day0 + ONE_DAY)) "dexscreener" 700000 12
     "price"].

Definition afterTxs : PaymentLedger.chain := PaymentLedger.execAll txs start.

(** Then the agent lowers its budget, and later deactivates itself. *)
Definition later : list PaymentLedger.Tx :=
  [PaymentLedger.UpdateBudget (mkMsg 7 (Scenario.day0 + ONE_DAY + 60)) 500000;
   PaymentLedger.DeactivateAgent (mkMsg 7 (Scenario.day0 + ONE_DAY + 120))].

Definition deactivated : PaymentLedger.chain := PaymentLedger.execAll later afterTxs.

(** Transactions sent while the registry does not name the ledger: the
    [setPaymentLedger] of account 5, who is not the owner, reverts. *)
Definition unlinked : list PaymentLedger.Tx :=
  [PaymentLedger.RegisterAgent (mkMsg 7 Scenario.day0) "agent" 1000000;
   PaymentLedger.SetPaymentLedger (mkMsg 5 Scenario.day0) 9;
   PaymentLedger.LogPayment (mkMsg 7 (Scenario.day0 + 60)) "goplus" 400000 11 "security"].

(** The gateway of scenario B: the header is the proof of scenario B. *)
Definition headerB : string := "b64:proofB".

Definition decodeB (header : string) : outcome JSON.json :=
  if String.eqb header headerB then Returned (Header.proofJson Scenario.proofB)
  else Thrown "Unexpected token".

Definition parseB (header : string) : option Facilitator.PaymentProof :=
  match Header.parsePaymentHeader decodeB header with
  | Some parsed => Header.asProof parsed
  | None => None
  end.

Definition gatewayAt (dateNow : Z) : Gateway.Env :=
  Gateway.mkEnv Scenario.provider dateNow (JS.mkDouble 1 (-1)) dateNow.

Definition paidPrice : Gateway.Request :=
  Gateway.mkRequest Gateway.Price (gatewayAt 1999000) "0xToken"
    (Returned Scenario.dataB) (Some headerB).

Definition unpaidWhale : Gateway.Request :=
  Gateway.mkRequest Gateway.Whale (gatewayAt 1999500) "0xToken"
    (Returned Scenario.dataB) None.

Definition replayedPrice : Gateway.Request :=
  Gateway.mkRequest Gateway.Price (gatewayAt 1999900) "0xToken"
    (Returned Scenario.dataB) (Some headerB).

(** A proof for the price endpoint that the payer made out to itself, not
    to the gateway's receiver. *)
Definition headerSelf : string := "b64:proofSelf".

Definition proofSelf : Facilitator.PaymentProof :=
  Facilitator.mkProof Scenario.payer Scenario.payer Scenario.payer
    Config.priceQueryCost Scenario.priceResource 43 2000.

Definition parseSelf (header : string) : option Facilitator.PaymentProof :=
  if String.eqb header headerSelf then Some proofSelf else None.

(** A stand-in for signature recovery that matches the signer of
    [Scenario.walletB]. *)
Definition recoverB (_ : Facilitator.Domain) (v : Facilitator.TypedValue)
    (signature : string) : outcome string :=
  if String.eqb signature ("signed-by-" ++ Facilitator.v_from v)
  then Returned (Facilitator.v_from v)
  else Thrown "invalid signature".

(** The proof [createPaymentProof] makes in [Scenario.worldB] for the price
    endpoint: nonce 500000, expiry 1999 + 300. *)
Definition createdB : Client.PaymentProof :=
  Client.mkProof ("signed-by-" ++ Scenario.payer) Scenario.payer
    (Some (JSON.JStr Scenario.provider)) (Some (JSON.JStr Config.priceQueryCost))
    (Some (JSON.JStr Scenario.priceResource)) (Some (JSON.JNum 500000))
    (Some (JSON.JNum 2299)).

(** The client of scenario B in front of the gateway itself: the price
    route challenges at second 1999 (nonce 500000, expiry 2299) and is paid
    at second 2000. *)
Definition proofG : Facilitator.PaymentProof :=
  Facilitator.mkProof ("signed-by-" ++ Scenario.payer) Scenario.payer Scenario.provider
    Config.priceQueryCost Scenario.priceResource 500000 2299.

Definition encodedG : string := "b64:signed-by-" ++ Scenario.payer.

Definition parseG (header : string) : option Facilitator.PaymentProof :=
  if String.eqb header encodedG then Some proofG else None.

Definition onTheWire (r : Gateway.Response) : Client.Response :=
  Client.mkResponse (Gateway.status r) EmptyString (Returned (Gateway.body r))
    (Returned EmptyString).

Definition challengeG : Client.Response :=
  onTheWire (Gateway.route recoverB parseG Gateway.Price (gatewayAt 1999000) "0xToken"
               (Returned Scenario.dataB) None ∅).1.

Definition servedG : Client.Response :=
  onTheWire (Gateway.route recoverB parseG Gateway.Price (gatewayAt 2000000) "0xToken"
               (Returned Scenario.dataB) (Some encodedG) ∅).1.

Definition worldG : Client.World :=
  Client.mkWorld Scenario.walletB
    (fun n _ => match n with O => Returned challengeG | _ => Returned servedG end)
    (JS.mkDouble 1 (-1)) 1999000 (fun proof => "b64:" ++ Client.signature proof).

Definition priceUrl : string := "http://gateway/api/x402/price/0xToken".

(** A client without a private key, in front of the gateway of scenario B. *)
Definition walletNoKey : Wallet.Env :=
  Wallet.mkEnv EmptyString (Returned tt) (Returned Scenario.payer)
    (fun _ _ => Thrown "no signer").

Definition worldNoKey : Client.World :=
  Client.mkWorld walletNoKey Scenario.gatewayB (JS.mkDouble 1 (-1)) 1999000
    (fun proof => "b64:" ++ Client.signature proof).

End Walkthrough.

(** * Properties *)

(** ** Budget registry *)

Section RegistryFacts.
Import AgentRegistry.

Lemma checked_add_Ok x y z : checked_add x y = Ok z -> z = x + y /\ x + y <= MAX_UINT256.
Proof.
  unfold checked_add. destruct (Z.leb_spec (x + y) MAX_UINT256); [|discriminate].
  intros [= <-]. lia.
Qed.

Lemma agentAt_setAgent st a v : agentAt (setAgent st a v) a = v.
Proof. unfold agentAt, setAgent. simpl. by rewrite lookup_insert_eq. Qed.

Lemma agentAt_setAgent_ne st a b v : a <> b -> agentAt (setAgent st a v) b = agentAt st b.
Proof. intros. unfold agentAt, setAgent. simpl. by rewrite lookup_insert_ne. Qed.

Lemma rollover_budget d a : dailyBudget (rollover d a) = dailyBudget a.
Proof. unfold rollover. by destruct (_ <? _). Qed.

Lemma rollover_spent d a : spentToday (rollover d a) = effectiveSpent d a.
Proof. unfold rollover, effectiveSpent. by destruct (_ <? _). Qed.

(** What a returning [recordSpend] did. *)
Lemma recordSpend_Ok m agent amount st st' :
  recordSpend m agent amount st = Ok st' ->
  let a := agentAt st agent in
  let today := block_timestamp m / ONE_DAY in
  msg_sender m = paymentLedger st /\ wallet a <> 0 /\ active a = true /\
  effectiveSpent today a + amount <= MAX_UINT256 /\
  effectiveSpent today a + amount <= dailyBudget a /\
  st' = setAgent st agent
          (set_spentToday (rollover today a) (effectiveSpent today a + amount)).
Proof.
  unfold recordSpend.
  destruct (Z.eqb_spec (msg_sender m) (paymentLedger st)); [|discriminate].
  destruct (Z.eqb_spec (wallet (agentAt st agent)) 0); [discriminate|]. simpl.
  destruct (active (agentAt st agent)) eqn:Hact; [|discriminate].
  rewrite rollover_spent, rollover_budget.
  destruct (checked_add _ amount) as [total| |] eqn:Hadd; simpl; try discriminate.
  apply checked_add_Ok in Hadd as [-> Hmax].
  destruct (Z.leb_spec (effectiveSpent (block_timestamp m / ONE_DAY) (agentAt st agent) + amount)
                       (dailyBudget (agentAt st agent))); [|discriminate].
  intros [= <-]. repeat split; auto.
Qed.

(** When [recordSpend] returns. *)
Lemma recordSpend_succeeds_iff m agent amount st :
  let a := agentAt st agent in
  let total := effectiveSpent (block_timestamp m / ONE_DAY) a + amount in
  succeeds (recordSpend m agent amount st) = true <->
  msg_sender m = paymentLedger st /\ wallet a <> 0 /\ active a = true /\
  total <= MAX_UINT256 /\ total <= dailyBudget a.
Proof.
  intros a total. split.
  - destruct (recordSpend m agent amount st) eqn:E; try discriminate.
    intros _. apply recordSpend_Ok in E. tauto.
  - intros (Hs & Hw & Ha & Hmax & Hle). unfold recordSpend.
    rewrite Hs, Z.eqb_refl. fold a.
    destruct (Z.eqb_spec (wallet a) 0) as [E0|_]; [exfalso; exact (Hw E0)|]. simpl. rewrite Ha.
    rewrite rollover_spent, rollover_budget. unfold checked_add. subst total.
    apply Z.leb_le in Hmax, Hle. rewrite Hmax. simpl. by rewrite Hle.
Qed.

(** When [canSpend] answers [true]. *)
Lemma canSpend_true_iff m agent amount st :
  let a := agentAt st agent in
  let total := effectiveSpent (block_timestamp m / ONE_DAY) a + amount in
  canSpend m agent amount st = Ok true <->
  wallet a <> 0 /\ active a = true /\ total <= MAX_UINT256 /\ total <= dailyBudget a.
Proof.
  intros a total. unfold canSpend. fold a.
  change (if lastResetDay a <? block_timestamp m / ONE_DAY then 0 else spentToday a)
    with (effectiveSpent (block_timestamp m / ONE_DAY) a).
  fold total. unfold checked_add.
  destruct (Z.eqb_spec (wallet a) 0) as [Hw|Hw]; simpl.
  { split; [intros [=] | tauto]. }
  destruct (active a); simpl.
  2:{ split; [intros [=] | intros (_ & [=] & _)]. }
  subst total.
  destruct (Z.leb_spec (effectiveSpent (block_timestamp m / ONE_DAY) a + amount) MAX_UINT256);
    simpl.
  2:{ split; [intros [=] | lia]. }
  destruct (Z.leb_spec (effectiveSpent (block_timestamp m / ONE_DAY) a + amount)
                       (dailyBudget a));
    (split; [intros E; first [discriminate E | by repeat split] | first [done | lia]]).
Qed.






End RegistryFacts.


(** Scenario A, evaluated: budget 1,000,000; [recordSpend(500,000)] returns
    and leaves [spentToday = 500,000]; [recordSpend(600,000)] later the same
    day reverts with the budget message and [spentToday] stays 500,000. *)
Example scenario_A :
  let st1 := transact (AgentRegistry.recordSpend (Scenario.asLedger Scenario.day0) 7 500000)
               Scenario.registryA in
  let second := AgentRegistry.recordSpend (Scenario.asLedger (Scenario.day0 + 3600)) 7 600000 in
  succeeds (AgentRegistry.recordSpend (Scenario.asLedger Scenario.day0) 7 500000
              Scenario.registryA) = true /\
  AgentRegistry.spentToday (AgentRegistry.agentAt st1 7) = 500000 /\
  second st1 = Revert "AgentRegistry: exceeds daily budget" /\
  AgentRegistry.spentToday (AgentRegistry.agentAt (transact second st1) 7) = 500000.
Proof. vm_compute. repeat split. Qed.

(** C4 (amended). For a registered, active agent and any amount, [canSpend]
    answers [true] exactly when [effectiveSpent + amount <= dailyBudget],
    where the effective spent is 0 once [lastResetDay < today]; [recordSpend]
    called by the registry's payment ledger at the same timestamp returns
    under exactly the same condition, so the two agree; called by anyone
    else it reverts, whatever [canSpend] answers. *)
Theorem C4_canSpend_iff_recordSpend_succeeds
    (st : AgentRegistry.state) (m : Msg) (viewer agent : address) (amount : Z) :
  let a := AgentRegistry.agentAt st agent in
  let today := block_timestamp m / ONE_DAY in
  AgentRegistry.wallet a <> 0 ->
  AgentRegistry.active a = true ->
  uint256 (AgentRegistry.dailyBudget a) ->
  (AgentRegistry.canSpend (mkMsg viewer (block_timestamp m)) agent amount st = Ok true <->
   AgentRegistry.effectiveSpent today a + amount <= AgentRegistry.dailyBudget a) /\
  (msg_sender m = AgentRegistry.paymentLedger st ->
   (AgentRegistry.canSpend (mkMsg viewer (block_timestamp m)) agent amount st = Ok true <->
    succeeds (AgentRegistry.recordSpend m agent amount st) = true) /\
   (succeeds (AgentRegistry.recordSpend m agent amount st) = true <->
    AgentRegistry.effectiveSpent today a + amount <= AgentRegistry.dailyBudget a)) /\
  (msg_sender m <> AgentRegistry.paymentLedger st ->
   AgentRegistry.recordSpend m agent amount st
     = Revert "AgentRegistry: caller is not PaymentLedger") /\
  (AgentRegistry.lastResetDay a < today -> AgentRegistry.effectiveSpent today a = 0).
Proof.
  intros a today Hw Hact [_ Hb].
  split; [|split; [|split]].
  - rewrite canSpend_true_iff. simpl. fold a today. intuition lia.
  - intros Hs. rewrite canSpend_true_iff, recordSpend_succeeds_iff. simpl. fold a today.
    split; [tauto|intuition lia].
  - intros Hs. unfold AgentRegistry.recordSpend.
    by destruct (Z.eqb_spec (msg_sender m) (AgentRegistry.paymentLedger st)).
  - intros Hlt. unfold AgentRegistry.effectiveSpent.
    destruct (Z.ltb_spec (AgentRegistry.lastResetDay a) today); [done|lia].
Qed.

(** ** Proof verifier *)

Section VerifierFacts.
Import Facilitator.

Variable verifyTypedData : Domain -> TypedValue -> string -> outcome string.

(** The verifier computes the verdict of the ordered checks. *)
Lemma verify_eq_verdict dateNow used p res amt :
  verifyPaymentProof verifyTypedData dateNow used p res amt
    = verdict verifyTypedData dateNow used p res amt.
Proof.
  unfold verifyPaymentProof, verifyBody, verdict, firstFailing, checkOrder, passes,
    rejection, amountsCompared, recovered.
  simpl.
  destruct (expiry p <? JS.unixSeconds dateNow); simpl; [done|].
  destruct (decide (nonceKey p ∈ used)) as [Hin|Hin].
  { rewrite (bool_decide_eq_true_2 _ Hin). done. }
  rewrite (bool_decide_eq_false_2 _ Hin). simpl.
  destruct (JS.BigInt (amount p)) as [paid|e1]; simpl; [|done].
  destruct (JS.BigInt amt) as [expected|e2]; simpl; [|done].
  rewrite Z.leb_antisym.
  destruct (paid <? expected); simpl; [done|].
  destruct (String.eqb (resource p) res); simpl; [|done].
  destruct (verifyTypedData _ _ _) as [r|e3]; simpl; [|done].
  by destruct (String.eqb (JS.toLowerCase r) (JS.toLowerCase (from p))).
Qed.

(** A rejecting call leaves the replay set as it was; an accepting call adds
    exactly the key of the proof. *)
Lemma verify_replay_set dateNow used p res amt :
  snd (verifyPaymentProof verifyTypedData dateNow used p res amt) =
    if valid (fst (verifyPaymentProof verifyTypedData dateNow used p res amt))
    then {[ nonceKey p ]} ∪ used else used.
Proof.
  rewrite verify_eq_verdict. unfold verdict.
  destruct (firstFailing _ _ _ _ _ _) as [c|]; [|done].
  simpl. destruct c; simpl; try done.
  - by destruct (amountsCompared _ _).
  - by destruct (recovered _ _).
Qed.

(** An expired proof is rejected as such before anything else is looked at. *)
Lemma verify_expired dateNow used p res amt :
  expiry p < JS.unixSeconds dateNow ->
  verifyPaymentProof verifyTypedData dateNow used p res amt
    = (rejected EmptyString "Payment proof expired", used).
Proof.
  intros H. unfold verifyPaymentProof, verifyBody.
  by destruct (Z.ltb_spec (expiry p) (JS.unixSeconds dateNow)); [|lia].
Qed.

(** A proof that is not expired and whose key is in the replay set is
    rejected as a replay. *)
Lemma verify_replayed dateNow used p res amt :
  JS.unixSeconds dateNow <= expiry p ->
  nonceKey p ∈ used ->
  verifyPaymentProof verifyTypedData dateNow used p res amt
    = (rejected EmptyString "Nonce already used", used).
Proof.
  intros H Hin. unfold verifyPaymentProof, verifyBody.
  destruct (Z.ltb_spec (expiry p) (JS.unixSeconds dateNow)); [lia|].
  by destruct (decide (nonceKey p ∈ used)).
Qed.

(** The accepting run. *)
Lemma verify_accepts dateNow used p res amt paid expected r :
  JS.unixSeconds dateNow <= expiry p ->
  nonceKey p ∉ used ->
  JS.BigInt (amount p) = Returned paid ->
  JS.BigInt amt = Returned expected ->
  expected <= paid ->
  resource p = res ->
  verifyTypedData PAYMENT_DOMAIN (typedValue p) (signature p) = Returned r ->
  JS.toLowerCase r = JS.toLowerCase (from p) ->
  verifyPaymentProof verifyTypedData dateNow used p res amt =
    (mkVerification true r None, {[ nonceKey p ]} ∪ used).
Proof.
  intros Hexp Hnew Hpaid Hexpd Hle Hres Hrec Hcase.
  unfold verifyPaymentProof, verifyBody.
  destruct (Z.ltb_spec (expiry p) (JS.unixSeconds dateNow)); [lia|].
  destruct (decide (nonceKey p ∈ used)); [done|].
  rewrite Hpaid, Hexpd. simpl.
  destruct (Z.ltb_spec paid expected); [lia|].
  rewrite Hres, String.eqb_refl. simpl. rewrite Hrec. simpl.
  by rewrite Hcase, String.eqb_refl.
Qed.

(** What an accepting call has checked. *)
Lemma verify_valid_inv dateNow used p res amt :
  valid (fst (verifyPaymentProof verifyTypedData dateNow used p res amt)) = true ->
  JS.unixSeconds dateNow <= expiry p /\
  (nonceKey p ∉ used) /\
  (exists paid expected,
      JS.BigInt (amount p) = Returned paid /\ JS.BigInt amt = Returned expected /\
      expected <= paid) /\
  resource p = res /\
  (exists r, verifyTypedData PAYMENT_DOMAIN (typedValue p) (signature p) = Returned r /\
             JS.toLowerCase r = JS.toLowerCase (from p) /\
             signer (fst (verifyPaymentProof verifyTypedData dateNow used p res amt)) = r).
Proof.
  unfold verifyPaymentProof, verifyBody.
  destruct (Z.ltb_spec (expiry p) (JS.unixSeconds dateNow)); [intros [=]|].
  destruct (decide (nonceKey p ∈ used)); [intros [=]|].
  destruct (JS.BigInt (amount p)) as [paid|]; simpl; [|intros [=]].
  destruct (JS.BigInt amt) as [expected|]; simpl; [|intros [=]].
  destruct (Z.ltb_spec paid expected); [intros [=]|].
  destruct (String.eqb_spec (resource p) res); simpl; [|intros [=]].
  destruct (verifyTypedData _ _ _) as [r|]; simpl; [|intros [=]].
  destruct (String.eqb_spec (JS.toLowerCase r) (JS.toLowerCase (from p))); simpl;
    [|intros [=]].
  intros _. repeat split; eauto.
  all: try (exists paid, expected; repeat split; auto; lia).
Qed.

End VerifierFacts.

Lemma list_ascii_of_append (s t : string) :
  list_ascii_of_string (s ++ t) = (list_ascii_of_string s ++ list_ascii_of_string t)%list.
Proof. induction s as [|c s IH]; [reflexivity | simpl; by rewrite IH]. Qed.

Lemma append_inv_tail (s1 s2 t : string) : (s1 ++ t = s2 ++ t)%string -> s1 = s2.
Proof.
  intros H. apply (f_equal list_ascii_of_string) in H.
  rewrite !list_ascii_of_append in H. apply app_inv_tail in H.
  rewrite <- (string_of_list_ascii_of_string s1), <- (string_of_list_ascii_of_string s2).
  congruence.
Qed.

(** The replay key is the raw [from] string followed by the nonce: two proofs
    with the same nonce and differently written [from] have different keys. *)
Lemma nonceKey_from_ne (p q : Facilitator.PaymentProof) :
  Facilitator.nonce p = Facilitator.nonce q ->
  Facilitator.from p <> Facilitator.from q ->
  Facilitator.nonceKey p <> Facilitator.nonceKey q.
Proof.
  unfold Facilitator.nonceKey. intros -> Hne Heq. apply Hne.
  by apply append_inv_tail in Heq.
Qed.



(** C3 (amended). The verifier accepts a proof only while [now <= expiry]; every
    proof with [expiry < now] is rejected with reason "Payment proof expired",
    whatever the signature recovers to. *)
Theorem C3_expired_proofs_rejected
    (verifyTypedData : Facilitator.Domain -> Facilitator.TypedValue -> string -> outcome string)
    (dateNow : Z) (used : gset string) (p : Facilitator.PaymentProof) (res amt : string) :
  let result := Facilitator.verifyPaymentProof verifyTypedData dateNow used p res amt in
  (Facilitator.valid (fst result) = true -> JS.unixSeconds dateNow <= Facilitator.expiry p) /\
  (Facilitator.expiry p < JS.unixSeconds dateNow ->
   result = (Facilitator.rejected EmptyString "Payment proof expired", used)).
Proof.
  intros result. subst result. split.
  - intros Hv. by apply verify_valid_inv in Hv as [? _].
  - apply verify_expired.
Qed.

(** C5. The verifier reports the earliest failing check in the order expiry,
    replay, amount ([expected <= paid]: overpayment passes, underpayment
    fails), exact resource equality, signature recovery equal to [from] up to
    letter case: its result is the rejection of the first check of
    [checkOrder] that does not pass, and acceptance if all pass. *)
Theorem C5_earliest_failing_check_reported
    (verifyTypedData : Facilitator.Domain -> Facilitator.TypedValue -> string -> outcome string)
    (dateNow : Z) (used : gset string) (p : Facilitator.PaymentProof) (res amt : string) :
  let passes := Facilitator.passes verifyTypedData dateNow used p res amt in
  let result := Facilitator.verifyPaymentProof verifyTypedData dateNow used p res amt in
  match List.find (fun c => negb (passes c)) Facilitator.checkOrder with
  | Some c =>
      result = (Facilitator.rejection verifyTypedData p res amt c, used) /\
      Facilitator.valid (fst result) = false /\
      passes c = false /\
      exists before after,
        Facilitator.checkOrder = (before ++ c :: after)%list /\
        Forall (fun c' => passes c' = true) before
  | None =>
      Facilitator.valid (fst result) = true /\
      snd result = {[ Facilitator.nonceKey p ]} ∪ used /\
      Forall (fun c' => passes c' = true) Facilitator.checkOrder
  end.
Proof.
  intros passes result. subst result. rewrite verify_eq_verdict.
  unfold Facilitator.verdict, Facilitator.firstFailing. fold passes.
  clearbody passes. unfold Facilitator.checkOrder. simpl.
  destruct (passes Facilitator.CheckExpiry) eqn:E1; simpl.
  2:{ do 3 (split; [done|]).
      exists [], [Facilitator.CheckReplay; Facilitator.CheckAmount;
        Facilitator.CheckResource; Facilitator.CheckSignature]. by split. }
  destruct (passes Facilitator.CheckReplay) eqn:E2; simpl.
  2:{ do 3 (split; [done|]).
      exists [Facilitator.CheckExpiry], [Facilitator.CheckAmount;
        Facilitator.CheckResource; Facilitator.CheckSignature]. split; [done|].
      repeat constructor; done. }
  destruct (passes Facilitator.CheckAmount) eqn:E3; simpl.
  2:{ split; [done|]. split; [by destruct (Facilitator.amountsCompared p amt)|].
      split; [done|].
      exists [Facilitator.CheckExpiry; Facilitator.CheckReplay],
          [Facilitator.CheckResource; Facilitator.CheckSignature]. split; [done|].
      repeat constructor; done. }
  destruct (passes Facilitator.CheckResource) eqn:E4; simpl.
  2:{ do 3 (split; [done|]).
      exists [Facilitator.CheckExpiry; Facilitator.CheckReplay; Facilitator.CheckAmount],
        [Facilitator.CheckSignature]. split; [done|]. repeat constructor; done. }
  destruct (passes Facilitator.CheckSignature) eqn:E5; simpl.
  2:{ split; [done|].
      split; [by destruct (Facilitator.recovered verifyTypedData p)|].
      split; [done|].
      exists [Facilitator.CheckExpiry; Facilitator.CheckReplay; Facilitator.CheckAmount;
                Facilitator.CheckResource], []. split; [done|]. repeat constructor; done. }
  do 2 (split; [done|]). repeat constructor; done.
Qed.

(** C10. The replay key is built from the raw [from] string while the
    signature check compares addresses up to letter case: for two proofs that
    differ only in the letter case of [from] and whose (shared) signature
    recovers to that signer, the verifier accepts the first and then, with the
    first one's key in the replay set, accepts the second as well. *)
Theorem C10_case_variant_of_from_replays
    (verifyTypedData : Facilitator.Domain -> Facilitator.TypedValue -> string -> outcome string)
    (dateNow1 dateNow2 : Z) (used : gset string) (p1 p2 : Facilitator.PaymentProof)
    (res amt : string) (paid expected : Z) (r : string) :
  p2 = Facilitator.mkProof (Facilitator.signature p1) (Facilitator.from p2)
         (Facilitator.to p1) (Facilitator.amount p1) (Facilitator.resource p1)
         (Facilitator.nonce p1) (Facilitator.expiry p1) ->
  Facilitator.from p1 <> Facilitator.from p2 ->
  JS.toLowerCase (Facilitator.from p1) = JS.toLowerCase (Facilitator.from p2) ->
  JS.unixSeconds dateNow1 <= Facilitator.expiry p1 ->
  JS.unixSeconds dateNow2 <= Facilitator.expiry p1 ->
  Facilitator.nonceKey p1 ∉ used ->
  Facilitator.nonceKey p2 ∉ used ->
  JS.BigInt (Facilitator.amount p1) = Returned paid ->
  JS.BigInt amt = Returned expected ->
  expected <= paid ->
  Facilitator.resource p1 = res ->
  Facilitator.recovered verifyTypedData p1 = Returned r ->
  Facilitator.recovered verifyTypedData p2 = Returned r ->
  JS.toLowerCase r = JS.toLowerCase (Facilitator.from p1) ->
  let verify := Facilitator.verifyPaymentProof verifyTypedData in
  let first := verify dateNow1 used p1 res amt in
  let second := verify dateNow2 (snd first) p2 res amt in
  Facilitator.valid (fst first) = true /\
  Facilitator.nonceKey p1 ∈ snd first /\
  Facilitator.valid (fst second) = true /\
  Facilitator.signer (fst first) = Facilitator.signer (fst second).
Proof.
  intros Hp2 Hne Hcase Hexp1 Hexp2 Hnew1 Hnew2 Hpaid Hexpd Hle Hres Hrec1 Hrec2 Hr
         verify first second.
  assert (Hfirst : first = (Facilitator.mkVerification true r None,
                            {[ Facilitator.nonceKey p1 ]} ∪ used)).
  { subst first verify. by eapply verify_accepts. }
  assert (Hkeys : Facilitator.nonceKey p1 <> Facilitator.nonceKey p2).
  { apply nonceKey_from_ne; [by rewrite Hp2|done]. }
  assert (Hsecond : second = (Facilitator.mkVerification true r None,
                              {[ Facilitator.nonceKey p2 ]} ∪ snd first)).
  { subst second verify. eapply verify_accepts; rewrite ?Hfirst; simpl.
    - by rewrite Hp2.
    - rewrite not_elem_of_union, not_elem_of_singleton. split; [|done].
      intros E. apply Hkeys. by rewrite E.
    - rewrite Hp2. simpl. exact Hpaid.
    - exact Hexpd.
    - exact Hle.
    - by rewrite Hp2.
    - exact Hrec2.
    - by rewrite <- Hcase. }
  rewrite Hsecond, Hfirst. simpl.
  split; [reflexivity|]. split; [apply elem_of_union; left; by apply elem_of_singleton|].
  split; reflexivity.
Qed.

(** ** Requirement issuer *)

(** The mantissa kept by [round53] when [s] bits are dropped: the quotient
    or one more, and at most half a unit above the exact value. *)
Lemma rounded_bounds (m s : Z) :
  0 <= m -> 0 < s ->
  let q := m / 2 ^ s in
  let r := m mod 2 ^ s in
  let half := 2 ^ (s - 1) in
  let n := if r <? half then q
           else if half <? r then q + 1
           else if Z.even q then q else q + 1 in
  q <= n <= q + 1 /\ n * 2 ^ s <= m + half.
Proof.
  intros Hm Hs q r half n.
  assert (Hpow : 2 ^ s = 2 * half).
  { subst half. replace s with (Z.succ (s - 1)) at 1 by lia. apply Z.pow_succ_r. lia. }
  assert (Hhalf : 0 < half) by (subst half; apply Z.pow_pos_nonneg; lia).
  assert (Hdiv : m = 2 ^ s * q + r) by (subst q r; apply Z.div_mod; lia).
  assert (Hr : 0 <= r < 2 ^ s) by (subst r; apply Z.mod_pos_bound; lia).
  subst n.
  destruct (Z.ltb_spec r half); [split; nia|].
  destruct (Z.ltb_spec half r); [split; nia|].
  destruct (Z.even q); split; nia.
Qed.

(** The nonce of a draw below 1: an integer of [0, 1000000), the integer part
    of the exact product or, when the double product rounds up to the next
    integer, one more. *)
Lemma randomNonce_bounds (u : JS.double) :
  JS.isDouble u -> JS.belowOne u ->
  let exact := JS.mantissa u * 1000000 / 2 ^ (- JS.exponent u) in
  0 <= JS.randomNonce u < 1000000 /\
  exact <= JS.randomNonce u <= exact + 1.
Proof.
  destruct u as [m e]. unfold JS.isDouble, JS.belowOne. simpl.
  intros [[Hm0 Hm53] [He0 He1]] Hlt.
  assert (He : e <= 0).
  { destruct (Z_le_gt_dec e 0) as [|Hpos]; [done|].
    rewrite Z.pow_neg_r in Hlt by lia. lia. }
  set (t := - e) in *. assert (Ht : 0 <= t) by lia.
  assert (Hpt : 0 < 2 ^ t) by (apply Z.pow_pos_nonneg; lia).
  set (M := m * 1000000).
  assert (HM0 : 0 <= M) by (subst M; lia).
  assert (HMlt : M <= 1000000 * 2 ^ t - 1000000) by (subst M; lia).
  assert (Hexact : 0 <= M / 2 ^ t < 1000000).
  { split; [apply Z.div_pos; lia|]. apply Z.div_lt_upper_bound; lia. }
  unfold JS.randomNonce, JS.times, JS.round53. simpl.
  rewrite Z.add_0_r. fold M.
  replace (Z.max (Z.log2 M - 52) (-1074 - e)) with (Z.max (Z.log2 M - 52) (t - 1074))
    by (subst t; f_equal; lia).
  destruct (Z.leb_spec (Z.max (Z.log2 M - 52) (t - 1074)) 0) as [Hs|Hs].
  - unfold JS.floor. simpl.
    destruct (Z.leb_spec 0 e) as [He'|He'].
    + assert (e = 0) by lia. subst e. subst t. simpl in *.
      change (2 ^ 0) with 1 in *. rewrite Z.mul_1_r, Z.div_1_r in *. lia.
    + fold t. lia.
  - set (s := Z.max (Z.log2 M - 52) (t - 1074)) in *.
    assert (Hs' : s = Z.log2 M - 52) by lia.
    assert (HMpos : 0 < M).
    { destruct (Z.eq_dec M 0) as [E|]; [|lia]. rewrite E in Hs'. simpl in Hs'. lia. }
    destruct (Z.log2_spec M HMpos) as [Hlo Hhi].
    replace (Z.log2 M) with (52 + s) in Hlo, Hhi by lia.
    assert (Hs20 : s <= 20).
    { assert (HM73 : M < 2 ^ 73).
      { subst M. change (2 ^ 73) with (2 ^ 53 * 2 ^ 20). change (2 ^ 20) with 1048576. nia. }
      assert (Hp : 2 ^ (52 + s) < 2 ^ 73) by lia.
      apply Z.pow_lt_mono_r_iff in Hp; lia. }
    assert (Hts : 33 + s <= t).
    { assert (Hp : 2 ^ (52 + s) < 2 ^ (20 + t)).
      { rewrite (Z.pow_add_r 2 20 t) by lia. change (2 ^ 20) with 1048576. lia. }
      apply Z.pow_lt_mono_r_iff in Hp; lia. }
    destruct (rounded_bounds M s HM0 Hs) as [[Hq1 Hq2] Hn].
    set (n := if M mod 2 ^ s <? 2 ^ (s - 1) then M / 2 ^ s
              else if 2 ^ (s - 1) <? M mod 2 ^ s then M / 2 ^ s + 1
              else if Z.even (M / 2 ^ s) then M / 2 ^ s else M / 2 ^ s + 1) in *.
    unfold JS.floor. simpl.
    destruct (Z.leb_spec 0 (e + s)); [lia|].
    replace (- (e + s)) with (t - s) by lia.
    assert (Hps : 0 < 2 ^ s) by (apply Z.pow_pos_nonneg; lia).
    assert (Hpts : 0 < 2 ^ (t - s)) by (apply Z.pow_pos_nonneg; lia).
    assert (Hsplit : 2 ^ t = 2 ^ (t - s) * 2 ^ s).
    { rewrite <- Z.pow_add_r by lia. f_equal. lia. }
    assert (Hhalf : 2 ^ (s - 1) < 1000000).
    { assert (Hp : 2 ^ (s - 1) <= 2 ^ 19) by (apply Z.pow_le_mono_r; lia).
      change (2 ^ 19) with 524288 in *. lia. }
    assert (Hq0 : 0 <= M / 2 ^ s) by (apply Z.div_pos; lia).
    assert (Hqq : M / 2 ^ t = M / 2 ^ s / 2 ^ (t - s)).
    { rewrite Hsplit, Z.mul_comm. rewrite Z.div_div by lia. done. }
    split.
    + split; [apply Z.div_pos; lia|].
      apply Z.div_lt_upper_bound; [lia|]. nia.
    + rewrite Hqq. split.
      * apply Z.div_le_mono; lia.
      * assert (H1 : n / 2 ^ (t - s) <= (M / 2 ^ s + 1) / 2 ^ (t - s))
          by (apply Z.div_le_mono; lia).
        assert (H2 : (M / 2 ^ s + 1) / 2 ^ (t - s) <= M / 2 ^ s / 2 ^ (t - s) + 1).
        { apply Z.div_le_upper_bound; [lia|].
          pose proof (Z.mul_succ_div_gt (M / 2 ^ s) (2 ^ (t - s)) Hpts). nia. }
        lia.
Qed.

(** Among more than a million integers of [0, 1000000) two are equal. *)
Lemma pigeonhole_nonces (l : list Z) :
  Forall (fun n => 0 <= n < 1000000) l ->
  1000000 < Z.of_nat (length l) ->
  ~ NoDup l.
Proof.
  intros Hall Hlen Hnd.
  pose (cells := map Z.of_nat (seq 0 (Z.to_nat 1000000))).
  assert (Hincl : incl l cells).
  { intros x Hx. rewrite Forall_forall in Hall.
    assert (Hr : 0 <= x < 1000000).
    { apply Hall. by apply list_elem_of_In. }
    unfold cells. apply in_map_iff. exists (Z.to_nat x). split; [lia|].
    apply in_seq. lia. }
  apply NoDup_ListNoDup in Hnd.
  pose proof (List.NoDup_incl_length Hnd Hincl) as Hbound.
  unfold cells in Hbound. rewrite length_map, length_seq in Hbound. lia.
Qed.

(** C6 (amended). Every call of the issuer echoes its arguments, takes its
    nonce from a new [Math.random] draw as [Math.floor(draw * 1000000)],
    computed on doubles: an integer of [0, 1000000), the integer part of the
    exact product or one more when the double product rounds up to the next
    integer; and it sets [expiry] to the current second plus 300. The nonce
    depends on the draw alone, it is not kept or looked up anywhere, so
    nothing makes two of them differ: among any 1,000,001 requirements two
    carry the same nonce. *)
Theorem C6_requirement_nonce_and_expiry
    (random : JS.double) (dateNow : Z) (resource amount receiver : string) :
  JS.isDouble random -> JS.belowOne random ->
  let rq := Facilitator.createPaymentRequirement random dateNow resource amount receiver in
  let exact := JS.mantissa random * 1000000 / 2 ^ (- JS.exponent random) in
  0 <= Facilitator.rq_nonce rq < 1000000 /\
  exact <= Facilitator.rq_nonce rq <= exact + 1 /\
  Facilitator.rq_expiry rq = JS.unixSeconds dateNow + 300 /\
  Facilitator.rq_resource rq = resource /\
  Facilitator.rq_amount rq = amount /\
  Facilitator.rq_receiver rq = receiver /\
  (forall (dateNow' : Z) (resource' amount' receiver' : string),
      Facilitator.rq_nonce
        (Facilitator.createPaymentRequirement random dateNow' resource' amount' receiver')
      = Facilitator.rq_nonce rq) /\
  forall draws : list (JS.double * Z),
    Forall (fun d => JS.isDouble (fst d) /\ JS.belowOne (fst d)) draws ->
    1000000 < Z.of_nat (length draws) ->
    ~ NoDup (map (fun d => Facilitator.rq_nonce
                    (Facilitator.createPaymentRequirement (fst d) (snd d)
                       resource amount receiver)) draws).
Proof.
  intros H0 H1 rq exact. subst rq exact. simpl.
  destruct (randomNonce_bounds random H0 H1) as [Hrange Hexact].
  split; [done|]. split; [done|]. do 4 (split; [done|]). split; [done|].
  intros draws Hall Hlen. apply pigeonhole_nonces.
  - apply Forall_map. eapply Forall_impl; [exact Hall|].
    intros [u t] [Hu0 Hu1]. simpl. by apply randomNonce_bounds.
  - by rewrite length_map.
Qed.

(** ** Evaluations at concrete inputs *)


Lemma C4_canSpend_iff_recordSpend_succeeds_witness :
  AgentRegistry.canSpend (mkMsg 5 Scenario.day0) 7 500000 Scenario.registryA = Ok true <->
  succeeds (AgentRegistry.recordSpend (Scenario.asLedger Scenario.day0) 7 500000
              Scenario.registryA) = true.
Proof.
  refine (proj1 (proj1 (proj2 (C4_canSpend_iff_recordSpend_succeeds Scenario.registryA
                   (Scenario.asLedger Scenario.day0) 5 7 500000 _ _ _)) _)).
  - vm_compute. discriminate.
  - reflexivity.
  - vm_compute. split; discriminate.
  - reflexivity.
Defined.

(** A registry that does not name the ledger yet: agent 7 is registered and
    active, [canSpend] answers [true] for 500,000, and [recordSpend] called
    by the ledger contract (address 9) at the same timestamp reverts; so
    does the [logPayment] of the agent, which makes that call. *)
Lemma C4_counterexample_unlinked_ledger :
  let reg := transact (AgentRegistry.registerAgent (mkMsg 7 Scenario.day0) "agent" 1000000)
               (AgentRegistry.init (mkMsg 1 Scenario.day0)) in
  AgentRegistry.wallet (AgentRegistry.agentAt reg 7) <> 0 /\
  AgentRegistry.active (AgentRegistry.agentAt reg 7) = true /\
  AgentRegistry.canSpend (mkMsg 9 Scenario.day0) 7 500000 reg = Ok true /\
  AgentRegistry.recordSpend (mkMsg 9 Scenario.day0) 7 500000 reg
    = Revert "AgentRegistry: caller is not PaymentLedger" /\
  PaymentLedger.logPayment (mkMsg 7 Scenario.day0) "goplus" 500000 11 "security"
    (PaymentLedger.deploy 9 reg)
    = Revert "AgentRegistry: caller is not PaymentLedger" /\
  ~ (AgentRegistry.canSpend (mkMsg 9 Scenario.day0) 7 500000 reg = Ok true <->
     succeeds (AgentRegistry.recordSpend (mkMsg 9 Scenario.day0) 7 500000 reg) = true).
Proof.
  intros reg.
  assert (Hcan : AgentRegistry.canSpend (mkMsg 9 Scenario.day0) 7 500000 reg = Ok true)
    by (vm_compute; reflexivity).
  assert (Hrec : AgentRegistry.recordSpend (mkMsg 9 Scenario.day0) 7 500000 reg
                 = Revert "AgentRegistry: caller is not PaymentLedger")
    by (vm_compute; reflexivity).
  split; [vm_compute; discriminate|]. split; [reflexivity|].
  split; [exact Hcan|]. split; [exact Hrec|]. split; [vm_compute; reflexivity|].
  intros [H _]. specialize (H Hcan). rewrite Hrec in H. discriminate.
Qed.



Lemma C3_expired_proofs_rejected_witness :
  Facilitator.verifyPaymentProof Scenario.clearSigner 2001000 ∅ Scenario.proofB
    Scenario.priceResource Config.priceQueryCost =
  (Facilitator.rejected EmptyString "Payment proof expired", ∅).
Proof.
  refine (proj2 (C3_expired_proofs_rejected Scenario.clearSigner 2001000 ∅
                   Scenario.proofB Scenario.priceResource Config.priceQueryCost) _).
  reflexivity.
Defined.

(** A proof presented in the very second of its expiry ([expiry = now = 2000])
    is accepted, so acceptance does not imply [now < expiry]. *)
Lemma C3_counterexample_accepted_at_expiry :
  Facilitator.valid
    (fst (Facilitator.verifyPaymentProof Scenario.clearSigner 2000000 ∅ Scenario.proofB
            Scenario.priceResource Config.priceQueryCost)) = true /\
  ~ (JS.unixSeconds 2000000 < Facilitator.expiry Scenario.proofB).
Proof.
  split.
  - rewrite (verify_accepts _ _ _ _ _ _ 50000000000000 50000000000000 Scenario.payer);
      first [reflexivity | apply not_elem_of_empty | lia | (vm_compute; discriminate)].
  - vm_compute. discriminate.
Qed.

(** The draw 2251813324484130 / 2^52 (about 0.500003): the exact product has
    integer part 500002, the double product is 500003. *)
Lemma C6_requirement_nonce_and_expiry_witness :
  let rq := Facilitator.createPaymentRequirement (JS.mkDouble 2251813324484130 (-52))
              1700000000000 Scenario.priceResource Config.priceQueryCost
              Scenario.provider in
  (0 <= Facilitator.rq_nonce rq < 1000000 /\
   500002 <= Facilitator.rq_nonce rq <= 500002 + 1 /\
   Facilitator.rq_expiry rq = 1700000300) /\
  Facilitator.rq_nonce rq = 500003.
Proof.
  intros rq. split; [|reflexivity].
  pose proof (C6_requirement_nonce_and_expiry (JS.mkDouble 2251813324484130 (-52))
                1700000000000 Scenario.priceResource Config.priceQueryCost
                Scenario.provider) as H.
  destruct H as (Hr & Hn & He & _).
  - vm_compute. repeat split; discriminate.
  - vm_compute. reflexivity.
  - split; [exact Hr|]. split; [exact Hn|exact He].
Defined.

(** Two requirements issued for the same resource, amount and receiver, from
    two different draws (0.5 and 0.5 + 2^-30) at two different times, carry
    the same nonce. *)
Lemma C6_counterexample_same_nonce :
  let d1 := JS.mkDouble 1 (-1) in
  let d2 := JS.mkDouble 536870913 (-30) in
  let r1 := Facilitator.createPaymentRequirement d1 1700000000000
              Scenario.priceResource Config.priceQueryCost Scenario.provider in
  let r2 := Facilitator.createPaymentRequirement d2 1700000060000
              Scenario.priceResource Config.priceQueryCost Scenario.provider in
  (JS.isDouble d1 /\ JS.belowOne d1) /\
  (JS.isDouble d2 /\ JS.belowOne d2) /\
  JS.mantissa d1 * 2 ^ (JS.exponent d1 - JS.exponent d2) <> JS.mantissa d2 /\
  Facilitator.rq_nonce r1 = 500000 /\
  Facilitator.rq_nonce r2 = 500000 /\
  ~ (Facilitator.rq_nonce r1 <> Facilitator.rq_nonce r2).
Proof.
  intros d1 d2 r1 r2.
  split; [vm_compute; repeat split; first [discriminate|reflexivity]|].
  split; [vm_compute; repeat split; first [discriminate|reflexivity]|].
  split; [vm_compute; discriminate|].
  split; [reflexivity|]. split; [reflexivity|]. intros H. by apply H.
Qed.

Lemma C10_case_variant_of_from_replays_witness :
  let verify := Facilitator.verifyPaymentProof Scenario.clearSigner in
  let first := verify 1999000 ∅ Scenario.proofB Scenario.priceResource
                 Config.priceQueryCost in
  let second := verify 1999000 (snd first) Scenario.proofB_lower Scenario.priceResource
                  Config.priceQueryCost in
  Facilitator.valid (fst first) = true /\
  Facilitator.nonceKey Scenario.proofB ∈ snd first /\
  Facilitator.valid (fst second) = true /\
  Facilitator.signer (fst first) = Facilitator.signer (fst second).
Proof.
  refine (C10_case_variant_of_from_replays Scenario.clearSigner 1999000 1999000 ∅
            Scenario.proofB Scenario.proofB_lower Scenario.priceResource
            Config.priceQueryCost 50000000000000 50000000000000 Scenario.payer
            _ _ _ _ _ _ _ _ _ _ _ _ _ _).
  - reflexivity.
  - discriminate.
  - reflexivity.
  - vm_compute. discriminate.
  - vm_compute. discriminate.
  - apply not_elem_of_empty.
  - apply not_elem_of_empty.
  - reflexivity.
  - reflexivity.
  - lia.
  - reflexivity.
  - reflexivity.
  - reflexivity.
  - reflexivity.
Defined.

(** ** Payment client *)

Section ClientFacts.
Import JSON Client.

(** A bare requirement object is taken as it is. *)
Lemma parseRequirement_bare (r : Response) (fields : list (string * JSON.json)) :
  json r = Returned (JObj fields) ->
  truthy (lookupField "paymentRequirement" fields) = false ->
  parseRequirement r = Returned (JObj fields).
Proof.
  intros Hj Hn. unfold parseRequirement. rewrite Hj. simpl.
  unfold orElse. by rewrite Hn.
Qed.

(** A requirement nested under [paymentRequirement] is taken out. *)
Lemma parseRequirement_nested (r : Response) (fields : list (string * JSON.json))
    (requirement : JSON.json) :
  json r = Returned (JObj fields) ->
  lookupField "paymentRequirement" fields = Some requirement ->
  truthy (Some requirement) = true ->
  parseRequirement r = Returned requirement.
Proof.
  intros Hj Hl Ht. unfold parseRequirement. rewrite Hj. simpl.
  unfold orElse. by rewrite Hl, Ht.
Qed.

(** Both shapes at once. *)
Lemma parseRequirement_object (r : Response) (fields : list (string * JSON.json)) :
  json r = Returned (JObj fields) ->
  parseRequirement r =
    Returned (match lookupField "paymentRequirement" fields with
              | Some nested => if truthy (Some nested) then nested else JObj fields
              | None => JObj fields
              end).
Proof.
  intros Hj. unfold parseRequirement. rewrite Hj.
  unfold obind, getProp, orElse.
  destruct (lookupField "paymentRequirement" fields) as [nested|]; [|reflexivity].
  destruct (truthy (Some nested)); reflexivity.
Qed.

(** The fields of the signed proof: the requirement's, with the client's
    own nonce and expiry where the requirement has none (or a falsy one). *)
Lemma signProof_fields (w : World) (amount : jsval) (requirement : JSON.json)
    (paymentAmount : jsval) (proof : PaymentProof) :
  signProof w amount requirement = Returned (paymentAmount, proof) ->
  exists rq_amount rq_nonce rq_expiry rq_receiver rq_resource,
    getProp requirement "amount" = Returned rq_amount /\
    getProp requirement "nonce" = Returned rq_nonce /\
    getProp requirement "expiry" = Returned rq_expiry /\
    getProp requirement "receiver" = Returned rq_receiver /\
    getProp requirement "resource" = Returned rq_resource /\
    paymentAmount = orElse amount rq_amount /\
    Client.amount proof = paymentAmount /\
    to proof = rq_receiver /\
    resource proof = rq_resource /\
    nonce proof = orElse rq_nonce (Some (JNum (JS.randomNonce (Math_random w)))) /\
    expiry proof = orElse rq_expiry (Some (JNum (JS.unixSeconds (Date_now w) + 300))) /\
    Wallet.getAgentAddress (wallet_env w) = Returned (from proof) /\
    Wallet.signPaymentAuthorization (wallet_env w)
      (Wallet.mkSignParams (to proof) (Client.amount proof) (resource proof)
                           (nonce proof) (expiry proof)) = Returned (signature proof).
Proof.
  unfold signProof.
  destruct (getProp requirement "amount") as [a|]; simpl; [|discriminate].
  destruct (Wallet.getAgentAddress _) as [addr|]; simpl; [|discriminate].
  destruct (getProp requirement "nonce") as [n|]; simpl; [|discriminate].
  destruct (getProp requirement "expiry") as [e|]; simpl; [|discriminate].
  destruct (getProp requirement "receiver") as [rc|]; simpl; [|discriminate].
  destruct (getProp requirement "resource") as [rs|]; simpl; [|discriminate].
  destruct (Wallet.signPaymentAuthorization _ _) as [sg|] eqn:Hs; simpl; [|discriminate].
  intros [= <- <-]. simpl. exists a, n, e, rc, rs. repeat split; auto.
Qed.

(** When the proof is signed: the requirement can be read, the wallet is
    there and the signer returns. *)
Lemma signProof_returns (w : World) (amount : jsval) (requirement : JSON.json)
    (rq_amount rq_nonce rq_expiry rq_receiver rq_resource : jsval) (A sig : string) :
  getProp requirement "amount" = Returned rq_amount ->
  getProp requirement "nonce" = Returned rq_nonce ->
  getProp requirement "expiry" = Returned rq_expiry ->
  getProp requirement "receiver" = Returned rq_receiver ->
  getProp requirement "resource" = Returned rq_resource ->
  Wallet.getWallet (wallet_env w) = Returned A ->
  let paymentAmount := orElse amount rq_amount in
  let nonce := orElse rq_nonce (Some (JNum (JS.randomNonce (Math_random w)))) in
  let expiry := orElse rq_expiry (Some (JNum (JS.unixSeconds (Date_now w) + 300))) in
  Wallet.signTypedData (wallet_env w)
    (Facilitator.mkDomain "PayMind-x402" "1" Config.bsc_chainId)
    (Wallet.mkAuthValue A rq_receiver paymentAmount rq_resource nonce expiry)
    = Returned sig ->
  signProof w amount requirement
    = Returned (paymentAmount,
                mkProof sig A rq_receiver paymentAmount rq_resource nonce expiry).
Proof.
  intros Ha Hn He Hrc Hrs Hw paymentAmount nonce expiry Hsig.
  assert (Hkey : String.eqb (Wallet.privateKey (wallet_env w)) EmptyString = false).
  { unfold Wallet.getWallet in Hw. by destruct (String.eqb _ _). }
  unfold signProof, Wallet.getAgentAddress, Wallet.signPaymentAuthorization.
  rewrite Ha, Hn, He, Hrc, Hrs, Hkey, Hw. simpl.
  fold paymentAmount nonce expiry. by rewrite Hsig.
Qed.

Lemma payAndFetch_unpaid (w : World) (url : string) (amount : jsval) (r : Response) :
  fetch w 0%nat (plainRequest url) = Returned r ->
  status r <> 402 ->
  payAndFetch w url amount =
    ([plainRequest url],
     if ok r then
       match json r with
       | Returned data => Returned (mkResult data false (Some (JStr "0")) None)
       | Thrown e => Thrown e
       end
     else Thrown ("Request failed: " ++ JS.numberToString (status r) ++ " " ++ statusText r)).
Proof.
  intros Hf Hs. unfold payAndFetch. rewrite Hf.
  destruct (Z.eqb_spec (status r) 402); [contradiction|]. simpl.
  destruct (ok r); simpl; [|done]. by destruct (json r).
Qed.

(** A 402 challenge, leg by leg. *)
Lemma payAndFetch_challenge (w : World) (url : string) (amount : jsval) (r : Response) :
  fetch w 0%nat (plainRequest url) = Returned r ->
  status r = 402 ->
  payAndFetch w url amount =
    match parseRequirement r with
    | Thrown e => ([plainRequest url], Thrown e)
    | Returned requirement =>
        match signProof w amount requirement with
        | Thrown e => ([plainRequest url], Thrown e)
        | Returned (paymentAmount, proof) =>
            let second := paidRequest url (encodePaymentHeader w proof) in
            ([plainRequest url; second], secondLeg w second paymentAmount proof)
        end
    end.
Proof.
  intros Hf Hs. unfold payAndFetch. rewrite Hf, Hs. simpl.
  destruct (parseRequirement r) as [requirement|]; simpl; [|done].
  destruct (signProof w amount requirement) as [[paymentAmount proof]|]; [|done].
  simpl. f_equal. unfold secondLeg.
  destruct (fetch w 1%nat _) as [pr|]; simpl; [|done].
  destruct (ok pr); simpl.
  - by destruct (json pr).
  - by destruct (text pr).
Qed.

Lemma payAndFetch_shape (w : World) (url : string) (amount : jsval) :
  (exists e, payAndFetch w url amount = ([plainRequest url], e) /\
             forall res, e = Returned res -> paid res = false) \/
  (exists r requirement paymentAmount proof,
      fetch w 0%nat (plainRequest url) = Returned r /\ status r = 402 /\
      parseRequirement r = Returned requirement /\
      signProof w amount requirement = Returned (paymentAmount, proof) /\
      let second := paidRequest url (encodePaymentHeader w proof) in
      payAndFetch w url amount =
        ([plainRequest url; second], secondLeg w second paymentAmount proof)).
Proof.
  destruct (fetch w 0%nat (plainRequest url)) as [r|e] eqn:Hf.
  2:{ left. unfold payAndFetch. rewrite Hf. eexists. split; [reflexivity|].
      intros ? [=]. }
  destruct (Z.eqb_spec (status r) 402) as [Hs|Hs].
  2:{ left. rewrite (payAndFetch_unpaid w url amount r Hf Hs).
      eexists. split; [reflexivity|]. intros res.
      destruct (ok r); [|intros [=]].
      destruct (json r); intros [= <-]. done. }
  unfold payAndFetch. rewrite Hf, Hs. simpl.
  destruct (parseRequirement r) as [requirement|] eqn:Hp; simpl.
  2:{ left. eexists. split; [reflexivity|]. intros ? [=]. }
  destruct (signProof w amount requirement) as [[paymentAmount proof]|] eqn:Hsg.
  2:{ left. eexists. split; [reflexivity|]. intros ? [=]. }
  right. exists r, requirement, paymentAmount, proof.
  do 4 (split; [done|]). simpl.
  f_equal. unfold secondLeg.
  destruct (fetch w 1%nat _) as [pr|]; simpl; [|done].
  destruct (ok pr); simpl.
  - by destruct (json pr).
  - by destruct (text pr).
Qed.

End ClientFacts.

(** C7 (amended). [payAndFetch] sends at most two requests. A first response
    that is not a 402 challenge ends the call after that one request: its
    data is returned unpaid when the response is a success, and the call
    fails when it is not. On a 402 challenge the requirement is the value
    under [paymentRequirement] when the body has a truthy one and the body
    itself otherwise; the proof is signed with the requirement's nonce and
    expiry, or the client's own where those are missing, and is attached to
    exactly one retry, whose outcome decides the call: a response that is
    not a success is a failure, and no third request is sent. *)
Theorem C7_pay_and_fetch_two_legs
    (w : Client.World) (url : string) (amount : JSON.jsval) :
  let trace := fst (Client.payAndFetch w url amount) in
  let result := snd (Client.payAndFetch w url amount) in
  (length trace <= 2)%nat /\
  (forall r, Client.fetch w 0%nat (Client.plainRequest url) = Returned r ->
     Client.status r <> 402 ->
     trace = [Client.plainRequest url] /\
     result =
       if Client.ok r then
         match Client.json r with
         | Returned data =>
             Returned (Client.mkResult data false (Some (JSON.JStr "0")) None)
         | Thrown e => Thrown e
         end
       else Thrown ("Request failed: " ++ JS.numberToString (Client.status r) ++ " "
                      ++ Client.statusText r)) /\
  (forall r fields,
     Client.json r = Returned (JSON.JObj fields) ->
     Client.parseRequirement r =
       Returned (match JSON.lookupField "paymentRequirement" fields with
                 | Some nested => if JSON.truthy (Some nested) then nested
                                  else JSON.JObj fields
                 | None => JSON.JObj fields
                 end)) /\
  (forall second rest,
     trace = Client.plainRequest url :: second :: rest ->
     rest = [] /\
     exists r requirement paymentAmount proof rq_nonce rq_expiry,
       Client.fetch w 0%nat (Client.plainRequest url) = Returned r /\
       Client.status r = 402 /\
       Client.parseRequirement r = Returned requirement /\
       Client.signProof w amount requirement = Returned (paymentAmount, proof) /\
       JSON.getProp requirement "nonce" = Returned rq_nonce /\
       JSON.getProp requirement "expiry" = Returned rq_expiry /\
       Client.nonce proof =
         JSON.orElse rq_nonce (Some (JSON.JNum (JS.randomNonce (Client.Math_random w)))) /\
       Client.expiry proof =
         JSON.orElse rq_expiry
           (Some (JSON.JNum (JS.unixSeconds (Client.Date_now w) + 300))) /\
       second = Client.paidRequest url (Client.encodePaymentHeader w proof) /\
       result = Client.secondLeg w second paymentAmount proof /\
       (forall paidResponse,
           Client.fetch w 1%nat second = Returned paidResponse ->
           Client.ok paidResponse = false -> exists e, result = Thrown e)) /\
  (forall res,
     result = Returned res -> Client.paid res = true ->
     exists second paidResponse,
       trace = [Client.plainRequest url; second] /\
       Client.fetch w 1%nat second = Returned paidResponse /\
       Client.ok paidResponse = true) /\
  (forall r requirement rq_amount rq_nonce rq_expiry rq_receiver rq_resource A sig,
     Client.fetch w 0%nat (Client.plainRequest url) = Returned r ->
     Client.status r = 402 ->
     Client.parseRequirement r = Returned requirement ->
     JSON.getProp requirement "amount" = Returned rq_amount ->
     JSON.getProp requirement "nonce" = Returned rq_nonce ->
     JSON.getProp requirement "expiry" = Returned rq_expiry ->
     JSON.getProp requirement "receiver" = Returned rq_receiver ->
     JSON.getProp requirement "resource" = Returned rq_resource ->
     Wallet.getWallet (Client.wallet_env w) = Returned A ->
     let paymentAmount := JSON.orElse amount rq_amount in
     let nonce :=
       JSON.orElse rq_nonce (Some (JSON.JNum (JS.randomNonce (Client.Math_random w)))) in
     let expiry :=
       JSON.orElse rq_expiry (Some (JSON.JNum (JS.unixSeconds (Client.Date_now w) + 300))) in
     Wallet.signTypedData (Client.wallet_env w)
       (Facilitator.mkDomain "PayMind-x402" "1" Config.bsc_chainId)
       (Wallet.mkAuthValue A rq_receiver paymentAmount rq_resource nonce expiry)
       = Returned sig ->
     let proof := Client.mkProof sig A rq_receiver paymentAmount rq_resource nonce expiry in
     let second := Client.paidRequest url (Client.encodePaymentHeader w proof) in
     trace = [Client.plainRequest url; second] /\
     result =
       match Client.fetch w 1%nat second with
       | Thrown e => Thrown e
       | Returned paidResponse =>
           if Client.ok paidResponse then
             match Client.json paidResponse with
             | Returned data =>
                 Returned (Client.mkResult data true paymentAmount (Some proof))
             | Thrown e => Thrown e
             end
           else
             match Client.text paidResponse with
             | Returned errorBody =>
                 Thrown ("Paid request failed: "
                           ++ JS.numberToString (Client.status paidResponse)
                           ++ " — " ++ errorBody)
             | Thrown e => Thrown e
             end
       end) /\
  (forall r,
     Client.fetch w 0%nat (Client.plainRequest url) = Returned r ->
     Client.status r = 402 ->
     (forall e, Client.parseRequirement r = Thrown e ->
                trace = [Client.plainRequest url] /\ result = Thrown e) /\
     (forall requirement e,
         Client.parseRequirement r = Returned requirement ->
         Client.signProof w amount requirement = Thrown e ->
         trace = [Client.plainRequest url] /\ result = Thrown e)).
Proof.
  intros trace result.
  assert (Hsigned :
    forall r requirement rq_amount rq_nonce rq_expiry rq_receiver rq_resource A sig,
     Client.fetch w 0%nat (Client.plainRequest url) = Returned r ->
     Client.status r = 402 ->
     Client.parseRequirement r = Returned requirement ->
     JSON.getProp requirement "amount" = Returned rq_amount ->
     JSON.getProp requirement "nonce" = Returned rq_nonce ->
     JSON.getProp requirement "expiry" = Returned rq_expiry ->
     JSON.getProp requirement "receiver" = Returned rq_receiver ->
     JSON.getProp requirement "resource" = Returned rq_resource ->
     Wallet.getWallet (Client.wallet_env w) = Returned A ->
     let paymentAmount := JSON.orElse amount rq_amount in
     let nonce :=
       JSON.orElse rq_nonce (Some (JSON.JNum (JS.randomNonce (Client.Math_random w)))) in
     let expiry :=
       JSON.orElse rq_expiry (Some (JSON.JNum (JS.unixSeconds (Client.Date_now w) + 300))) in
     Wallet.signTypedData (Client.wallet_env w)
       (Facilitator.mkDomain "PayMind-x402" "1" Config.bsc_chainId)
       (Wallet.mkAuthValue A rq_receiver paymentAmount rq_resource nonce expiry)
       = Returned sig ->
     let proof := Client.mkProof sig A rq_receiver paymentAmount rq_resource nonce expiry in
     let second := Client.paidRequest url (Client.encodePaymentHeader w proof) in
     trace = [Client.plainRequest url; second] /\
     result = Client.secondLeg w second paymentAmount proof).
  { intros r requirement a n e rc rs A sig Hf Hs Hp Ha Hn He Hrc Hrs Hw
      paymentAmount nonce expiry Hsig proof second.
    subst trace result.
    rewrite (payAndFetch_challenge w url amount r Hf Hs), Hp.
    rewrite (signProof_returns w amount requirement a n e rc rs A sig Ha Hn He Hrc Hrs Hw Hsig).
    done. }
  assert (Hfailed :
    forall r,
     Client.fetch w 0%nat (Client.plainRequest url) = Returned r ->
     Client.status r = 402 ->
     (forall e, Client.parseRequirement r = Thrown e ->
                trace = [Client.plainRequest url] /\ result = Thrown e) /\
     (forall requirement e,
         Client.parseRequirement r = Returned requirement ->
         Client.signProof w amount requirement = Thrown e ->
         trace = [Client.plainRequest url] /\ result = Thrown e)).
  { intros r Hf Hs. subst trace result.
    rewrite (payAndFetch_challenge w url amount r Hf Hs). split.
    - intros e ->. done.
    - intros requirement e -> ->. done. }
  match goal with
  | |- ?A1 /\ ?A2 /\ ?A3 /\ ?A4 /\ ?A5 /\ _ /\ _ =>
      enough (Hlegs : A1 /\ A2 /\ A3 /\ A4 /\ A5)
  end.
  { destruct Hlegs as (H1 & H2 & H3 & H4 & H5).
    do 5 (split; [assumption|]). split; [|exact Hfailed].
    intros r requirement a n e rc rs A sig Hf Hs Hp Ha Hn He Hrc Hrs Hw
      paymentAmount nonce expiry Hsig proof second.
    exact (Hsigned r requirement a n e rc rs A sig Hf Hs Hp Ha Hn He Hrc Hrs Hw Hsig). }
  clear Hsigned Hfailed.
  destruct (payAndFetch_shape w url amount) as
    [(e & Heq & Hunpaid) | (r & rq & pa & pf & Hf & Hs & Hp & Hsg & Heq)].
  - assert (Ht : trace = [Client.plainRequest url]) by (subst trace; by rewrite Heq).
    assert (Hr : result = e) by (subst result; by rewrite Heq).
    split; [rewrite Ht; simpl; lia|].
    split.
    { intros r Hf Hs. subst trace result.
      by rewrite (payAndFetch_unpaid w url amount r Hf Hs). }
    split.
    { intros r fields Hj. by apply parseRequirement_object. }
    split.
    { intros second rest Htr. rewrite Ht in Htr. discriminate. }
    intros res Hres Hpaid. rewrite Hr in Hres.
    rewrite (Hunpaid res Hres) in Hpaid. discriminate.
  - simpl in Heq.
    assert (Ht : trace = [Client.plainRequest url;
                          Client.paidRequest url (Client.encodePaymentHeader w pf)])
      by (subst trace; by rewrite Heq).
    assert (Hr : result = Client.secondLeg w
                   (Client.paidRequest url (Client.encodePaymentHeader w pf)) pa pf)
      by (subst result; by rewrite Heq).
    split; [rewrite Ht; simpl; lia|].
    split.
    { intros r' Hf' Hs'. rewrite Hf in Hf'. injection Hf' as <-. contradiction. }
    split.
    { intros r' fields Hj. by apply parseRequirement_object. }
    split.
    { intros second rest Htr. rewrite Ht in Htr. injection Htr as <- <-.
      split; [done|].
      destruct (signProof_fields w amount rq pa pf Hsg)
        as (a & n & ex & rc & rs & _ & Hn & He & _ & _ & _ & _ & _ & _ & Hnonce & Hexp & _).
      exists r, rq, pa, pf, n, ex. do 10 (split; [done|]).
      intros pr Hf2 Hok. rewrite Hr. unfold Client.secondLeg. rewrite Hf2, Hok.
      destruct (Client.text pr); eauto. }
    intros res Hres Hpaid.
    exists (Client.paidRequest url (Client.encodePaymentHeader w pf)).
    rewrite Hr in Hres. unfold Client.secondLeg in Hres.
    destruct (Client.fetch w 1%nat _) as [pr|] eqn:Hf2; [|discriminate].
    exists pr. split; [done|]. split; [done|].
    destruct (Client.ok pr); [done|]. by destruct (Client.text pr).
Qed.

Lemma C7_pay_and_fetch_two_legs_witness :
  let out := Client.payAndFetch Scenario.worldB Scenario.priceResource None in
  let proof := Client.mkProof ("signed-by-" ++ Scenario.payer) Scenario.payer
                 (Some (JSON.JStr Scenario.provider))
                 (Some (JSON.JStr Config.priceQueryCost))
                 (Some (JSON.JStr Scenario.priceResource))
                 (Some (JSON.JNum 42)) (Some (JSON.JNum 2000)) in
  fst out = [Client.plainRequest Scenario.priceResource;
             Client.paidRequest Scenario.priceResource
               (Client.encodePaymentHeader Scenario.worldB proof)] /\
  snd out = Returned (Client.mkResult Scenario.dataB true
                        (Some (JSON.JStr Config.priceQueryCost)) (Some proof)).
Proof.
  intros out proof.
  destruct (C7_pay_and_fetch_two_legs Scenario.worldB Scenario.priceResource None)
    as (_ & _ & _ & _ & _ & Hsigned & _).
  destruct (Hsigned Scenario.challengeB Scenario.requirementB
              (Some (JSON.JStr Config.priceQueryCost)) (Some (JSON.JNum 42))
              (Some (JSON.JNum 2000)) (Some (JSON.JStr Scenario.provider))
              (Some (JSON.JStr Scenario.priceResource)) Scenario.payer
              ("signed-by-" ++ Scenario.payer)) as [Htrace Hresult].
  - reflexivity.
  - reflexivity.
  - reflexivity.
  - reflexivity.
  - reflexivity.
  - reflexivity.
  - reflexivity.
  - reflexivity.
  - reflexivity.
  - reflexivity.
  - split; [exact Htrace|exact Hresult].
Defined.

(** A first response with status 500 is no payment challenge, and the call
    does not return it: it fails after the one request. *)
Lemma C7_counterexample_error_response_not_returned :
  let out := Client.payAndFetch Scenario.worldDown Scenario.priceResource None in
  Client.fetch Scenario.worldDown 0%nat (Client.plainRequest Scenario.priceResource)
    = Returned Scenario.serverError /\
  Client.status Scenario.serverError <> 402 /\
  out = ([Client.plainRequest Scenario.priceResource],
         Thrown "Request failed: 500 Internal Server Error") /\
  ~ (exists res, snd out = Returned res).
Proof.
  split; [reflexivity|]. split; [discriminate|]. split; [reflexivity|].
  intros [res H]. discriminate H.
Qed.

(** ** Payment ledger: the backend's two tiers *)

Section LedgerFacts.
Import Ledger.


Lemma logPayment_cases (w : World) (mem : Memory) (provider amount serviceType txHash : string) :
  logPayment w mem provider amount serviceType txHash =
    match (if getContract w
           then contract_logPayment w provider amount serviceType (ethers_id w txHash)
           else Thrown EmptyString) with
    | Returned receiptHash => (mem, Returned (mkLogResult true true (Some receiptHash)))
    | Thrown _ => logInMemory w mem provider amount serviceType txHash
    end.
Proof.
  unfold logPayment. destruct (getContract w); [|done].
  by destruct (contract_logPayment _ _ _ _ _).
Qed.





End LedgerFacts.

(** ** Payment ledger: the contract *)

Section ContractFacts.
Import PaymentLedger.

Lemma sumAmounts_app (ps qs : list Payment) :
  sumAmounts (ps ++ qs) = sumAmounts ps + sumAmounts qs.
Proof. induction ps as [|p ps IH]; simpl; [done|]. rewrite IH. lia. Qed.

Lemma at0_insert (m : gmap address Z) (k k' : address) (v : Z) :
  at0 (<[k := v]> m) k' = if decide (k = k') then v else at0 m k'.
Proof.
  unfold at0. destruct (decide (k = k')) as [->|Hne].
  - by rewrite lookup_insert_eq.
  - by rewrite lookup_insert_ne.
Qed.

(** What a returning [logPayment] wrote to the ledger. *)
Lemma logPayment_Ok m ds x h q c c' :
  logPayment m ds x h q c = Ok c' ->
  let l := ledger c in
  0 < x /\
  payments (ledger c') =
    (payments l ++ [mkPayment (msg_sender m) ds x h (block_timestamp m) q])%list /\
  totalSpentByAgent (ledger c') =
    <[msg_sender m := at0 (totalSpentByAgent l) (msg_sender m) + x]> (totalSpentByAgent l) /\
  paymentCountByAgent (ledger c') =
    <[msg_sender m := at0 (paymentCountByAgent l) (msg_sender m) + 1]>
      (paymentCountByAgent l).
Proof.
  unfold logPayment.
  destruct (0 <? Z.of_nat (String.length ds)); [|discriminate].
  destruct (Z.ltb_spec 0 x); [|discriminate].
  destruct (0 <? Z.of_nat (String.length q)); [|discriminate].
  destruct (AgentRegistry.canSpend _ _ _ _) as [[|]| |]; simpl; try discriminate.
  destruct (AgentRegistry.recordSpend _ _ _ _) as [reg'| |]; simpl; try discriminate.
  destruct (checked_add (at0 (totalSpentByAgent (ledger c)) (msg_sender m)) x)
    as [total| |] eqn:Ht; simpl; try discriminate.
  apply checked_add_Ok in Ht as [-> _].
  destruct (checked_add (at0 (paymentCountByAgent (ledger c)) (msg_sender m)) 1)
    as [count| |] eqn:Hc; simpl; try discriminate.
  apply checked_add_Ok in Hc as [-> _].
  destruct (checked_add (at0 (spentBySourceByAgent (ledger c)) (msg_sender m, ds)) x)
    as [bySource| |]; simpl; try discriminate.
  intros [= <-]. simpl. auto.
Qed.

Lemma exec_ledger_cases (c : chain) (tx : Tx) :
  ledger (exec c tx) = ledger c \/
  exists m ds x h q c', tx = LogPayment m ds x h q /\
                        logPayment m ds x h q c = Ok c' /\ exec c tx = c'.
Proof.
  unfold exec, transact.
  destruct tx as [m a|m n b|m|m b|m a x|m ds x h q]; simpl; unfold onRegistry;
    try (match goal with
         | |- context [rbind ?r _] => destruct r; simpl; by left
         end).
  destruct (logPayment m ds x h q c) as [c'| |] eqn:E; [|by left..].
  right. by exists m, ds, x, h, q, c'.
Qed.

Lemma exec_aggregatesAgree (c : chain) (tx : Tx) :
  aggregatesAgree (ledger c) -> aggregatesAgree (ledger (exec c tx)).
Proof.
  intros Hinv.
  destruct (exec_ledger_cases c tx) as [->|(m & ds & x & h & q & c' & -> & Hok & ->)];
    [done|].
  apply logPayment_Ok in Hok as (_ & Hp & Ht & Hc).
  intros a. destruct (Hinv a) as [Hta Hca].
  rewrite Hp, Ht, Hc, !at0_insert. unfold paymentsOf. rewrite !List.filter_app. simpl.
  destruct (decide (msg_sender m = a)) as [->|Hne].
  - rewrite Z.eqb_refl, sumAmounts_app, length_app. simpl.
    destruct (Hinv a) as [-> ->]. unfold paymentsOf. lia.
  - destruct (Z.eqb_spec (msg_sender m) a); [done|].
    rewrite !app_nil_r. exact (Hinv a).
Qed.


Lemma deploy_aggregatesAgree (this : address) (registry : AgentRegistry.state) :
  aggregatesAgree (ledger (deploy this registry)).
Proof. intros a. by unfold at0; simpl; rewrite !lookup_empty. Qed.

End ContractFacts.







(** ** The models at work *)

Section Examples.

(** Scenario B on the verifier side: exact amount, matching resource. *)
Example verify_scenario_B :
  fst (Scenario.verify 1999000 ∅ Scenario.proofB Scenario.priceResource
          Config.priceQueryCost)
    = Facilitator.mkVerification true Scenario.payer None.
Proof. vm_compute. reflexivity. Qed.

(** Scenario C: [expiry = now - 1]. *)
Example verify_scenario_C :
  fst (Scenario.verify 2001000 ∅ Scenario.proofB Scenario.priceResource
          Config.priceQueryCost)
    = Facilitator.rejected EmptyString "Payment proof expired".
Proof. vm_compute. reflexivity. Qed.

(** An immediate replay. *)
Example verify_replay :
  let used := snd (Scenario.verify 1999000 ∅ Scenario.proofB Scenario.priceResource
          Config.priceQueryCost) in
  Scenario.verify 1999500 used Scenario.proofB Scenario.priceResource
    Config.priceQueryCost
    = (Facilitator.rejected EmptyString "Nonce already used", used).
Proof. vm_compute. reflexivity. Qed.

(** Overpayment passes, underpayment does not. *)
Example verify_overpaid :
  Facilitator.valid
    (fst (Scenario.verify 1999000 ∅ Scenario.proofB Scenario.priceResource "1")) = true.
Proof. vm_compute. reflexivity. Qed.

Example verify_underpaid :
  fst (Scenario.verify 1999000 ∅ Scenario.proofB Scenario.priceResource "50000000000001")
    = Facilitator.rejected EmptyString
        "Insufficient payment: 50000000000000 < 50000000000001".
Proof. vm_compute. reflexivity. Qed.

(** An expired, underpaid proof for another resource: the expiry is
    reported. An unexpired one: the amount is. *)
Example verify_first_failure_wins :
  Facilitator.reason
    (fst (Scenario.verify 2001000 ∅ Scenario.proofB "/other" "50000000000001"))
    = Some "Payment proof expired" /\
  Facilitator.reason
    (fst (Scenario.verify 1999000 ∅ Scenario.proofB "/other" "50000000000001"))
    = Some "Insufficient payment: 50000000000000 < 50000000000001" /\
  Facilitator.reason
    (fst (Scenario.verify 1999000 ∅ Scenario.proofB "/other" Config.priceQueryCost))
    = Some "Resource mismatch: /api/x402/price/0xToken !== /other".
Proof. vm_compute. repeat split. Qed.

(** An expected amount that is no integer is a verification error. *)
Example verify_malformed_amount :
  Facilitator.reason
    (fst (Scenario.verify 1999000 ∅ Scenario.proofB Scenario.priceResource "1.5"))
    = Some "Verification error: Cannot convert 1.5 to a BigInt".
Proof. vm_compute. reflexivity. Qed.

(** A signature of somebody else. *)
Example verify_wrong_signer :
  fst (Scenario.verify 1999000 ∅
         (Facilitator.mkProof Scenario.provider Scenario.payer Scenario.provider Config.priceQueryCost
                              Scenario.priceResource 42 2000)
         Scenario.priceResource Config.priceQueryCost)
    = Facilitator.rejected Scenario.provider "Signature does not match claimed sender".
Proof. vm_compute. reflexivity. Qed.

(** The day rollover: 500,000 spent on day 20000, then 600,000 on the next
    day is within the budget again and [spentToday] restarts from it. *)
Example rollover_next_day :
  let st1 := transact (AgentRegistry.recordSpend (Scenario.asLedger Scenario.day0) 7 500000)
               Scenario.registryA in
  let next := Scenario.asLedger (Scenario.day0 + ONE_DAY) in
  AgentRegistry.canSpend next 7 600000 st1 = Ok true /\
  AgentRegistry.spentToday
    (AgentRegistry.agentAt (transact (AgentRegistry.recordSpend next 7 600000) st1) 7)
    = 600000.
Proof. vm_compute. repeat split. Qed.

(** Nobody but the payment ledger records a spend; an unregistered agent
    cannot spend. *)
Example recordSpend_restricted :
  AgentRegistry.recordSpend (mkMsg 7 Scenario.day0) 7 1 Scenario.registryA
    = Revert "AgentRegistry: caller is not PaymentLedger" /\
  AgentRegistry.canSpend (mkMsg 7 Scenario.day0) 8 1 Scenario.registryA = Ok false.
Proof. vm_compute. repeat split. Qed.

(** Scenario B on the client side: one challenge, one paid retry. *)
Example payAndFetch_scenario_B :
  let out := Client.payAndFetch Scenario.worldB Scenario.priceResource None in
  length (fst out) = 2%nat /\
  (exists r, snd out = Returned r /\ Client.paid r = true /\
             Client.paymentAmount r = Some (JSON.JStr Config.priceQueryCost) /\
             Client.data r = Scenario.dataB).
Proof. vm_compute. split; [reflexivity|]. eexists. repeat split. Qed.

(** A payment logged through the contract by the agent of scenario A. *)
Example logPayment_on_chain :
  let c := PaymentLedger.exec Scenario.chainA
             (PaymentLedger.LogPayment (mkMsg 7 Scenario.day0) "dexscreener" 50000 0
                                       "price_feed") in
  PaymentLedger.getAgentStats 7 c = (50000, 1, Scenario.day0, Scenario.day0) /\
  AgentRegistry.spentToday (AgentRegistry.agentAt (PaymentLedger.agentRegistry c) 7)
    = 50000.
Proof. vm_compute. repeat split. Qed.

(** [BigInt] drops the white space of [StrWhiteSpaceChar] on both sides,
    beyond ASCII too: a no-break space (bytes C2 A0) before and a
    byte-order mark (EF BB BF) after the digits. *)
Example bigint_unicode_white_space :
  JS.BigInt (String (ascii_of_nat 194) (String (ascii_of_nat 160)
               (" 42" ++ String (ascii_of_nat 239)
                           (String (ascii_of_nat 187)
                              (String (ascii_of_nat 191) EmptyString)))))
    = Returned 42.
Proof. vm_compute. reflexivity. Qed.

(** Nonces of some draws: 0.5; the largest double below 1; the smallest
    positive double; a draw whose double product rounds up across an
    integer. *)
Example nonces_of_draws :
  JS.randomNonce (JS.mkDouble 1 (-1)) = 500000 /\
  JS.randomNonce (JS.mkDouble (2 ^ 53 - 1) (-53)) = 999999 /\
  JS.randomNonce (JS.mkDouble 1 (-1074)) = 0 /\
  JS.randomNonce (JS.mkDouble 2251813324484130 (-52)) = 500003 /\
  2251813324484130 * 1000000 / 2 ^ 52 = 500002.
Proof. vm_compute. repeat split. Qed.

End Examples.

(** * Further properties *)

(** ** The two contracts as a transition system *)

Section ChainFacts.
Import PaymentLedger.

Lemma nonempty_length (s : string) :
  (0 <? Z.of_nat (String.length s)) = true <-> s <> EmptyString.
Proof.
  destruct s as [|ch s]; split; intros H; try done.
Qed.

Lemma recordSpend_spent m a x reg :
  msg_sender m = AgentRegistry.paymentLedger reg ->
  spendable reg (block_timestamp m / ONE_DAY) a x ->
  AgentRegistry.recordSpend m a x reg = Ok (spent reg (block_timestamp m / ONE_DAY) a x).
Proof.
  intros Hs (Hw & Ha & Hmax & Hle).
  destruct (AgentRegistry.recordSpend m a x reg) as [st'| |] eqn:E.
  - apply recordSpend_Ok in E as (_ & _ & _ & _ & _ & ->). done.
  - assert (H : succeeds (AgentRegistry.recordSpend m a x reg) = true)
      by (apply recordSpend_succeeds_iff; auto).
    rewrite E in H. discriminate.
  - assert (H : succeeds (AgentRegistry.recordSpend m a x reg) = true)
      by (apply recordSpend_succeeds_iff; auto).
    rewrite E in H. discriminate.
Qed.

Lemma recordSpend_Ok_spent m a x reg reg' :
  AgentRegistry.recordSpend m a x reg = Ok reg' ->
  msg_sender m = AgentRegistry.paymentLedger reg /\
  spendable reg (block_timestamp m / ONE_DAY) a x /\
  reg' = spent reg (block_timestamp m / ONE_DAY) a x.
Proof.
  intros E. apply recordSpend_Ok in E as (? & ? & ? & ? & ? & ->).
  unfold spendable. auto 10.
Qed.

(** The step relation is what the calls compute. *)
Lemma call_step (tx : Tx) (c c' : chain) : call tx c = Ok c' <-> step c tx c'.
Proof.
  split.
  - destruct tx as [m a|m n b|m|m b|m a x|m ds x h q]; simpl; unfold onRegistry.
    + unfold AgentRegistry.setPaymentLedger.
      destruct (Z.eqb_spec (msg_sender m) (AgentRegistry.owner (agentRegistry c)));
        [|discriminate].
      destruct (Z.eqb_spec a 0); [discriminate|]. simpl.
      intros [= <-]. by constructor.
    + unfold AgentRegistry.registerAgent.
      destruct (Z.eqb_spec
                  (AgentRegistry.wallet
                     (AgentRegistry.agentAt (agentRegistry c) (msg_sender m))) 0);
        [|discriminate].
      destruct (0 <? Z.of_nat (String.length n)) eqn:Hn; [|discriminate].
      destruct (Z.ltb_spec 0 b); [|discriminate]. simpl.
      intros [= <-]. constructor; auto. by apply nonempty_length.
    + unfold AgentRegistry.deactivateAgent.
      destruct (Z.eqb_spec
                  (AgentRegistry.wallet
                     (AgentRegistry.agentAt (agentRegistry c) (msg_sender m))) 0);
        [discriminate|]. simpl.
      intros [= <-]. by constructor.
    + unfold AgentRegistry.updateBudget.
      destruct (Z.eqb_spec
                  (AgentRegistry.wallet
                     (AgentRegistry.agentAt (agentRegistry c) (msg_sender m))) 0);
        [discriminate|]. simpl.
      destruct (Z.ltb_spec 0 b); [|discriminate]. simpl.
      intros [= <-]. by constructor.
    + destruct (AgentRegistry.recordSpend m a x (agentRegistry c)) as [reg'| |] eqn:E;
        simpl; try discriminate.
      apply recordSpend_Ok_spent in E as (Hs & Hsp & ->).
      intros [= <-]. by constructor.
    + unfold logPayment.
      destruct (0 <? Z.of_nat (String.length ds)) eqn:Hds; [|discriminate].
      destruct (Z.ltb_spec 0 x); [|discriminate].
      destruct (0 <? Z.of_nat (String.length q)) eqn:Hq; [|discriminate].
      destruct (AgentRegistry.canSpend _ _ _ _) as [[|]| |]; simpl; try discriminate.
      destruct (AgentRegistry.recordSpend _ _ _ _) as [reg'| |] eqn:E; simpl;
        try discriminate.
      apply recordSpend_Ok_spent in E as (Hs & Hsp & ->). simpl in Hs, Hsp.
      unfold checked_add.
      destruct (Z.leb_spec (at0 (totalSpentByAgent (ledger c)) (msg_sender m) + x)
                           MAX_UINT256); simpl; [|discriminate].
      destruct (Z.leb_spec (at0 (paymentCountByAgent (ledger c)) (msg_sender m) + 1)
                           MAX_UINT256); simpl; [|discriminate].
      destruct (Z.leb_spec (at0 (spentBySourceByAgent (ledger c)) (msg_sender m, ds) + x)
                           MAX_UINT256); simpl; [|discriminate].
      intros [= <-]. constructor; auto; by apply nonempty_length.
  - intros Hstep. destruct Hstep; simpl; unfold onRegistry.
    + unfold AgentRegistry.setPaymentLedger.
      rewrite H, Z.eqb_refl. by destruct (Z.eqb_spec a 0).
    + unfold AgentRegistry.registerAgent.
      rewrite H, Z.eqb_refl. apply nonempty_length in H0. rewrite H0.
      by destruct (Z.ltb_spec 0 b); [|lia].
    + unfold AgentRegistry.deactivateAgent.
      by destruct (Z.eqb_spec (AgentRegistry.wallet
                  (AgentRegistry.agentAt (agentRegistry c) (msg_sender m))) 0).
    + unfold AgentRegistry.updateBudget.
      destruct (Z.eqb_spec (AgentRegistry.wallet
                  (AgentRegistry.agentAt (agentRegistry c) (msg_sender m))) 0); [done|]. simpl.
      by destruct (Z.ltb_spec 0 b); [|lia].
    + by rewrite (recordSpend_spent m a x _ H H0).
    + unfold logPayment.
      apply nonempty_length in H0, H2. rewrite H0, H2.
      destruct (Z.ltb_spec 0 x); [|lia].
      assert (Hcan : AgentRegistry.canSpend (mkMsg (this c) (block_timestamp m))
                       (msg_sender m) x (agentRegistry c) = Ok true).
      { apply canSpend_true_iff. simpl. destruct H3 as (? & ? & ? & ?). auto. }
      rewrite Hcan. simpl.
      rewrite (recordSpend_spent (mkMsg (this c) (block_timestamp m)) (msg_sender m) x
                 (agentRegistry c) H H3).
      simpl. unfold checked_add.
      apply Z.leb_le in H4, H5, H6. by rewrite H4, H5, H6.
Qed.

(** A transaction either reverts, changing nothing, or makes a step. *)
Lemma exec_step (c : chain) (tx : Tx) : exec c tx = c \/ step c tx (exec c tx).
Proof.
  unfold exec, transact. destruct (call tx c) as [c'| |] eqn:E; auto.
  right. by apply call_step.
Qed.

Lemma agentAt_setAgent_dec st a v k :
  AgentRegistry.agentAt (AgentRegistry.setAgent st a v) k =
    if decide (a = k) then v else AgentRegistry.agentAt st k.
Proof.
  destruct (decide (a = k)) as [->|Hne].
  - apply agentAt_setAgent.
  - by apply agentAt_setAgent_ne.
Qed.

Lemma agentAt_spent_dec reg d a x k :
  AgentRegistry.agentAt (spent reg d a x) k =
    if decide (a = k)
    then AgentRegistry.set_spentToday
           (AgentRegistry.rollover d (AgentRegistry.agentAt reg a))
           (AgentRegistry.effectiveSpent d (AgentRegistry.agentAt reg a) + x)
    else AgentRegistry.agentAt reg k.
Proof. unfold spent. apply agentAt_setAgent_dec. Qed.

(** What a transaction does to the record of one key. *)
Lemma exec_agentStep (c : chain) (tx : Tx) (k : address) :
  AgentRegistry.agentStep k (block_timestamp (txMsg tx))
    (AgentRegistry.agentAt (agentRegistry c) k)
    (AgentRegistry.agentAt (agentRegistry (exec c tx)) k).
Proof.
  destruct (exec_step c tx) as [->|H]; [constructor|].
  destruct H as [m a Ho Ha|m n b Hw Hn Hb|m Hw|m b Hw Hb|m a x Hs Hsp
                |m ds x h q Hs Hds Hx Hq Hsp _ _ _]; simpl.
  - constructor.
  - unfold AgentRegistry.agentAt at 2. simpl.
    destruct (decide (msg_sender m = k)) as [<-|Hne].
    + rewrite lookup_insert_eq. simpl. by constructor.
    + rewrite lookup_insert_ne by done. constructor.
  - rewrite agentAt_setAgent_dec.
    destruct (decide (msg_sender m = k)) as [<-|Hne]; by constructor.
  - rewrite agentAt_setAgent_dec.
    destruct (decide (msg_sender m = k)) as [<-|Hne]; by constructor.
  - rewrite agentAt_spent_dec.
    destruct (decide (a = k)) as [<-|Hne]; [|constructor].
    destruct Hsp as (? & ? & ? & ?). by constructor.
  - rewrite agentAt_spent_dec.
    destruct (decide (msg_sender m = k)) as [<-|Hne]; [|constructor].
    destruct Hsp as (? & ? & ? & ?). by constructor.
Qed.

Lemma rollover_fields d a :
  AgentRegistry.wallet (AgentRegistry.rollover d a) = AgentRegistry.wallet a /\
  AgentRegistry.name (AgentRegistry.rollover d a) = AgentRegistry.name a /\
  AgentRegistry.active (AgentRegistry.rollover d a) = AgentRegistry.active a /\
  AgentRegistry.registeredAt (AgentRegistry.rollover d a) = AgentRegistry.registeredAt a /\
  AgentRegistry.lastResetDay (AgentRegistry.rollover d a)
    = Z.max (AgentRegistry.lastResetDay a) d.
Proof.
  unfold AgentRegistry.rollover.
  destruct (Z.ltb_spec (AgentRegistry.lastResetDay a) d); simpl; repeat split; lia.
Qed.

End ChainFacts.

(** ** The registry under arbitrary transactions *)

Section RegistryInvariants.
Import PaymentLedger.

Lemma registrationsInOrder_agents st st' :
  AgentRegistry.agents st' = AgentRegistry.agents st ->
  AgentRegistry.agentList st' = AgentRegistry.agentList st ->
  AgentRegistry.registrationsInOrder st -> AgentRegistry.registrationsInOrder st'.
Proof.
  unfold AgentRegistry.registrationsInOrder, AgentRegistry.agentAt.
  by intros -> ->.
Qed.

(** Replacing the record of a registered key by one with the same wallet
    keeps the registrations in order. *)
Lemma registrationsInOrder_setAgent st a v :
  AgentRegistry.wallet (AgentRegistry.agentAt st a) <> 0 ->
  AgentRegistry.wallet v = AgentRegistry.wallet (AgentRegistry.agentAt st a) ->
  AgentRegistry.registrationsInOrder st ->
  AgentRegistry.registrationsInOrder (AgentRegistry.setAgent st a v).
Proof.
  intros Hw Hv [Hnd Hk]. split; [exact Hnd|].
  intros k. rewrite agentAt_setAgent_dec. simpl.
  destruct (decide (a = k)) as [<-|Hne]; [|exact (Hk k)].
  destruct (Hk a) as [(H1 & H2 & H3)|[Hz _]].
  - left. rewrite Hv. auto.
  - rewrite Hz in Hw. done.
Qed.

Lemma exec_registrationsInOrder (c : chain) (tx : Tx) :
  msg_sender (txMsg tx) <> 0 ->
  AgentRegistry.registrationsInOrder (agentRegistry c) ->
  AgentRegistry.registrationsInOrder (agentRegistry (exec c tx)).
Proof.
  intros Hsender Hinv.
  destruct (exec_step c tx) as [->|H]; [done|].
  destruct H as [m a Ho Ha|m n b Hw Hn Hb|m Hw|m b Hw Hb|m a x Hs Hsp
                |m ds x h q Hs Hds Hx Hq Hsp _ _ _]; simpl in *.
  - by eapply registrationsInOrder_agents; [..|exact Hinv].
  - destruct Hinv as [Hnd Hk].
    assert (Hfresh : msg_sender m ∉ AgentRegistry.agentList (agentRegistry c)).
    { destruct (Hk (msg_sender m)) as [(H1 & _ & _)|[_ H2]]; [|done].
      rewrite Hw in H1. by symmetry in H1. }
    split; simpl.
    + apply NoDup_app. split; [done|]. split; [|apply NoDup_singleton].
      intros y Hy Hy'. apply list_elem_of_singleton in Hy'. by subst.
    + intros k. unfold AgentRegistry.agentAt. simpl.
      destruct (decide (msg_sender m = k)) as [<-|Hne].
      * rewrite lookup_insert_eq. left. simpl. split; [done|]. split; [done|].
        apply elem_of_app. right. by apply list_elem_of_singleton.
      * rewrite lookup_insert_ne by done.
        destruct (Hk k) as [(H1 & H2 & H3)|[H1 H2]].
        -- left. split; [done|]. split; [done|]. apply elem_of_app. by left.
        -- right. split; [done|]. intros Hin. apply elem_of_app in Hin as [|Hin]; [done|].
           apply list_elem_of_singleton in Hin. by subst.
  - by apply registrationsInOrder_setAgent.
  - by apply registrationsInOrder_setAgent.
  - destruct Hsp as (Hw & _). apply registrationsInOrder_setAgent; [done| |done].
    simpl. apply rollover_fields.
  - destruct Hsp as (Hw & _). apply registrationsInOrder_setAgent; [done| |done].
    simpl. apply rollover_fields.
Qed.

Lemma genesis_registrationsInOrder deployer this :
  AgentRegistry.registrationsInOrder (agentRegistry (genesis deployer this)).
Proof.
  split; simpl; [apply NoDup_nil_2|].
  intros k. right. unfold AgentRegistry.agentAt. simpl. rewrite lookup_empty.
  split; [done|]. apply not_elem_of_nil.
Qed.

Lemma execAll_app txs more c : execAll (txs ++ more) c = execAll more (execAll txs c).
Proof. unfold execAll. apply fold_left_app. Qed.

Lemma execAll_registrationsInOrder txs c :
  Forall (fun tx => msg_sender (txMsg tx) <> 0) txs ->
  AgentRegistry.registrationsInOrder (agentRegistry c) ->
  AgentRegistry.registrationsInOrder (agentRegistry (execAll txs c)).
Proof.
  revert c. induction txs as [|tx txs IH]; intros c Hall Hinv; simpl; [done|].
  inversion Hall; subst. apply IH; [done|]. by apply exec_registrationsInOrder.
Qed.

End RegistryInvariants.

(** X1. Whatever transactions (from non-zero accounts) the two contracts have
    executed since their deployment, nobody is listed twice in [agentList],
    an address is listed exactly when a record is stored for it, that record
    carries the address as its [wallet], and unlisted addresses hold the
    empty record: [getAgentCount] counts the registered agents. *)
Theorem X1_agent_list_is_the_set_of_registered_agents
    (deployer : Msg) (this : address) (txs : list PaymentLedger.Tx) :
  Forall (fun tx => msg_sender (PaymentLedger.txMsg tx) <> 0) txs ->
  let reg := PaymentLedger.agentRegistry
               (PaymentLedger.execAll txs (PaymentLedger.genesis deployer this)) in
  NoDup (AgentRegistry.agentList reg) /\
  AgentRegistry.getAgentCount reg = Z.of_nat (length (AgentRegistry.agentList reg)) /\
  forall k : address,
    (k ∈ AgentRegistry.agentList reg <->
     AgentRegistry.wallet (AgentRegistry.agentAt reg k) <> 0) /\
    (k ∈ AgentRegistry.agentList reg ->
     AgentRegistry.wallet (AgentRegistry.agentAt reg k) = k /\
     AgentRegistry.getAgent k reg = Ok (AgentRegistry.agentAt reg k)) /\
    (k ∉ AgentRegistry.agentList reg ->
     AgentRegistry.agentAt reg k = AgentRegistry.zeroAgent /\
     AgentRegistry.getAgent k reg = Revert "AgentRegistry: agent not found").
Proof.
  intros Hall reg.
  destruct (execAll_registrationsInOrder txs (PaymentLedger.genesis deployer this) Hall
              (genesis_registrationsInOrder deployer this)) as [Hnd Hk].
  fold reg in Hnd, Hk. split; [done|]. split; [done|].
  intros k. unfold AgentRegistry.getAgent.
  destruct (Hk k) as [(H1 & H2 & H3)|[H1 H2]].
  - rewrite H1. split; [by split|]. split; [|done].
    intros _. split; [done|]. by destruct (Z.eqb_spec k 0).
  - rewrite H1. simpl. split; [split; [done|]|]; [by intros|]. split; [done|].
    by intros _.
Qed.

Section AgentLifecycle.
Import PaymentLedger.

(** A step keeps the identity of a registered agent. *)
Lemma agentStep_registered k t old new :
  AgentRegistry.agentStep k t old new ->
  AgentRegistry.wallet old <> 0 ->
  AgentRegistry.wallet new = AgentRegistry.wallet old /\
  AgentRegistry.name new = AgentRegistry.name old /\
  AgentRegistry.registeredAt new = AgentRegistry.registeredAt old /\
  (AgentRegistry.active old = false -> AgentRegistry.active new = false) /\
  AgentRegistry.lastResetDay old <= AgentRegistry.lastResetDay new.
Proof.
  intros Hstep Hw.
  destruct Hstep as [|n b Hz _| |b _ _|x _ Hact _ _]; simpl.
  - repeat split; auto. lia.
  - contradiction.
  - repeat split; auto. lia.
  - repeat split; auto. lia.
  - destruct (rollover_fields (t / ONE_DAY) old) as (-> & -> & -> & -> & ->).
    repeat split; auto; lia.
Qed.

Lemma execAll_registered txs c a :
  AgentRegistry.wallet (AgentRegistry.agentAt (agentRegistry c) a) <> 0 ->
  let old := AgentRegistry.agentAt (agentRegistry c) a in
  let new := AgentRegistry.agentAt (agentRegistry (execAll txs c)) a in
  AgentRegistry.wallet new = AgentRegistry.wallet old /\
  AgentRegistry.name new = AgentRegistry.name old /\
  AgentRegistry.registeredAt new = AgentRegistry.registeredAt old /\
  (AgentRegistry.active old = false -> AgentRegistry.active new = false) /\
  AgentRegistry.lastResetDay old <= AgentRegistry.lastResetDay new.
Proof.
  revert c. induction txs as [|tx txs IH]; intros c Hw; simpl.
  { repeat split; by try lia. }
  destruct (agentStep_registered _ _ _ _ (exec_agentStep c tx a) Hw)
    as (H1 & H2 & H3 & H4 & H5).
  destruct (IH (exec c tx)) as (I1 & I2 & I3 & I4 & I5); [by rewrite H1|].
  rewrite I1, I2, I3, H1, H2, H3. repeat split; auto. lia.
Qed.

End AgentLifecycle.

(** X2. A registration is for good: whatever transactions follow, the record
    of a registered agent keeps its wallet, name and registration time, and
    every further [registerAgent] from that account reverts with "already
    registered", deactivated or not. *)
Theorem X2_registration_is_permanent
    (c : PaymentLedger.chain) (txs : list PaymentLedger.Tx) (a : address) :
  AgentRegistry.wallet (AgentRegistry.agentAt (PaymentLedger.agentRegistry c) a) <> 0 ->
  let old := AgentRegistry.agentAt (PaymentLedger.agentRegistry c) a in
  let reg' := PaymentLedger.agentRegistry (PaymentLedger.execAll txs c) in
  let new := AgentRegistry.agentAt reg' a in
  AgentRegistry.wallet new = AgentRegistry.wallet old /\
  AgentRegistry.name new = AgentRegistry.name old /\
  AgentRegistry.registeredAt new = AgentRegistry.registeredAt old /\
  forall (m : Msg) (n : string) (b : Z),
    msg_sender m = a ->
    AgentRegistry.registerAgent m n b reg' = Revert "AgentRegistry: already registered".
Proof.
  intros Hw old reg' new.
  destruct (execAll_registered txs c a Hw) as (H1 & H2 & H3 & _ & _).
  fold old reg' new in H1, H2, H3. do 3 (split; [done|]).
  intros m n b <-. unfold AgentRegistry.registerAgent. fold new.
  destruct (Z.eqb_spec (AgentRegistry.wallet new) 0) as [E|_]; [|done].
  rewrite H1 in E. done.
Qed.

(** X3. Deactivation is terminal: once a registered agent is inactive, no
    sequence of transactions makes it active again; [canSpend] answers
    [false] for it, [recordSpend] for it never returns, and a [logPayment]
    sent by it fails and changes nothing. *)
Theorem X3_deactivation_is_terminal
    (c : PaymentLedger.chain) (txs : list PaymentLedger.Tx) (a : address) :
  AgentRegistry.wallet (AgentRegistry.agentAt (PaymentLedger.agentRegistry c) a) <> 0 ->
  AgentRegistry.active (AgentRegistry.agentAt (PaymentLedger.agentRegistry c) a) = false ->
  let c' := PaymentLedger.execAll txs c in
  let reg' := PaymentLedger.agentRegistry c' in
  AgentRegistry.active (AgentRegistry.agentAt reg' a) = false /\
  (forall (m : Msg) (x : Z),
      AgentRegistry.canSpend m a x reg' = Ok false /\
      succeeds (AgentRegistry.recordSpend m a x reg') = false) /\
  (forall (m : Msg) (ds : string) (x h : Z) (q : string),
      msg_sender m = a ->
      succeeds (PaymentLedger.logPayment m ds x h q c') = false /\
      PaymentLedger.exec c' (PaymentLedger.LogPayment m ds x h q) = c').
Proof.
  intros Hw Hact c' reg'.
  destruct (execAll_registered txs c a Hw) as (_ & _ & _ & H4 & _).
  specialize (H4 Hact). fold c' reg' in H4. split; [done|].
  assert (Hrec : forall m x, succeeds (AgentRegistry.recordSpend m a x reg') = false).
  { intros m x. destruct (succeeds _) eqn:E; [|done].
    apply recordSpend_succeeds_iff in E as (_ & _ & E & _). by rewrite H4 in E. }
  split.
  - intros m x. split; [|apply Hrec].
    unfold AgentRegistry.canSpend. rewrite H4. simpl. by rewrite orb_true_r.
  - intros m ds x h q <-.
    assert (Hfail : succeeds (PaymentLedger.logPayment m ds x h q c') = false).
    { destruct (PaymentLedger.logPayment m ds x h q c') as [c''| |] eqn:E; [|done..].
      change (PaymentLedger.call (PaymentLedger.LogPayment m ds x h q) c' = Ok c'') in E.
      apply call_step in E. inversion E as [| | | | |? ? ? ? ? _ _ _ _ Hsp]; subst.
      destruct Hsp as (_ & Ha & _). fold reg' in Ha. by rewrite H4 in Ha. }
    split; [done|]. unfold PaymentLedger.exec, transact. simpl.
    by destruct (PaymentLedger.logPayment m ds x h q c').
Qed.

Section SpendingFacts.
Import PaymentLedger.

(** One transaction on the spend fields of a registered agent: the reset
    day does not go back, and while it stays the spent amount does not
    shrink. The fields move only in a spend recorded for that agent. *)
Lemma exec_spend_fields (c : chain) (tx : Tx) (a : address) :
  wellFormed tx ->
  AgentRegistry.wallet (AgentRegistry.agentAt (agentRegistry c) a) <> 0 ->
  let old := AgentRegistry.agentAt (agentRegistry c) a in
  let new := AgentRegistry.agentAt (agentRegistry (exec c tx)) a in
  AgentRegistry.lastResetDay old <= AgentRegistry.lastResetDay new /\
  (AgentRegistry.lastResetDay new = AgentRegistry.lastResetDay old ->
   AgentRegistry.spentToday old <= AgentRegistry.spentToday new).
Proof.
  intros Hwf Hw old new. subst old new.
  destruct (exec_step c tx) as [->|H]; [split; [lia|intros; lia]|].
  destruct H as [m p Ho Ha|m n b Hz Hn Hb|m Hw'|m b Hw' Hb|m k x Hs Hsp
                |m ds x h q Hs Hds Hx Hq Hsp _ _ _]; simpl.
  - unfold AgentRegistry.agentAt. simpl. split; [lia|intros; lia].
  - unfold AgentRegistry.agentAt at 2 4 6. simpl.
    destruct (decide (msg_sender m = a)) as [<-|Hne]; [contradiction|].
    rewrite lookup_insert_ne by done.
    fold (AgentRegistry.agentAt (agentRegistry c) a). split; [lia|intros; lia].
  - rewrite agentAt_setAgent_dec.
    destruct (decide (msg_sender m = a)) as [<-|Hne]; simpl; split; intros; lia.
  - rewrite agentAt_setAgent_dec.
    destruct (decide (msg_sender m = a)) as [<-|Hne]; simpl; split; intros; lia.
  - rewrite agentAt_spent_dec.
    destruct (decide (k = a)) as [->|Hne]; [|split; intros; lia]. simpl.
    destruct Hwf as [_ [Hx0 _]]. unfold AgentRegistry.rollover, AgentRegistry.effectiveSpent.
    destruct (Z.ltb_spec (AgentRegistry.lastResetDay (AgentRegistry.agentAt (agentRegistry c) a))
                         (block_timestamp m / ONE_DAY)); simpl; split; intros; lia.
  - rewrite agentAt_spent_dec.
    destruct (decide (msg_sender m = a)) as [<-|Hne]; [|split; intros; lia]. simpl.
    unfold AgentRegistry.rollover, AgentRegistry.effectiveSpent.
    destruct (Z.ltb_spec
                (AgentRegistry.lastResetDay
                   (AgentRegistry.agentAt (agentRegistry c) (msg_sender m)))
                (block_timestamp m / ONE_DAY)); simpl; split; intros; lia.
Qed.

Lemma execAll_spend_fields (txs : list Tx) (c : chain) (a : address) :
  Forall wellFormed txs ->
  AgentRegistry.wallet (AgentRegistry.agentAt (agentRegistry c) a) <> 0 ->
  let old := AgentRegistry.agentAt (agentRegistry c) a in
  let new := AgentRegistry.agentAt (agentRegistry (execAll txs c)) a in
  AgentRegistry.lastResetDay old <= AgentRegistry.lastResetDay new /\
  (AgentRegistry.lastResetDay new = AgentRegistry.lastResetDay old ->
   AgentRegistry.spentToday old <= AgentRegistry.spentToday new).
Proof.
  revert c. induction txs as [|tx txs IH]; intros c Hall Hw; simpl.
  { split; [lia|intros; lia]. }
  inversion Hall as [|? ? Hwf Hall']; subst.
  destruct (exec_spend_fields c tx a Hwf Hw) as [H1 H2].
  destruct (agentStep_registered _ _ _ _ (exec_agentStep c tx a) Hw) as (Hw' & _).
  destruct (IH (exec c tx) Hall') as [I1 I2]; [by rewrite Hw'|].
  split; [lia|]. intros Heq.
  assert (E1 : AgentRegistry.lastResetDay
                 (AgentRegistry.agentAt (agentRegistry (exec c tx)) a)
               = AgentRegistry.lastResetDay (AgentRegistry.agentAt (agentRegistry c) a))
    by lia.
  specialize (H2 E1). assert (I2' := I2 ltac:(lia)). lia.
Qed.

End SpendingFacts.

(** X4. For a registered agent [lastResetDay] never goes back, whatever
    transactions are executed, and as long as it has not moved [spentToday]
    has not shrunk: within a day the recorded spend only accumulates, and it
    restarts only when the day counter advances. *)
Theorem X4_reset_day_monotone_and_spend_accumulates
    (c : PaymentLedger.chain) (txs : list PaymentLedger.Tx) (a : address) :
  Forall PaymentLedger.wellFormed txs ->
  AgentRegistry.wallet (AgentRegistry.agentAt (PaymentLedger.agentRegistry c) a) <> 0 ->
  let old := AgentRegistry.agentAt (PaymentLedger.agentRegistry c) a in
  let new := AgentRegistry.agentAt
               (PaymentLedger.agentRegistry (PaymentLedger.execAll txs c)) a in
  AgentRegistry.lastResetDay old <= AgentRegistry.lastResetDay new /\
  (AgentRegistry.lastResetDay new = AgentRegistry.lastResetDay old ->
   AgentRegistry.spentToday old <= AgentRegistry.spentToday new).
Proof. intros Hall Hw. by apply execAll_spend_fields. Qed.

(** X5. Who can change what, for a registered agent [a] and one transaction:
    the owner of the registry never changes; the linked payment ledger
    changes only in a [setPaymentLedger] sent by the owner; [spentToday] and
    [lastResetDay] of [a] change only in a [recordSpend] for [a] sent by the
    linked payment ledger, directly or as part of a [logPayment] sent by [a]
    to the ledger contract that is linked; [dailyBudget] changes only in an
    [updateBudget] sent by [a], and [active] only in a [deactivateAgent]
    sent by [a]. *)
Theorem X5_only_authorised_callers_change_the_registry
    (c : PaymentLedger.chain) (tx : PaymentLedger.Tx) (a : address) :
  AgentRegistry.wallet (AgentRegistry.agentAt (PaymentLedger.agentRegistry c) a) <> 0 ->
  let reg := PaymentLedger.agentRegistry c in
  let reg' := PaymentLedger.agentRegistry (PaymentLedger.exec c tx) in
  let old := AgentRegistry.agentAt reg a in
  let new := AgentRegistry.agentAt reg' a in
  AgentRegistry.owner reg' = AgentRegistry.owner reg /\
  (AgentRegistry.paymentLedger reg' <> AgentRegistry.paymentLedger reg ->
   exists m p, tx = PaymentLedger.SetPaymentLedger m p /\
               msg_sender m = AgentRegistry.owner reg) /\
  (AgentRegistry.spentToday new <> AgentRegistry.spentToday old \/
   AgentRegistry.lastResetDay new <> AgentRegistry.lastResetDay old ->
   (exists m x, tx = PaymentLedger.RecordSpend m a x /\
                msg_sender m = AgentRegistry.paymentLedger reg) \/
   (exists m ds x h q, tx = PaymentLedger.LogPayment m ds x h q /\ msg_sender m = a /\
                       PaymentLedger.this c = AgentRegistry.paymentLedger reg)) /\
  (AgentRegistry.dailyBudget new <> AgentRegistry.dailyBudget old ->
   exists m b, tx = PaymentLedger.UpdateBudget m b /\ msg_sender m = a) /\
  (AgentRegistry.active new <> AgentRegistry.active old ->
   exists m, tx = PaymentLedger.DeactivateAgent m /\ msg_sender m = a).
Proof.
  intros Hw reg reg' old new. subst reg reg' old new.
  destruct (exec_step c tx) as [->|H].
  { split; [done|]. repeat split; try done. by intros [|]. }
  destruct H as [m p Ho Ha|m n b Hz Hn Hb|m Hw'|m b Hw' Hb|m k x Hs Hsp
                |m ds x h q Hs Hds Hx Hq Hsp _ _ _]; simpl.
  - split; [done|]. split; [intros _; by exists m, p|].
    unfold AgentRegistry.agentAt. simpl. repeat split; try done. by intros [|].
  - split; [done|]. split; [done|].
    unfold AgentRegistry.agentAt at 1 3 5 7. simpl.
    destruct (decide (msg_sender m = a)) as [<-|Hne]; [contradiction|].
    rewrite lookup_insert_ne by done.
    fold (AgentRegistry.agentAt (PaymentLedger.agentRegistry c) a).
    repeat split; try done. by intros [|].
  - split; [done|]. split; [done|]. rewrite agentAt_setAgent_dec.
    destruct (decide (msg_sender m = a)) as [<-|Hne]; simpl.
    + repeat split; try done; [by intros [|]|]. intros _. by exists m.
    + repeat split; try done. by intros [|].
  - split; [done|]. split; [done|]. rewrite agentAt_setAgent_dec.
    destruct (decide (msg_sender m = a)) as [<-|Hne]; simpl.
    + repeat split; try done; [by intros [|]|]. intros _. by exists m, b.
    + repeat split; try done. by intros [|].
  - split; [done|]. split; [done|]. rewrite agentAt_spent_dec.
    destruct (decide (k = a)) as [->|Hne]; simpl.
    + destruct (rollover_fields (block_timestamp m / ONE_DAY)
                  (AgentRegistry.agentAt (PaymentLedger.agentRegistry c) a))
        as (_ & _ & Hact & _ & _).
      rewrite Hact, rollover_budget.
      repeat split; try done. intros _. left. by exists m, x.
    + repeat split; try done. by intros [|].
  - split; [done|]. split; [done|]. rewrite agentAt_spent_dec.
    destruct (decide (msg_sender m = a)) as [<-|Hne]; simpl.
    + destruct (rollover_fields (block_timestamp m / ONE_DAY)
                  (AgentRegistry.agentAt (PaymentLedger.agentRegistry c) (msg_sender m)))
        as (_ & _ & Hact & _ & _).
      rewrite Hact, rollover_budget.
      repeat split; try done. intros _. right. by exists m, ds, x, h, q.
    + repeat split; try done. by intros [|].
Qed.

(** X6. [updateBudget] asks only for a registered sender and a positive
    budget: it returns for a deactivated agent too, and it leaves
    [spentToday] as it is. When the new budget is below what is already
    spent, no spend of any amount is accepted for the agent until the day
    counter advances. *)
Theorem X6_budget_update_and_lowered_budget
    (reg reg' : AgentRegistry.state) (m : Msg) (b : Z) :
  AgentRegistry.updateBudget m b reg = Ok reg' ->
  let a := msg_sender m in
  let old := AgentRegistry.agentAt reg a in
  AgentRegistry.wallet old <> 0 /\ 0 < b /\
  AgentRegistry.agentAt reg' a = AgentRegistry.set_dailyBudget old b /\
  (forall k, k <> a -> AgentRegistry.agentAt reg' k = AgentRegistry.agentAt reg k) /\
  (b < AgentRegistry.spentToday old ->
   forall (m' : Msg) (x : Z),
     0 <= x ->
     block_timestamp m' / ONE_DAY <= AgentRegistry.lastResetDay old ->
     succeeds (AgentRegistry.recordSpend m' a x reg') = false /\
     AgentRegistry.canSpend m' a x reg' <> Ok true) /\
  (forall (st : AgentRegistry.state) (m' : Msg) (b' : Z),
     AgentRegistry.wallet (AgentRegistry.agentAt st (msg_sender m')) <> 0 ->
     0 < b' ->
     AgentRegistry.updateBudget m' b' st
       = Ok (AgentRegistry.setAgent st (msg_sender m')
               (AgentRegistry.set_dailyBudget
                  (AgentRegistry.agentAt st (msg_sender m')) b'))).
Proof.
  intros Hok a old.
  assert (Hsuff : forall (st : AgentRegistry.state) (m' : Msg) (b' : Z),
     AgentRegistry.wallet (AgentRegistry.agentAt st (msg_sender m')) <> 0 ->
     0 < b' ->
     AgentRegistry.updateBudget m' b' st
       = Ok (AgentRegistry.setAgent st (msg_sender m')
               (AgentRegistry.set_dailyBudget
                  (AgentRegistry.agentAt st (msg_sender m')) b'))).
  { intros st m' b' Hw' Hb'. unfold AgentRegistry.updateBudget.
    destruct (Z.eqb_spec (AgentRegistry.wallet
                            (AgentRegistry.agentAt st (msg_sender m'))) 0); [done|].
    simpl. by destruct (Z.ltb_spec 0 b'); [|lia]. }
  unfold AgentRegistry.updateBudget in Hok. fold a old in Hok.
  destruct (Z.eqb_spec (AgentRegistry.wallet old) 0) as [|Hw]; [discriminate|].
  simpl in Hok. destruct (Z.ltb_spec 0 b) as [Hb|]; [|discriminate].
  injection Hok as <-. split; [done|]. split; [done|].
  rewrite agentAt_setAgent. split; [done|].
  split; [intros k Hk; by apply agentAt_setAgent_ne|].
  split; [|exact Hsuff].
  intros Hlow m' x Hx Hday.
  assert (Heff : AgentRegistry.effectiveSpent (block_timestamp m' / ONE_DAY)
                   (AgentRegistry.set_dailyBudget old b) = AgentRegistry.spentToday old).
  { unfold AgentRegistry.effectiveSpent. simpl.
    by destruct (Z.ltb_spec (AgentRegistry.lastResetDay old)
                            (block_timestamp m' / ONE_DAY)); [lia|]. }
  split.
  - destruct (succeeds _) eqn:E; [|done].
    apply recordSpend_succeeds_iff in E as (_ & _ & _ & _ & Hle).
    rewrite agentAt_setAgent, Heff in Hle. simpl in Hle. lia.
  - intros E. apply canSpend_true_iff in E as (_ & _ & _ & Hle).
    rewrite agentAt_setAgent, Heff in Hle. simpl in Hle. lia.
Qed.

(** ** The ledger contract under arbitrary transactions *)

Section LedgerInvariants.
Import PaymentLedger.

(** What a transaction does to the ledger: nothing, or one payment appended
    with the three aggregates of its sender moved by its amount. *)
Lemma exec_ledger (c : chain) (tx : Tx) :
  (ledger (exec c tx) = ledger c /\
   (exec c tx = c \/ forall m ds x h q, tx <> LogPayment m ds x h q)) \/
  (exists m ds x h q,
      tx = LogPayment m ds x h q /\ step c tx (exec c tx) /\
      ledger (exec c tx) =
        mkState
          (payments (ledger c) ++ [mkPayment (msg_sender m) ds x h (block_timestamp m) q])
          (<[msg_sender m := at0 (totalSpentByAgent (ledger c)) (msg_sender m) + x]>
             (totalSpentByAgent (ledger c)))
          (<[msg_sender m := at0 (paymentCountByAgent (ledger c)) (msg_sender m) + 1]>
             (paymentCountByAgent (ledger c)))
          (<[(msg_sender m, ds) :=
               at0 (spentBySourceByAgent (ledger c)) (msg_sender m, ds) + x]>
             (spentBySourceByAgent (ledger c)))).
Proof.
  destruct (exec_step c tx) as [E|H]; [left; rewrite E; auto|].
  remember (exec c tx) as c' eqn:Ec'.
  destruct H as [m p Ho Ha|m n b Hz Hn Hb|m Hw'|m b Hw' Hb|m k x Hs Hsp
                |m ds x h q Hs Hds Hx Hq Hsp H1 H2 H3]; simpl.
  1-5: left; split; [done|]; right; intros; discriminate.
  right. exists m, ds, x, h, q. split; [done|]. split; [|done].
  by constructor.
Qed.

Lemma at0_insert_pair (m : gmap (address * string) Z) (k k' : address * string) (v : Z) :
  at0 (<[k := v]> m) k' = if decide (k = k') then v else at0 m k'.
Proof.
  unfold at0. destruct (decide (k = k')) as [->|Hne].
  - by rewrite lookup_insert_eq.
  - by rewrite lookup_insert_ne.
Qed.

Lemma exec_sourcesAgree (c : chain) (tx : Tx) :
  sourcesAgree (ledger c) -> sourcesAgree (ledger (exec c tx)).
Proof.
  intros Hinv.
  destruct (exec_ledger c tx) as [[-> _]|(m & ds & x & h & q & -> & _ & ->)]; [done|].
  intros a ds'. simpl. rewrite at0_insert_pair.
  unfold paymentsToSource. rewrite List.filter_app, sumAmounts_app. simpl.
  destruct (decide ((msg_sender m, ds) = (a, ds'))) as [[= <- <-]|Hne].
  - rewrite Z.eqb_refl, String.eqb_refl. simpl.
    rewrite (Hinv (msg_sender m) ds). unfold paymentsToSource. lia.
  - destruct (Z.eqb_spec (msg_sender m) a) as [Ea|]; simpl.
    + destruct (String.eqb_spec ds ds') as [Ed|]; [congruence|]. simpl.
      rewrite (Hinv a ds'). unfold paymentsToSource. lia.
    + rewrite (Hinv a ds'). unfold paymentsToSource. lia.
Qed.

Lemma exec_countsBounded (c : chain) (tx : Tx) :
  countsBounded (ledger c) -> countsBounded (ledger (exec c tx)).
Proof.
  intros Hinv.
  destruct (exec_ledger c tx) as [[-> _]|(m & ds & x & h & q & -> & Hstep & ->)]; [done|].
  intros a. simpl. rewrite at0_insert.
  destruct (decide (msg_sender m = a)) as [<-|]; [|apply Hinv].
  by inversion Hstep.
Qed.

Lemma execAll_ledger_invariants (txs : list Tx) (c : chain) :
  aggregatesAgree (ledger c) -> sourcesAgree (ledger c) -> countsBounded (ledger c) ->
  aggregatesAgree (ledger (execAll txs c)) /\
  sourcesAgree (ledger (execAll txs c)) /\
  countsBounded (ledger (execAll txs c)).
Proof.
  revert c. induction txs as [|tx txs IH]; intros c H1 H2 H3; simpl; [done|].
  apply IH; [by apply exec_aggregatesAgree|by apply exec_sourcesAgree
            |by apply exec_countsBounded].
Qed.

Lemma deploy_ledger_invariants this registry :
  aggregatesAgree (ledger (deploy this registry)) /\
  sourcesAgree (ledger (deploy this registry)) /\
  countsBounded (ledger (deploy this registry)).
Proof.
  split; [apply deploy_aggregatesAgree|]. split.
  - intros a ds. unfold at0. simpl. by rewrite lookup_empty.
  - intros a. unfold at0. simpl. rewrite lookup_empty. simpl. unfold MAX_UINT256. lia.
Qed.

(** The loop of [getPaymentsByAgent], with [copied] already in place. *)
Lemma collect_spec (a : address) (count : Z) (ps copied : list Payment) :
  count <= MAX_UINT256 ->
  count = Z.of_nat (length copied) + Z.of_nat (length (paymentsOf a ps)) ->
  collect a count ps (Z.of_nat (length copied))
          (copied ++ replicate (length (paymentsOf a ps)) zeroPayment)%list
    = Ok (copied ++ paymentsOf a ps)%list.
Proof.
  revert copied. induction ps as [|p ps IH]; intros copied Hmax Hcount.
  { simpl. by rewrite app_nil_r. }
  unfold paymentsOf in *. cbn [List.filter collect] in *.
  destruct (Z.eqb_spec (agent p) a) as [Ha|Ha]; [|by apply IH].
  cbn [length replicate] in *.
  unfold store. rewrite length_app. cbn [length]. rewrite length_replicate.
  destruct (Z.leb_spec 0 (Z.of_nat (length copied))); [|lia].
  destruct (Z.ltb_spec (Z.of_nat (length copied))
              (Z.of_nat (length copied
                         + S (length (List.filter (fun p => agent p =? a) ps)))));
    [|lia].
  cbn [andb rbind]. unfold checked_add.
  destruct (Z.leb_spec (Z.of_nat (length copied) + 1) MAX_UINT256); [|lia].
  cbn [rbind].
  rewrite Nat2Z.id.
  set (n := length (List.filter (fun p0 : Payment => agent p0 =? a) ps)) in *.
  assert (Hins : <[length copied:=p]> (copied ++ zeroPayment :: replicate n zeroPayment)%list
                 = ((copied ++ [p]) ++ replicate n zeroPayment)%list).
  { rewrite insert_app_r_alt by lia. rewrite Nat.sub_diag. simpl.
    by rewrite <- app_assoc. }
  rewrite Hins.
  destruct (Z.eqb_spec (Z.of_nat (length copied) + 1) count) as [Heq|Hne].
  - assert (Hn : n = 0%nat) by lia. subst n.
    destruct (List.filter _ ps); [|discriminate]. simpl. by rewrite app_nil_r.
  - specialize (IH (copied ++ [p])%list Hmax).
    rewrite length_app in IH. cbn [length] in IH.
    replace (Z.of_nat (length copied) + 1) with (Z.of_nat (length copied + 1)) by lia.
    subst n. rewrite IH by lia. by rewrite <- app_assoc.
Qed.

Lemma getPaymentsByAgent_consistent (a : address) (c : chain) :
  aggregatesAgree (ledger c) -> countsBounded (ledger c) ->
  getPaymentsByAgent a c = Ok (paymentsOf a (payments (ledger c))).
Proof.
  intros Hagg Hb. unfold getPaymentsByAgent, newArray.
  destruct (Hagg a) as [_ Hc]. rewrite Hc, Nat2Z.id.
  apply (collect_spec a _ (payments (ledger c)) []); simpl; [|lia].
  rewrite <- Hc. apply Hb.
Qed.

End LedgerInvariants.

(** X7. On every state the two contracts can reach, [getPaymentsByAgent(a)]
    returns, without running out of the bounds of the array it allocates,
    exactly the payments recorded for [a], in the order they were recorded;
    for an agent without payments that is the empty array. *)
Theorem X7_getPaymentsByAgent_returns_the_agents_payments
    (this : address) (registry : AgentRegistry.state) (txs : list PaymentLedger.Tx)
    (a : address) :
  let c := PaymentLedger.execAll txs (PaymentLedger.deploy this registry) in
  PaymentLedger.getPaymentsByAgent a c
    = Ok (List.filter (fun p => PaymentLedger.agent p =? a)
                      (PaymentLedger.payments (PaymentLedger.ledger c))).
Proof.
  intros c.
  destruct (deploy_ledger_invariants this registry) as (H1 & H2 & H3).
  destruct (execAll_ledger_invariants txs _ H1 H2 H3) as (I1 & _ & I3).
  by apply getPaymentsByAgent_consistent.
Qed.

Section AppendOnly.
Import PaymentLedger.

Lemma exec_this (c : chain) (tx : Tx) : this (exec c tx) = this c.
Proof.
  destruct (exec_step c tx) as [->|H]; [done|]. by destruct H.
Qed.

(** A payment is well formed: a positive amount for a named source and
    query type. *)
Lemma exec_payments (c : chain) (tx : Tx) :
  payments (ledger (exec c tx)) = payments (ledger c) \/
  exists p, recorded tx = Some p /\
            payments (ledger (exec c tx)) = (payments (ledger c) ++ [p])%list /\
            0 < amount p /\ dataSource p <> EmptyString /\ queryType p <> EmptyString.
Proof.
  destruct (exec_ledger c tx) as [[-> _]|(m & ds & x & h & q & -> & Hstep & ->)];
    [by left|].
  right. eexists. split; [reflexivity|]. simpl. split; [done|].
  by inversion Hstep.
Qed.

Lemma execAll_payments (txs : list Tx) (c : chain) :
  exists more,
    payments (ledger (execAll txs c)) = (payments (ledger c) ++ more)%list /\
    Forall (fun p => (exists tx, tx ∈ txs /\ recorded tx = Some p) /\
                     0 < amount p /\ dataSource p <> EmptyString /\
                     queryType p <> EmptyString) more.
Proof.
  revert c. induction txs as [|tx txs IH]; intros c; simpl.
  { exists []. by rewrite app_nil_r. }
  destruct (IH (exec c tx)) as (more & Hm & Hall).
  assert (Hall' : Forall (fun p => (exists tx', tx' ∈ tx :: txs /\ recorded tx' = Some p) /\
                                   0 < amount p /\ dataSource p <> EmptyString /\
                                   queryType p <> EmptyString) more).
  { eapply Forall_impl; [exact Hall|]. intros p ((tx' & Hin & Hr) & ?).
    split; [|done]. exists tx'. split; [by apply elem_of_cons; right|done]. }
  destruct (exec_payments c tx) as [E|(p & Hr & E & Hp)].
  - exists more. by rewrite Hm, E.
  - exists (p :: more). rewrite Hm, E, <- app_assoc. split; [done|].
    constructor; [|done]. split; [|done]. exists tx. split; [apply elem_of_cons; by left|done].
Qed.

Lemma sumAmounts_filter_le (f g : Payment -> bool) (ps : list Payment) :
  Forall (fun p => 0 < amount p) ps ->
  0 <= sumAmounts (List.filter (fun p => f p && g p) ps)
    <= sumAmounts (List.filter f ps).
Proof.
  induction 1 as [|p ps Hp _ IH]; simpl; [lia|].
  destruct (f p), (g p); simpl; lia.
Qed.

End AppendOnly.

(** X8. The ledger is append-only. Whatever transactions are executed, the
    payments recorded before are still there, unchanged and in place, and
    every payment added since is the one a [logPayment] transaction among
    them recorded: its agent is that transaction's sender, its timestamp
    that block's, its amount positive, its source and query type not empty.
    The ledger's address does not change and [getPaymentCount] does not go
    down. *)
Theorem X8_payments_are_append_only
    (c : PaymentLedger.chain) (txs : list PaymentLedger.Tx) :
  let c' := PaymentLedger.execAll txs c in
  PaymentLedger.getPaymentCount c <= PaymentLedger.getPaymentCount c' /\
  exists more,
    PaymentLedger.payments (PaymentLedger.ledger c')
      = (PaymentLedger.payments (PaymentLedger.ledger c) ++ more)%list /\
    Forall (fun p =>
              (exists m ds x h q,
                  PaymentLedger.LogPayment m ds x h q ∈ txs /\
                  p = PaymentLedger.mkPayment (msg_sender m) ds x h (block_timestamp m) q) /\
              0 < PaymentLedger.amount p /\
              PaymentLedger.dataSource p <> EmptyString /\
              PaymentLedger.queryType p <> EmptyString) more.
Proof.
  intros c'. destruct (execAll_payments txs c) as (more & Hm & Hall). fold c' in Hm.
  split.
  - unfold PaymentLedger.getPaymentCount. rewrite Hm, length_app. lia.
  - exists more. split; [done|]. eapply Forall_impl; [exact Hall|].
    intros p ((tx & Hin & Hr) & Hp). split; [|done].
    destruct tx as [| | | | |m ds x h q]; try discriminate.
    injection Hr as <-. by exists m, ds, x, h, q.
Qed.

(** X9. On every reachable state the per-source aggregate
    [spentBySourceByAgent[a][source]] is the sum of the amounts of the
    payments [a] made to that source; it lies between 0 and the agent's
    total, and the agent's counter is a [uint256] value. *)
Theorem X9_per_source_aggregates_match_records
    (this : address) (registry : AgentRegistry.state) (txs : list PaymentLedger.Tx)
    (a : address) (source : string) :
  let l := PaymentLedger.ledger
             (PaymentLedger.execAll txs (PaymentLedger.deploy this registry)) in
  PaymentLedger.at0 (PaymentLedger.spentBySourceByAgent l) (a, source)
    = PaymentLedger.sumAmounts
        (PaymentLedger.paymentsToSource a source (PaymentLedger.payments l)) /\
  0 <= PaymentLedger.at0 (PaymentLedger.spentBySourceByAgent l) (a, source)
    <= PaymentLedger.at0 (PaymentLedger.totalSpentByAgent l) a /\
  0 <= PaymentLedger.at0 (PaymentLedger.paymentCountByAgent l) a <= MAX_UINT256.
Proof.
  intros l.
  destruct (deploy_ledger_invariants this registry) as (H1 & H2 & H3).
  destruct (execAll_ledger_invariants txs _ H1 H2 H3) as (I1 & I2 & I3).
  fold l in I1, I2, I3. split; [apply I2|].
  split; [|split; [destruct (I1 a) as [_ ->]; lia|apply I3]].
  rewrite (I2 a source). destruct (I1 a) as [-> _].
  apply sumAmounts_filter_le.
  destruct (execAll_payments txs (PaymentLedger.deploy this registry)) as (more & Hm & Hall).
  fold l in Hm. rewrite Hm. simpl. eapply Forall_impl; [exact Hall|].
  by intros p (_ & ? & _).
Qed.

Section RecentAndStats.
Import PaymentLedger.

Lemma store_Ok (arr : list Payment) (i : nat) (p : Payment) :
  (i < length arr)%nat -> store arr (Z.of_nat i) p = Ok (<[i := p]> arr).
Proof.
  intros Hi. unfold store.
  destruct (Z.leb_spec 0 (Z.of_nat i)); [|lia].
  destruct (Z.ltb_spec (Z.of_nat i) (Z.of_nat (length arr))); [|lia].
  simpl. by rewrite Nat2Z.id.
Qed.

Lemma load_Ok (ps : list Payment) (i : nat) (p : Payment) :
  ps !! i = Some p -> load ps (Z.of_nat i) = Ok p.
Proof.
  intros Hp. unfold load. destruct (Z.leb_spec 0 (Z.of_nat i)); [|lia].
  by rewrite Nat2Z.id, Hp.
Qed.

(** The loop of [getRecentPayments] after [k] of its [n] rounds. *)
Lemma copyRecent_spec (ps : list Payment) (s n k : nat) :
  (s + n = length ps)%nat ->
  Z.of_nat (length ps) <= MAX_UINT256 ->
  (k <= n)%nat ->
  copyRecent ps (Z.of_nat s) (seq 0 k) (replicate n zeroPayment)
    = Ok (take k (drop s ps) ++ replicate (n - k) zeroPayment)%list.
Proof.
  intros Hlen Hmax. unfold copyRecent. induction k as [|k IH]; intros Hk.
  { simpl. by rewrite Nat.sub_0_r. }
  rewrite seq_S, fold_left_app, IH by lia. cbn [fold_left rbind Nat.add].
  unfold checked_add.
  destruct (Z.leb_spec (Z.of_nat s + Z.of_nat k) MAX_UINT256) as [_|]; [|lia].
  cbn [rbind].
  destruct (lookup_lt_is_Some_2 ps (s + k)) as [p Hp]; [lia|].
  rewrite <- Nat2Z.inj_add, (load_Ok _ _ _ Hp). cbn [rbind].
  assert (Hlk : length (take k (drop s ps)) = k).
  { rewrite length_take, length_drop. lia. }
  rewrite store_Ok by (rewrite length_app, Hlk, length_replicate; lia).
  f_equal.
  replace (n - k)%nat with (S (n - S k)) by lia. cbn [replicate].
  rewrite insert_app_r_alt by lia. rewrite Hlk, Nat.sub_diag. cbn [insert list_insert].
  rewrite (take_S_r _ _ p) by (by rewrite lookup_drop).
  by rewrite <- app_assoc.
Qed.

Lemma last_cons_default {A} (l : list A) (x d : A) :
  List.last (x :: l) d = List.last l x.
Proof.
  revert x d. induction l as [|y l IH]; intros x d; [done|].
  change (List.last (x :: y :: l) d) with (List.last (y :: l) d).
  by rewrite (IH y d), (IH y x).
Qed.

(** The loop of [getAgentStats] from any state of its three variables. *)
Lemma scan_spec (a : address) (ps : list Payment) (acc : bool * Z * Z) :
  fold_left (fun (acc : bool * Z * Z) (p : Payment) =>
               let '(foundFirst, firstPayment, lastPayment) := acc in
               if agent p =? a then
                 (true, if foundFirst then firstPayment else timestamp p, timestamp p)
               else (foundFirst, firstPayment, lastPayment))
            ps acc
  = match paymentsOf a ps with
    | [] => acc
    | p :: rest =>
        (true, if acc.1.1 then acc.1.2 else timestamp p, timestamp (List.last rest p))
    end.
Proof.
  revert acc. induction ps as [|p ps IH]; intros [[b f] l]; [reflexivity|].
  cbn [fold_left paymentsOf List.filter]. rewrite IH.
  fold (paymentsOf a ps).
  destruct (agent p =? a); [|done]. simpl.
  destruct (paymentsOf a ps) as [|p' rest]; [done|].
  rewrite last_cons_default. simpl. by destruct b.
Qed.

(** Until the registry names this ledger, nothing is recorded. *)
Lemma exec_unlinked (c : chain) (tx : Tx) :
  AgentRegistry.paymentLedger (agentRegistry c) <> this c ->
  (forall m, tx = SetPaymentLedger m (this c) ->
             msg_sender m <> AgentRegistry.owner (agentRegistry c)) ->
  AgentRegistry.paymentLedger (agentRegistry (exec c tx)) <> this (exec c tx) /\
  AgentRegistry.owner (agentRegistry (exec c tx)) = AgentRegistry.owner (agentRegistry c) /\
  payments (ledger (exec c tx)) = payments (ledger c).
Proof.
  intros Hne Htx. destruct (exec_step c tx) as [->|H]; [done|].
  destruct H as [m p Ho Ha|m n b Hz Hn Hb|m Hw'|m b Hw' Hb|m k x Hs Hsp
                |m ds x h q Hs Hds Hx Hq Hsp _ _ _]; simpl; try done; try congruence.
  split; [|done]. intros ->. by apply (Htx m).
Qed.

End RecentAndStats.

(** X10. [getRecentPayments(count)] returns, for every [count], the last
    [min(count, payments.length)] payments in the order they were logged: it
    never reverts, and asking for more than there are returns them all. *)
Theorem X10_getRecentPayments_returns_the_latest
    (c : PaymentLedger.chain) (count : Z) :
  0 <= count ->
  PaymentLedger.getPaymentCount c <= MAX_UINT256 ->
  let ps := PaymentLedger.payments (PaymentLedger.ledger c) in
  PaymentLedger.getRecentPayments count c
    = Ok (drop (length ps - Z.to_nat count) ps) /\
  Z.of_nat (length (drop (length ps - Z.to_nat count) ps))
    = Z.min count (PaymentLedger.getPaymentCount c).
Proof.
  intros Hc Hmax ps. unfold PaymentLedger.getPaymentCount in *. fold ps in Hmax |- *.
  split; [|rewrite length_drop; lia].
  unfold PaymentLedger.getRecentPayments. fold ps.
  set (n := Z.to_nat (if Z.of_nat (length ps) <? count then Z.of_nat (length ps) else count)).
  assert (Hn : (n = Nat.min (Z.to_nat count) (length ps))%nat).
  { subst n. destruct (Z.ltb_spec (Z.of_nat (length ps)) count); lia. }
  assert (Hcnt : (if Z.of_nat (length ps) <? count then Z.of_nat (length ps) else count)
                 = Z.of_nat n).
  { subst n. destruct (Z.ltb_spec (Z.of_nat (length ps)) count); lia. }
  rewrite Hcnt. unfold PaymentLedger.checked_sub.
  destruct (Z.leb_spec (Z.of_nat n) (Z.of_nat (length ps))) as [_|]; [|lia].
  cbn [rbind]. unfold PaymentLedger.newArray. rewrite Nat2Z.id.
  replace (Z.of_nat (length ps) - Z.of_nat n) with (Z.of_nat (length ps - n)) by lia.
  rewrite (copyRecent_spec ps (length ps - n) n n) by lia.
  rewrite Nat.sub_diag. cbn [replicate]. rewrite app_nil_r.
  replace (length ps - Z.to_nat count)%nat with (length ps - n)%nat by lia.
  f_equal. apply take_ge. rewrite length_drop. lia.
Qed.

(** X11. Nothing can be logged before the registry names the ledger: as long
    as [paymentLedger] of the registry is not the ledger's own address every
    [logPayment] reverts, and from deployment on the record stays empty until
    the deployer of the registry has sent [setPaymentLedger] with the
    ledger's address. *)
Theorem X11_nothing_is_logged_before_the_ledger_is_linked
    (deployer : Msg) (this : address) (txs : list PaymentLedger.Tx) :
  this <> 0 ->
  (forall m, PaymentLedger.SetPaymentLedger m this ∈ txs ->
             msg_sender m <> msg_sender deployer) ->
  let c := PaymentLedger.execAll txs (PaymentLedger.genesis deployer this) in
  PaymentLedger.payments (PaymentLedger.ledger c) = [] /\
  forall (m : Msg) (ds : string) (x h : Z) (q : string),
    succeeds (PaymentLedger.logPayment m ds x h q c) = false.
Proof.
  intros Hthis Htxs c.
  assert (Hinv : AgentRegistry.paymentLedger (PaymentLedger.agentRegistry c)
                   <> PaymentLedger.this c /\
                 PaymentLedger.payments (PaymentLedger.ledger c) = []).
  { subst c.
    assert (Hgen : forall c0,
               AgentRegistry.paymentLedger (PaymentLedger.agentRegistry c0)
                 <> PaymentLedger.this c0 ->
               PaymentLedger.this c0 = this ->
               AgentRegistry.owner (PaymentLedger.agentRegistry c0) = msg_sender deployer ->
               AgentRegistry.paymentLedger
                 (PaymentLedger.agentRegistry (PaymentLedger.execAll txs c0))
                 <> PaymentLedger.this (PaymentLedger.execAll txs c0) /\
               PaymentLedger.payments (PaymentLedger.ledger (PaymentLedger.execAll txs c0))
                 = PaymentLedger.payments (PaymentLedger.ledger c0)).
    { clear Hthis. induction txs as [|tx txs IH]; intros c0 Hne Ht Ho; [done|].
      simpl.
      destruct (exec_unlinked c0 tx Hne) as (H1 & H2 & H3).
      { intros m Etx. rewrite Ho. apply Htxs. rewrite Etx, Ht. apply elem_of_cons. by left. }
      destruct (IH (fun m Hin => Htxs m (proj2 (elem_of_cons _ _ _) (or_intror Hin)))
                   (PaymentLedger.exec c0 tx) H1) as [I1 I2].
      - by rewrite exec_this.
      - by rewrite H2.
      - split; [done|]. by rewrite I2. }
    apply Hgen; simpl; [by intros E; apply Hthis|done|done]. }
  destruct Hinv as [Hne Hps]. split; [done|].
  intros m ds x h q.
  destruct (PaymentLedger.logPayment m ds x h q c) as [c''| |] eqn:E; [|done..].
  change (PaymentLedger.call (PaymentLedger.LogPayment m ds x h q) c = Ok c'') in E.
  apply call_step in E. inversion E; subst. congruence.
Qed.

(** X12. On every state the two contracts can reach, [getAgentStats(a)] is
    all zeros for an agent without payments, and otherwise the sum and the
    number of the agent's payments with the timestamps of the first and of
    the last of them, in the order they were logged. *)
Theorem X12_getAgentStats_reports_first_and_last_payment
    (this : address) (registry : AgentRegistry.state) (txs : list PaymentLedger.Tx)
    (a : address) :
  let c := PaymentLedger.execAll txs (PaymentLedger.deploy this registry) in
  PaymentLedger.getAgentStats a c
    = match PaymentLedger.paymentsOf a (PaymentLedger.payments (PaymentLedger.ledger c)) with
      | [] => (0, 0, 0, 0)
      | p :: rest =>
          (PaymentLedger.sumAmounts (p :: rest), Z.of_nat (length (p :: rest)),
           PaymentLedger.timestamp p, PaymentLedger.timestamp (List.last rest p))
      end.
Proof.
  intros c.
  destruct (deploy_ledger_invariants this registry) as (H1 & H2 & H3).
  destruct (execAll_ledger_invariants txs _ H1 H2 H3) as (I1 & _ & _).
  fold c in I1. destruct (I1 a) as [Ht Hc].
  unfold PaymentLedger.getAgentStats, PaymentLedger.scanTimestamps.
  rewrite Ht, Hc, scan_spec.
  destruct (PaymentLedger.paymentsOf a (PaymentLedger.payments (PaymentLedger.ledger c)))
    as [|p rest]; [done|].
  by destruct (Z.eqb_spec (Z.of_nat (length (p :: rest))) 0) as [E|_]; [simpl in E; lia|].
Qed.

(** ** The daily budget, from the ledger's side *)

Section DailyCap.
Import PaymentLedger.

Lemma paymentsOnDay_of (a : address) (d : Z) (ps : list Payment) :
  paymentsOnDay a d ps = List.filter (fun p => dayOf (timestamp p) =? d) (paymentsOf a ps).
Proof.
  unfold paymentsOnDay, paymentsOf. induction ps as [|p ps IH]; [done|]. simpl.
  destruct (agent p =? a); simpl; [|done]. by rewrite IH.
Qed.

Lemma paymentsOnDay_later (a : address) (d : Z) (ps : list Payment) :
  Forall (fun p => dayOf (timestamp p) < d) (paymentsOf a ps) ->
  paymentsOnDay a d ps = [].
Proof.
  rewrite paymentsOnDay_of. induction 1 as [|p l Hp _ IH]; [done|]. simpl.
  by destruct (Z.eqb_spec (dayOf (timestamp p)) d); [lia|].
Qed.

Lemma paymentsOf_snoc (a : address) (ps : list Payment) (p : Payment) :
  paymentsOf a (ps ++ [p]) =
    (paymentsOf a ps ++ if agent p =? a then [p] else [])%list.
Proof. unfold paymentsOf. rewrite List.filter_app. simpl. by destruct (agent p =? a). Qed.

Lemma paymentsOnDay_snoc (a : address) (d : Z) (ps : list Payment) (p : Payment) :
  paymentsOnDay a d (ps ++ [p]) =
    (paymentsOnDay a d ps
       ++ if (agent p =? a) && (dayOf (timestamp p) =? d) then [p] else [])%list.
Proof.
  unfold paymentsOnDay. rewrite List.filter_app. simpl.
  by destruct ((agent p =? a) && (dayOf (timestamp p) =? d)).
Qed.

(** The three facts of [daysAgree] for one agent after a spend of [x] is
    recorded for it on day [today], [added] being what the ledger appended
    for it. *)
Lemma spent_daysAgree (ag : AgentRegistry.Agent) (a : address) (today x : Z)
    (ps : list Payment) (added : list Payment) :
  0 <= x ->
  (added = [] \/ exists p, added = [p] /\ agent p = a /\ amount p = x /\
                           dayOf (timestamp p) = today) ->
  sumAmounts (paymentsOnDay a (AgentRegistry.lastResetDay ag) ps)
    <= AgentRegistry.spentToday ag ->
  Forall (fun p => dayOf (timestamp p) <= AgentRegistry.lastResetDay ag) (paymentsOf a ps) ->
  let ag' := AgentRegistry.set_spentToday (AgentRegistry.rollover today ag)
               (AgentRegistry.effectiveSpent today ag + x) in
  sumAmounts (paymentsOnDay a (AgentRegistry.lastResetDay ag') (ps ++ added))
    <= AgentRegistry.spentToday ag' /\
  Forall (fun p => dayOf (timestamp p) <= AgentRegistry.lastResetDay ag')
         (paymentsOf a (ps ++ added)).
Proof.
  intros Hx Hadded Hsum Hdays ag'. subst ag'.
  unfold AgentRegistry.rollover, AgentRegistry.effectiveSpent.
  destruct (Z.ltb_spec (AgentRegistry.lastResetDay ag) today) as [Hlt|Hge]; simpl.
  - assert (Hnone : paymentsOnDay a today ps = []).
    { apply paymentsOnDay_later. eapply Forall_impl; [exact Hdays|]. simpl. intros; lia. }
    assert (Hold : Forall (fun p => dayOf (timestamp p) <= today) (paymentsOf a ps)).
    { eapply Forall_impl; [exact Hdays|]. simpl. intros; lia. }
    destruct Hadded as [->|(p & -> & Hp & Hamt & Hday)].
    + rewrite app_nil_r, Hnone. simpl. split; [lia|done].
    + rewrite paymentsOnDay_snoc, paymentsOf_snoc, Hnone, Hp, Hday, !Z.eqb_refl. simpl.
      split; [lia|]. apply Forall_app. split; [done|]. constructor; [lia|done].
  - destruct Hadded as [->|(p & -> & Hp & Hamt & Hday)].
    + rewrite app_nil_r. split; [lia|done].
    + rewrite paymentsOnDay_snoc, paymentsOf_snoc, Hp, Hday, Z.eqb_refl. simpl.
      split.
      * destruct (Z.eqb_spec today (AgentRegistry.lastResetDay ag));
          rewrite sumAmounts_app; simpl; lia.
      * apply Forall_app. split; [done|]. constructor; [lia|done].
Qed.

Lemma exec_daysAgree (c : chain) (tx : Tx) :
  wellFormed tx -> daysAgree c -> daysAgree (exec c tx).
Proof.
  intros [Ht Hwf] Hinv. destruct (exec_step c tx) as [->|H]; [done|].
  destruct H as [m p Ho Ha|m n b Hz Hn Hb|m Hw'|m b Hw' Hb|m k x Hs Hsp
                |m ds x h q Hs Hds Hx Hq Hsp _ _ _]; intros a;
    destruct (Hinv a) as (I1 & I2 & I3); cbn [agentRegistry ledger].
  - unfold AgentRegistry.agentAt. simpl. done.
  - unfold AgentRegistry.agentAt in *. simpl.
    destruct (decide (msg_sender m = a)) as [<-|Hne].
    + rewrite lookup_insert_eq. simpl.
      rewrite paymentsOnDay_of, (I3 Hz). simpl. done.
    + rewrite lookup_insert_ne by done. done.
  - rewrite agentAt_setAgent_dec.
    by destruct (decide (msg_sender m = a)) as [<-|Hne].
  - rewrite agentAt_setAgent_dec.
    by destruct (decide (msg_sender m = a)) as [<-|Hne].
  - rewrite agentAt_spent_dec. destruct (decide (k = a)) as [->|Hne]; [|done].
    destruct Hwf as [Hx0 _].
    destruct (spent_daysAgree _ a (block_timestamp m / ONE_DAY) x _ [] Hx0
                (or_introl eq_refl) I1 I2) as [J1 J2].
    rewrite app_nil_r in J1, J2. split; [done|]. split; [done|].
    simpl. destruct (rollover_fields (block_timestamp m / ONE_DAY)
                       (AgentRegistry.agentAt (agentRegistry c) a)) as (-> & _).
    done.
  - rewrite agentAt_spent_dec. destruct (decide (msg_sender m = a)) as [<-|Hne].
    + destruct (spent_daysAgree _ (msg_sender m) (block_timestamp m / ONE_DAY) x _
                  [mkPayment (msg_sender m) ds x h (block_timestamp m) q]
                  ltac:(lia)
                  (or_intror (ex_intro _ _ (conj eq_refl (conj eq_refl
                                              (conj eq_refl eq_refl))))) I1 I2)
        as [J1 J2].
      split; [done|]. split; [done|]. simpl.
      destruct (rollover_fields (block_timestamp m / ONE_DAY)
                  (AgentRegistry.agentAt (agentRegistry c) (msg_sender m))) as (-> & _).
      destruct Hsp as (Hw & _). done.
    + simpl. rewrite paymentsOnDay_snoc, paymentsOf_snoc. simpl.
      destruct (Z.eqb_spec (msg_sender m) a) as [|_]; [done|]. simpl.
      by rewrite !app_nil_r.
Qed.

Lemma execAll_daysAgree (txs : list Tx) (c : chain) :
  Forall wellFormed txs -> daysAgree c -> daysAgree (execAll txs c).
Proof.
  revert c. induction txs as [|tx txs IH]; intros c Hall Hinv; [done|].
  inversion Hall; subst. simpl. apply IH; [done|]. by apply exec_daysAgree.
Qed.

Lemma deploy_daysAgree (this : address) (registry : AgentRegistry.state) :
  (forall a, 0 <= AgentRegistry.spentToday (AgentRegistry.agentAt registry a)) ->
  daysAgree (deploy this registry).
Proof. intros H a. simpl. split; [apply H|done]. Qed.

End DailyCap.

(** X13. The daily budget holds for what the ledger records. On every state
    the two contracts can reach (the registry's stored amounts and the
    transactions' arguments being [uint256] values), the payments logged for an agent on the
    registry's current day of that agent sum to at most its [spentToday], no
    payment of the agent is dated later, and an unregistered address has no
    payment. So when a [logPayment] returns (the block's day not being before
    [lastResetDay]), all the payments of the sender dated that day, the new
    one included, sum to at most the sender's [dailyBudget]. *)
Theorem X13_payments_of_a_day_stay_within_the_daily_budget
    (this : address) (registry : AgentRegistry.state) (txs : list PaymentLedger.Tx)
    (m : Msg) (ds : string) (x h : Z) (q : string) :
  (forall a, 0 <= AgentRegistry.spentToday (AgentRegistry.agentAt registry a)) ->
  Forall PaymentLedger.wellFormed txs ->
  let c := PaymentLedger.execAll txs (PaymentLedger.deploy this registry) in
  let ag := AgentRegistry.agentAt (PaymentLedger.agentRegistry c) (msg_sender m) in
  AgentRegistry.lastResetDay ag <= block_timestamp m / ONE_DAY ->
  succeeds (PaymentLedger.logPayment m ds x h q c) = true ->
  PaymentLedger.daysAgree c /\
  PaymentLedger.sumAmounts
    (PaymentLedger.paymentsOnDay (msg_sender m) (PaymentLedger.dayOf (block_timestamp m))
       (PaymentLedger.payments
          (PaymentLedger.ledger (PaymentLedger.exec c (PaymentLedger.LogPayment m ds x h q)))))
    <= AgentRegistry.dailyBudget ag.
Proof.
  intros Hreg Hall c ag Hday Hok.
  assert (Hinv : PaymentLedger.daysAgree c).
  { apply execAll_daysAgree; [done|by apply deploy_daysAgree]. }
  split; [done|].
  unfold PaymentLedger.exec, transact.
  change (PaymentLedger.call (PaymentLedger.LogPayment m ds x h q) c)
    with (PaymentLedger.logPayment m ds x h q c).
  destruct (PaymentLedger.logPayment m ds x h q c) as [c'| |] eqn:E; [|done..].
  change (PaymentLedger.call (PaymentLedger.LogPayment m ds x h q) c = Ok c') in E.
  apply call_step in E.
  inversion E as [| | | | |? ? ? ? ? Hs Hds Hx Hq Hsp _ _ _]; subst. simpl.
  destruct Hsp as (_ & _ & _ & Hle). fold ag in Hle.
  destruct (Hinv (msg_sender m)) as (I1 & I2 & _). fold ag in I1, I2.
  rewrite paymentsOnDay_snoc. simpl. rewrite !Z.eqb_refl. simpl.
  rewrite sumAmounts_app. simpl.
  unfold AgentRegistry.effectiveSpent in Hle. unfold PaymentLedger.dayOf.
  destruct (Z.ltb_spec (AgentRegistry.lastResetDay ag) (block_timestamp m / ONE_DAY)) as [Hlt|Hge].
  - rewrite paymentsOnDay_later; [simpl; lia|].
    eapply Forall_impl; [exact I2|]. unfold PaymentLedger.dayOf. simpl. intros; lia.
  - replace (block_timestamp m / ONE_DAY) with (AgentRegistry.lastResetDay ag) by lia.
    lia.
Qed.

(** ** The gateway *)

Section GatewayFacts.
Import Gateway.

Variable verifyTypedData :
  Facilitator.Domain -> Facilitator.TypedValue -> string -> outcome string.
Variable parsePaymentHeader : string -> option Facilitator.PaymentProof.

(** The middleware, case by case. *)
Lemma x402Middleware_cases e resource amount paymentHeader used :
  (exists message, x402Middleware verifyTypedData parsePaymentHeader e resource amount paymentHeader used
     = (Reply (PaymentRequired (challenge e resource amount) message), used) /\
     (paymentHeader = None \/ paymentHeader = Some EmptyString)) \/
  (exists h message, paymentHeader = Some h /\ h <> EmptyString /\
     parsePaymentHeader h = None /\
     x402Middleware verifyTypedData parsePaymentHeader e resource amount paymentHeader used
       = (Reply (InvalidPayment message), used)) \/
  (exists h proof, paymentHeader = Some h /\ h <> EmptyString /\
     parsePaymentHeader h = Some proof /\
     let v := (Facilitator.verifyPaymentProof verifyTypedData (dateNow e) used proof resource amount).1 in
     (Facilitator.valid v = false /\
      x402Middleware verifyTypedData parsePaymentHeader e resource amount paymentHeader used
        = (Reply (PaymentRejected (Facilitator.reason v) (challenge e resource amount)),
           used)) \/
     (Facilitator.valid v = true /\
      x402Middleware verifyTypedData parsePaymentHeader e resource amount paymentHeader used
        = (Next (Facilitator.signer v) (Facilitator.amount proof),
           {[ Facilitator.nonceKey proof ]} ∪ used))).
Proof.
  unfold x402Middleware. destruct paymentHeader as [h|]; [|left; eauto].
  destruct (String.eqb_spec h EmptyString) as [->|Hne]; [left; eauto|].
  right. destruct (parsePaymentHeader h) as [proof|] eqn:Hp; [right|left; eauto 8].
  exists h, proof. do 3 (split; [done|]).
  pose proof (verify_replay_set verifyTypedData (dateNow e) used proof resource amount)
    as Hset.
  destruct (Facilitator.verifyPaymentProof verifyTypedData (dateNow e) used proof resource amount) as [v used'].
  simpl in *. subst used'. destruct (Facilitator.valid v); simpl; auto.
Qed.

(** The replay set only grows. *)
Lemma handle_mono (rq : Request) (used : gset string) :
  used ⊆ (handle verifyTypedData parsePaymentHeader rq used).2.
Proof.
  unfold handle, route.
  destruct (x402Middleware_cases (rq_env rq) (serviceResource (rq_service rq) (rq_token rq))
              (serviceCost (rq_service rq)) (rq_header rq) used)
    as [(msg & -> & _)|[(h & msg & _ & _ & _ & ->)|(h & proof & _ & _ & _ & [[_ ->]|[_ ->]])]];
    simpl; set_solver.
Qed.

Lemma serve_mono (rqs : list Request) (used : gset string) :
  used ⊆ (serve verifyTypedData parsePaymentHeader rqs used).2.
Proof.
  revert used. induction rqs as [|rq rqs IH]; intros used; simpl; [done|].
  pose proof (handle_mono rq used) as H1.
  destruct (handle verifyTypedData parsePaymentHeader rq used) as [r used'].
  pose proof (IH used') as H2.
  destruct (serve verifyTypedData parsePaymentHeader rqs used') as [rs used''].
  simpl in *. set_solver.
Qed.

(** A proof whose key is in the replay set is turned away, whenever it is
    presented. *)
Lemma verifier_rejects_used now used proof resource amount :
  Facilitator.nonceKey proof ∈ used ->
  exists reason,
    Facilitator.verifyPaymentProof verifyTypedData now used proof resource amount
      = (Facilitator.rejected EmptyString reason, used) /\
    (reason = "Nonce already used" \/ reason = "Payment proof expired").
Proof.
  intros Hin.
  destruct (Z.lt_ge_cases (Facilitator.expiry proof) (JS.unixSeconds now)) as [Hlt|Hge].
  - exists "Payment proof expired". split; [by apply verify_expired|by right].
  - exists "Nonce already used". split; [by apply verify_replayed|by left].
Qed.

(** A route answers 200 or 500 for a verified payment, whose key it adds
    to the replay set, and 402 or 400 otherwise, leaving the set alone. *)
Lemma route_verified (s : Service) (e : Env) (token : string) (data : outcome JSON.json)
    (paymentHeader : option string) (used : gset string) :
  let out := route verifyTypedData parsePaymentHeader s e token data paymentHeader
               used in
  let r := out.1 in
  let used' := out.2 in
  ((Gateway.status r = 200 \/ Gateway.status r = 500) /\
   exists h proof paid expected payer,
     paymentHeader = Some h /\ parsePaymentHeader h = Some proof /\
     JS.unixSeconds (Gateway.dateNow e) <= Facilitator.expiry proof /\
     (Facilitator.nonceKey proof ∉ used) /\
     JS.BigInt (Facilitator.amount proof) = Returned paid /\
     JS.BigInt (Gateway.serviceCost s) = Returned expected /\
     expected <= paid /\
     Facilitator.resource proof = Gateway.serviceResource s token /\
     verifyTypedData Facilitator.PAYMENT_DOMAIN (Facilitator.typedValue proof)
       (Facilitator.signature proof) = Returned payer /\
     JS.toLowerCase payer = JS.toLowerCase (Facilitator.from proof) /\
     used' = {[ Facilitator.nonceKey proof ]} ∪ used /\
     r = match data with
         | Returned d => Gateway.Served d payer (Facilitator.amount proof)
                           (Gateway.serviceName s)
         | Thrown message => Gateway.ServiceFailed message
         end) \/
  ((Gateway.status r = 402 \/ Gateway.status r = 400) /\ used' = used).
Proof.
  intros out r used'. subst r used' out. unfold route.
  destruct (x402Middleware_cases e (serviceResource s token) (serviceCost s)
              paymentHeader used)
    as [(msg & -> & _)|[(h & msg & _ & _ & _ & ->)
       |(h & proof & -> & _ & Hp & [[_ ->]|[Hv ->]])]];
    simpl; [right; auto..|].
  left. split; [destruct data; auto|].
  destruct (verify_valid_inv verifyTypedData _ _ _ _ _ Hv)
    as (Hexp & Hnew & (paid & expected & Hpaid & Hexpd & Hle) & Hres
        & (payer & Hrec & Hcase & Hsig)).
  exists h, proof, paid, expected, payer. rewrite Hsig. by repeat (split; [done|]).
Qed.

(** A header that parses to a proof passing the five checks is let
    through. *)
Lemma route_accepts (s : Service) (e : Env) (token : string) (data : outcome JSON.json)
    (h : string) (proof : Facilitator.PaymentProof) (used : gset string)
    (paid expected : Z) (payer : string) :
  h <> EmptyString ->
  parsePaymentHeader h = Some proof ->
  JS.unixSeconds (dateNow e) <= Facilitator.expiry proof ->
  Facilitator.nonceKey proof ∉ used ->
  JS.BigInt (Facilitator.amount proof) = Returned paid ->
  JS.BigInt (serviceCost s) = Returned expected ->
  expected <= paid ->
  Facilitator.resource proof = serviceResource s token ->
  verifyTypedData Facilitator.PAYMENT_DOMAIN (Facilitator.typedValue proof)
    (Facilitator.signature proof) = Returned payer ->
  JS.toLowerCase payer = JS.toLowerCase (Facilitator.from proof) ->
  route verifyTypedData parsePaymentHeader s e token data (Some h) used
    = (match data with
       | Returned d => Served d payer (Facilitator.amount proof) (serviceName s)
       | Thrown message => ServiceFailed message
       end,
       {[ Facilitator.nonceKey proof ]} ∪ used).
Proof.
  intros Hh Hp Hexp Hnew Hpaid Hexpd Hle Hres Hrec Hcase.
  unfold route, x402Middleware.
  destruct (String.eqb_spec h EmptyString) as [|_]; [done|].
  rewrite Hp.
  by rewrite (verify_accepts verifyTypedData (dateNow e) used proof
                (serviceResource s token) (serviceCost s)
                paid expected payer Hexp Hnew Hpaid Hexpd Hle Hres Hrec Hcase).
Qed.

End GatewayFacts.

(** X14. What a protected route answers, and what it does to the replay set.
    A request is answered 200 or 500 only if it carries a header that parses
    to a proof the verifier accepts for this route's resource and price: not
    expired, not seen before, paying at least the price, for exactly this
    resource, signed by its [from]; the key of the proof is then in the
    replay set, also when the data service failed (500). Every other request
    is answered 402 or 400 and leaves the replay set as it was. *)
Theorem X14_route_serves_only_verified_payments
    (verifyTypedData : Facilitator.Domain -> Facilitator.TypedValue -> string -> outcome string)
    (parsePaymentHeader : string -> option Facilitator.PaymentProof)
    (s : Gateway.Service) (e : Gateway.Env) (token : string) (data : outcome JSON.json)
    (paymentHeader : option string) (used : gset string) :
  let out := Gateway.route verifyTypedData parsePaymentHeader s e token data paymentHeader
               used in
  let r := out.1 in
  let used' := out.2 in
  ((Gateway.status r = 200 \/ Gateway.status r = 500) /\
   exists h proof paid expected payer,
     paymentHeader = Some h /\ parsePaymentHeader h = Some proof /\
     JS.unixSeconds (Gateway.dateNow e) <= Facilitator.expiry proof /\
     (Facilitator.nonceKey proof ∉ used) /\
     JS.BigInt (Facilitator.amount proof) = Returned paid /\
     JS.BigInt (Gateway.serviceCost s) = Returned expected /\
     expected <= paid /\
     Facilitator.resource proof = Gateway.serviceResource s token /\
     verifyTypedData Facilitator.PAYMENT_DOMAIN (Facilitator.typedValue proof)
       (Facilitator.signature proof) = Returned payer /\
     JS.toLowerCase payer = JS.toLowerCase (Facilitator.from proof) /\
     used' = {[ Facilitator.nonceKey proof ]} ∪ used /\
     r = match data with
         | Returned d => Gateway.Served d payer (Facilitator.amount proof)
                           (Gateway.serviceName s)
         | Thrown message => Gateway.ServiceFailed message
         end) \/
  ((Gateway.status r = 402 \/ Gateway.status r = 400) /\ used' = used).
Proof. apply route_verified. Qed.

(** X15. A payment header buys at most one answer. Once a request carrying
    header [h] has been answered 200 or 500, every later request carrying the
    same header is turned away with 402, on whichever of the three routes, at
    whatever time and whatever requests were handled in between; the reason
    given is "Nonce already used", or "Payment proof expired" once the proof
    has expired. *)
Theorem X15_a_payment_header_is_honoured_at_most_once
    (verifyTypedData : Facilitator.Domain -> Facilitator.TypedValue -> string -> outcome string)
    (parsePaymentHeader : string -> option Facilitator.PaymentProof)
    (first : Gateway.Request) (between : list Gateway.Request) (again : Gateway.Request)
    (h : string) (used : gset string) :
  Gateway.rq_header first = Some h ->
  Gateway.rq_header again = Some h ->
  let handle := Gateway.handle verifyTypedData parsePaymentHeader in
  let used1 := (handle first used).2 in
  let used2 := (Gateway.serve verifyTypedData parsePaymentHeader between used1).2 in
  Gateway.status (handle first used).1 = 200 \/ Gateway.status (handle first used).1 = 500 ->
  exists reason,
    handle again used2
      = (Gateway.PaymentRejected (Some reason)
           (Gateway.challenge (Gateway.rq_env again)
              (Gateway.serviceResource (Gateway.rq_service again) (Gateway.rq_token again))
              (Gateway.serviceCost (Gateway.rq_service again))),
         used2) /\
    (reason = "Nonce already used" \/ reason = "Payment proof expired").
Proof.
  intros Hfirst Hagain handle used1 used2 Hserved.
  pose proof (route_verified verifyTypedData parsePaymentHeader
                (Gateway.rq_service first) (Gateway.rq_env first) (Gateway.rq_token first)
                (Gateway.rq_data first) (Gateway.rq_header first) used) as Hcases.
  simpl in Hcases.
  change (Gateway.route verifyTypedData parsePaymentHeader (Gateway.rq_service first)
            (Gateway.rq_env first) (Gateway.rq_token first) (Gateway.rq_data first)
            (Gateway.rq_header first) used) with (handle first used) in Hcases.
  destruct Hcases as [(_ & h' & proof & paid & expected & payer & Hh & Hp & _ & _ & _ & _ & _
                        & _ & _ & _ & Hused & _)|[[E|E] _]];
    [|destruct Hserved; congruence|destruct Hserved; congruence].
  rewrite Hfirst in Hh. injection Hh as <-.
  assert (Hin : Facilitator.nonceKey proof ∈ used2).
  { unfold used2. apply (serve_mono verifyTypedData parsePaymentHeader between used1).
    unfold used1. rewrite Hused. apply elem_of_union. left. by apply elem_of_singleton. }
  assert (Hne : h <> EmptyString).
  { intros ->. subst handle. unfold Gateway.handle, Gateway.route, Gateway.x402Middleware in Hserved.
    rewrite Hfirst in Hserved. simpl in Hserved. destruct Hserved; discriminate. }
  destruct (verifier_rejects_used verifyTypedData (Gateway.dateNow (Gateway.rq_env again)) used2
              proof (Gateway.serviceResource (Gateway.rq_service again) (Gateway.rq_token again))
              (Gateway.serviceCost (Gateway.rq_service again)) Hin) as (reason & Hv & Hr).
  exists reason. split; [|done].
  subst handle. unfold Gateway.handle, Gateway.route, Gateway.x402Middleware.
  rewrite Hagain. destruct (String.eqb_spec h EmptyString) as [|_]; [done|].
  rewrite Hp, Hv. done.
Qed.

(** ** The payment header *)

Section HeaderFacts.
Import JSON Header.

Variable decode : string -> outcome JSON.json.

(** What [parsePaymentHeader] asks of the fields of a parsed object. *)
Lemma parseBody_object (header : string) (fields : list (string * json)) :
  decode header = Returned (JObj fields) ->
  parsePaymentHeader decode header =
    if truthy (lookupField "signature" fields) && truthy (lookupField "from" fields)
       && truthy (lookupField "to" fields) && truthy (lookupField "amount" fields)
       && truthy (lookupField "resource" fields)
       && (match lookupField "nonce" fields with None => false | Some _ => true end)
       && truthy (lookupField "expiry" fields)
    then Some (JObj fields) else None.
Proof.
  intros Hd. unfold parsePaymentHeader, parseBody. rewrite Hd. simpl.
  destruct (truthy (lookupField "signature" fields)),
           (truthy (lookupField "from" fields)),
           (truthy (lookupField "to" fields)),
           (truthy (lookupField "amount" fields)),
           (truthy (lookupField "resource" fields)),
           (lookupField "nonce" fields),
           (truthy (lookupField "expiry" fields)); reflexivity.
Qed.

Lemma parseBody_other (header : string) (parsed : json) :
  decode header = Returned parsed ->
  (forall fields, parsed <> JObj fields) ->
  parsePaymentHeader decode header = None.
Proof.
  intros Hd Hno. unfold parsePaymentHeader, parseBody. rewrite Hd.
  destruct parsed; try reflexivity. by destruct (Hno fields).
Qed.

End HeaderFacts.

(** X16. [parsePaymentHeader] returns a value exactly when the header decodes
    to a JSON object whose [signature], [from], [to], [amount], [resource]
    and [expiry] are truthy and whose [nonce] is present, and the value is
    that object as decoded; a header that does not decode, that decodes to
    [null], a string, a number or an array, or that lacks a field gives
    [null] and never an exception. A nonce of 0 passes (the test is
    [=== undefined]), an expiry of 0 does not. The types of the fields are
    not looked at. *)
Theorem X16_parsePaymentHeader_accepts_exactly_complete_objects
    (decode : string -> outcome JSON.json) (header : string) (parsed : JSON.json) :
  Header.parsePaymentHeader decode header = Some parsed <->
  decode header = Returned parsed /\
  exists fields,
    parsed = JSON.JObj fields /\
    JSON.truthy (JSON.lookupField "signature" fields) = true /\
    JSON.truthy (JSON.lookupField "from" fields) = true /\
    JSON.truthy (JSON.lookupField "to" fields) = true /\
    JSON.truthy (JSON.lookupField "amount" fields) = true /\
    JSON.truthy (JSON.lookupField "resource" fields) = true /\
    JSON.lookupField "nonce" fields <> None /\
    JSON.truthy (JSON.lookupField "expiry" fields) = true.
Proof.
  split.
  - intros Hp. destruct (decode header) as [j|e] eqn:Hd.
    2:{ unfold Header.parsePaymentHeader, Header.parseBody in Hp. by rewrite Hd in Hp. }
    destruct j as [| | | | |fields].
    1-5: by rewrite (parseBody_other decode header _ Hd) in Hp.
    rewrite (parseBody_object decode header fields Hd) in Hp.
    destruct (JSON.truthy (JSON.lookupField "signature" fields)) eqn:E1; [|done].
    destruct (JSON.truthy (JSON.lookupField "from" fields)) eqn:E2; [|done].
    destruct (JSON.truthy (JSON.lookupField "to" fields)) eqn:E3; [|done].
    destruct (JSON.truthy (JSON.lookupField "amount" fields)) eqn:E4; [|done].
    destruct (JSON.truthy (JSON.lookupField "resource" fields)) eqn:E5; [|done].
    destruct (JSON.lookupField "nonce" fields) eqn:E6; [|done].
    destruct (JSON.truthy (JSON.lookupField "expiry" fields)) eqn:E7; [|done].
    simpl in Hp. injection Hp as <-. split; [done|]. exists fields.
    by rewrite E1, E2, E3, E4, E5, E6, E7.
  - intros (Hd & fields & -> & E1 & E2 & E3 & E4 & E5 & E6 & E7).
    rewrite (parseBody_object decode header fields Hd), E1, E2, E3, E4, E5, E7.
    by destruct (JSON.lookupField "nonce" fields).
Qed.

(** X17. A header round trip: when the header decodes to the JSON text of a
    proof (as [encodePaymentHeader] writes it) whose strings are not empty
    and whose expiry is not 0, [parsePaymentHeader] returns that proof, read
    back field by field, whatever its nonce; with an empty string among the
    fields, or an expiry of 0, it returns [null]. *)
Theorem X17_encoded_proof_parses_back
    (decode : string -> outcome JSON.json) (header : string)
    (p : Facilitator.PaymentProof) :
  decode header = Returned (Header.proofJson p) ->
  let complete :=
    negb (String.eqb (Facilitator.signature p) EmptyString)
    && negb (String.eqb (Facilitator.from p) EmptyString)
    && negb (String.eqb (Facilitator.to p) EmptyString)
    && negb (String.eqb (Facilitator.amount p) EmptyString)
    && negb (String.eqb (Facilitator.resource p) EmptyString)
    && negb (Facilitator.expiry p =? 0) in
  Header.parsePaymentHeader decode header
    = (if complete then Some (Header.proofJson p) else None) /\
  Header.asProof (Header.proofJson p) = Some p.
Proof.
  intros Hd complete. subst complete. split; [|by destruct p].
  rewrite (parseBody_object decode header _ Hd). simpl.
  by destruct (negb (String.eqb (Facilitator.signature p) EmptyString)),
              (negb (String.eqb (Facilitator.from p) EmptyString)),
              (negb (String.eqb (Facilitator.to p) EmptyString)),
              (negb (String.eqb (Facilitator.amount p) EmptyString)),
              (negb (String.eqb (Facilitator.resource p) EmptyString)),
              (negb (Facilitator.expiry p =? 0)).
Qed.

(** ** The client's proofs *)

Section ClientFacts.
Import Client.

(** What a returning [createPaymentProof] has done. *)
Lemma createPaymentProof_Returned (w : World) (resource receiver amount : string)
    (proof : PaymentProof) (encoded : string) :
  createPaymentProof w resource receiver amount = Returned (proof, encoded) ->
  exists A sig,
    Wallet.getWallet (wallet_env w) = Returned A /\
    Wallet.signTypedData (wallet_env w) Facilitator.PAYMENT_DOMAIN
      (authValue (Facilitator.mkValue A receiver amount resource
                    (JS.randomNonce (Math_random w))
                    (JS.unixSeconds (Date_now w) + 300))) = Returned sig /\
    proof = mkProof sig A (Some (JSON.JStr receiver)) (Some (JSON.JStr amount))
              (Some (JSON.JStr resource))
              (Some (JSON.JNum (JS.randomNonce (Math_random w))))
              (Some (JSON.JNum (JS.unixSeconds (Date_now w) + 300))) /\
    encoded = encodePaymentHeader w proof.
Proof.
  unfold createPaymentProof, Wallet.getAgentAddress, Wallet.signPaymentAuthorization.
  destruct (Wallet.getWallet (wallet_env w)) as [A|e] eqn:Hw.
  2:{ destruct (String.eqb _ _); simpl; discriminate. }
  assert (Hkey : String.eqb (Wallet.privateKey (wallet_env w)) EmptyString = false).
  { unfold Wallet.getWallet in Hw. by destruct (String.eqb _ _). }
  rewrite Hkey. simpl.
  destruct (Wallet.signTypedData _ _ _) as [sig|e] eqn:Hs; simpl; [|discriminate].
  intros [= <- <-]. by exists A, sig.
Qed.

(** Without a private key nothing is signed. *)
Lemma sign_without_key (e : Wallet.Env) (params : Wallet.SignParams) :
  Wallet.privateKey e = EmptyString ->
  Wallet.signPaymentAuthorization e params
    = Thrown "PRIVATE_KEY not set in environment. Agent wallet unavailable.".
Proof.
  intros Hk. unfold Wallet.signPaymentAuthorization, Wallet.getWallet. by rewrite Hk.
Qed.

Lemma signProof_without_key (w : World) (amount : JSON.jsval) (requirement : JSON.json) :
  Wallet.privateKey (wallet_env w) = EmptyString ->
  exists e, signProof w amount requirement = Thrown e.
Proof.
  intros Hk. unfold signProof, Wallet.getAgentAddress. rewrite Hk. simpl.
  destruct (JSON.getProp requirement "amount"); simpl; [|eauto].
  destruct (JSON.getProp requirement "nonce"); simpl; [|eauto].
  destruct (JSON.getProp requirement "expiry"); simpl; [|eauto].
  destruct (JSON.getProp requirement "receiver"); simpl; [|eauto].
  destruct (JSON.getProp requirement "resource"); simpl; [|eauto].
  rewrite sign_without_key by done. simpl. eauto.
Qed.

End ClientFacts.

(** X18. A proof made by [createPaymentProof] is one the verifier accepts.
    When signature recovery returns the wallet's address for what the wallet
    signed in its own name, a returned proof carries that address as [from], the
    arguments as [to], [amount] and [resource], a nonce drawn as
    [floor(random * 1000000)] and the expiry [now + 300]; the verifier,
    asked for the same resource and for no more than the amount, accepts it
    at any time up to that expiry if its key has not been used, naming the
    wallet as signer, and rejects it as expired afterwards. *)
Theorem X18_created_proof_is_accepted_until_its_expiry
    (verifyTypedData : Facilitator.Domain -> Facilitator.TypedValue -> string -> outcome string)
    (w : Client.World) (resource receiver amount : string)
    (proof : Client.PaymentProof) (encoded : string) :
  (forall A v sig,
      Wallet.getWallet (Client.wallet_env w) = Returned A ->
      Facilitator.v_from v = A ->
      Wallet.signTypedData (Client.wallet_env w) Facilitator.PAYMENT_DOMAIN
        (Client.authValue v) = Returned sig ->
      verifyTypedData Facilitator.PAYMENT_DOMAIN v sig = Returned A) ->
  Client.createPaymentProof w resource receiver amount = Returned (proof, encoded) ->
  exists tp,
    Client.typed proof = Some tp /\
    Wallet.getWallet (Client.wallet_env w) = Returned (Facilitator.from tp) /\
    Facilitator.to tp = receiver /\ Facilitator.amount tp = amount /\
    Facilitator.resource tp = resource /\
    Facilitator.nonce tp = JS.randomNonce (Client.Math_random w) /\
    Facilitator.expiry tp = JS.unixSeconds (Client.Date_now w) + 300 /\
    encoded = Client.encodePaymentHeader w proof /\
    forall (now : Z) (used : gset string) (expectedAmount : string) (paid expected : Z),
      Facilitator.nonceKey tp ∉ used ->
      JS.BigInt amount = Returned paid ->
      JS.BigInt expectedAmount = Returned expected ->
      expected <= paid ->
      (JS.unixSeconds now <= JS.unixSeconds (Client.Date_now w) + 300 ->
       Facilitator.verifyPaymentProof verifyTypedData now used tp resource expectedAmount
         = (Facilitator.mkVerification true (Facilitator.from tp) None,
            {[ Facilitator.nonceKey tp ]} ∪ used)) /\
      (JS.unixSeconds (Client.Date_now w) + 300 < JS.unixSeconds now ->
       Facilitator.verifyPaymentProof verifyTypedData now used tp resource expectedAmount
         = (Facilitator.rejected EmptyString "Payment proof expired", used)).
Proof.
  intros Hrec Hc.
  destruct (createPaymentProof_Returned w resource receiver amount proof encoded Hc)
    as (A & sig & Hw & Hs & -> & ->).
  eexists. split; [reflexivity|]. simpl. do 6 (split; [done|]). split; [done|].
  intros now used expectedAmount paid expected Hnew Hpaid Hexpd Hle. split.
  - intros Hnow. eapply verify_accepts; try done. simpl. by apply (Hrec A).
  - intros Hnow. by apply verify_expired.
Qed.

(** X19. Without a private key the client never pays: [createPaymentProof]
    throws, and [payAndFetch] sends exactly one request, the plain one; if it
    returns at all, it returns the unpaid data of a 2xx answer, with no proof.
    A 402 challenge ends in an exception. *)
Theorem X19_without_a_private_key_nothing_is_paid
    (w : Client.World) :
  Wallet.privateKey (Client.wallet_env w) = EmptyString ->
  (forall resource receiver amount,
      Client.createPaymentProof w resource receiver amount
        = Thrown "PRIVATE_KEY not set in environment. Agent wallet unavailable.") /\
  (forall url amount,
      (Client.payAndFetch w url amount).1 = [Client.plainRequest url] /\
      (forall r, (Client.payAndFetch w url amount).2 = Returned r ->
                 Client.paid r = false /\ Client.paymentProof r = None /\
                 exists response,
                   Client.fetch w 0%nat (Client.plainRequest url) = Returned response /\
                   Client.ok response = true /\ Client.status response <> 402 /\
                   Client.json response = Returned (Client.data r)) /\
      (forall response,
          Client.fetch w 0%nat (Client.plainRequest url) = Returned response ->
          Client.status response = 402 ->
          exists e, (Client.payAndFetch w url amount).2 = Thrown e)).
Proof.
  intros Hk. split.
  - intros resource receiver amount.
    unfold Client.createPaymentProof, Wallet.getAgentAddress. rewrite Hk. simpl.
    by rewrite sign_without_key.
  - intros url amount. unfold Client.payAndFetch.
    destruct (Client.fetch w 0%nat (Client.plainRequest url)) as [response|e] eqn:Hf.
    2:{ simpl. split; [done|]. split; [done|]. intros response [=]. }
    destruct (Z.eqb_spec (Client.status response) 402) as [H402|Hno]; simpl.
    + assert (Hthrow : exists e,
                 (requirement <-? Client.parseRequirement response ;;
                  Client.signProof w amount requirement) = Thrown e).
      { destruct (Client.parseRequirement response) as [requirement|e]; simpl; [|eauto].
        by apply signProof_without_key. }
      destruct Hthrow as [e ->]. simpl. split; [done|]. split; [done|].
      intros ? [= <-] _. eauto.
    + destruct (Client.ok response) eqn:Hok; simpl.
      * split; [done|]. split.
        -- intros r Hr. destruct (Client.json response) as [d|] eqn:Hj; [|done].
           simpl in Hr. injection Hr as <-. simpl. split; [done|]. split; [done|].
           exists response. by rewrite Hj.
        -- intros ? [= <-] ?. done.
      * split; [done|]. split; [done|]. intros ? [= <-] ?. done.
Qed.

(** ** The backend ledger module *)

(** X20. [logPayment] of the backend never reports a failure: when it
    returns, [success] is [true]. It reports [onChain] exactly when a
    contract is configured, the wallet is available and the contract call
    returned, and then the in-memory store is untouched; otherwise one record
    is appended in memory, carrying the agent's address and the current
    second, and the statistics move by the amount. It throws only when the
    agent's address cannot be obtained (nothing is stored) or when the amount
    is no integer, and in that case the record has already been pushed while
    the statistics are left as they were. *)
Theorem X20_backend_logPayment_outcomes
    (w : Ledger.World) (mem : Ledger.Memory) (provider amount serviceType txHash : string) :
  let out := Ledger.logPayment w mem provider amount serviceType txHash in
  let mem' := out.1 in
  let now := JS.unixSeconds (Ledger.Date_now w) in
  let pushed A := (Ledger.inMemoryLedger mem
                     ++ [Ledger.mkRecord A provider amount serviceType txHash now])%list in
  (forall r, out.2 = Returned r ->
     Ledger.success r = true /\
     ((Ledger.onChain r = true /\ mem' = mem /\ Ledger.getContract w = true /\
       exists receipt,
         Ledger.contract_logPayment w provider amount serviceType
           (Ledger.ethers_id w txHash) = Returned receipt /\
         Ledger.txReceipt r = Some receipt) \/
      (Ledger.onChain r = false /\ Ledger.txReceipt r = None /\
       exists A a,
         Wallet.getAgentAddress (Ledger.wallet_env w) = Returned A /\
         JS.BigInt amount = Returned a /\
         Ledger.inMemoryLedger mem' = pushed A /\
         Ledger.m_totalSpent (Ledger.inMemoryStats mem')
           = Ledger.m_totalSpent (Ledger.inMemoryStats mem) + a /\
         Ledger.m_queryCount (Ledger.inMemoryStats mem')
           = Ledger.m_queryCount (Ledger.inMemoryStats mem) + 1 /\
         Ledger.m_lastPayment (Ledger.inMemoryStats mem') = now /\
         Ledger.m_firstPayment (Ledger.inMemoryStats mem')
           = (if Ledger.m_firstPayment (Ledger.inMemoryStats mem) =? 0 then now
              else Ledger.m_firstPayment (Ledger.inMemoryStats mem))))) /\
  (forall e, out.2 = Thrown e ->
     (Wallet.getAgentAddress (Ledger.wallet_env w) = Thrown e /\ mem' = mem) \/
     (exists A,
         Wallet.getAgentAddress (Ledger.wallet_env w) = Returned A /\
         JS.BigInt amount = Thrown e /\
         Ledger.inMemoryLedger mem' = pushed A /\
         Ledger.inMemoryStats mem' = Ledger.inMemoryStats mem)) /\
  (forall receipt,
     Ledger.getContract w = true ->
     Ledger.contract_logPayment w provider amount serviceType (Ledger.ethers_id w txHash)
       = Returned receipt ->
     out = (mem, Returned (Ledger.mkLogResult true true (Some receipt)))).
Proof.
  intros out mem' now pushed. subst out mem' pushed now.
  match goal with
  | |- ?A /\ ?B /\ ?C =>
      assert (HC : C); [|enough (HAB : A /\ B) by (destruct HAB; auto)]
  end.
  { intros receipt Hc Hr. unfold Ledger.logPayment. by rewrite Hc, Hr. }
  clear HC.
  unfold Ledger.logPayment.
  assert (Hmem :
    let out := Ledger.logInMemory w mem provider amount serviceType txHash in
    (forall r, out.2 = Returned r ->
       Ledger.success r = true /\ Ledger.onChain r = false /\ Ledger.txReceipt r = None /\
       exists A a,
         Wallet.getAgentAddress (Ledger.wallet_env w) = Returned A /\
         JS.BigInt amount = Returned a /\
         Ledger.inMemoryLedger out.1
           = (Ledger.inMemoryLedger mem
                ++ [Ledger.mkRecord A provider amount serviceType txHash
                      (JS.unixSeconds (Ledger.Date_now w))])%list /\
         Ledger.m_totalSpent (Ledger.inMemoryStats out.1)
           = Ledger.m_totalSpent (Ledger.inMemoryStats mem) + a /\
         Ledger.m_queryCount (Ledger.inMemoryStats out.1)
           = Ledger.m_queryCount (Ledger.inMemoryStats mem) + 1 /\
         Ledger.m_lastPayment (Ledger.inMemoryStats out.1)
           = JS.unixSeconds (Ledger.Date_now w) /\
         Ledger.m_firstPayment (Ledger.inMemoryStats out.1)
           = (if Ledger.m_firstPayment (Ledger.inMemoryStats mem) =? 0
              then JS.unixSeconds (Ledger.Date_now w)
              else Ledger.m_firstPayment (Ledger.inMemoryStats mem))) /\
    (forall e, out.2 = Thrown e ->
       (Wallet.getAgentAddress (Ledger.wallet_env w) = Thrown e /\ out.1 = mem) \/
       (exists A,
           Wallet.getAgentAddress (Ledger.wallet_env w) = Returned A /\
           JS.BigInt amount = Thrown e /\
           Ledger.inMemoryLedger out.1
             = (Ledger.inMemoryLedger mem
                  ++ [Ledger.mkRecord A provider amount serviceType txHash
                        (JS.unixSeconds (Ledger.Date_now w))])%list /\
           Ledger.inMemoryStats out.1 = Ledger.inMemoryStats mem))).
  { unfold Ledger.logInMemory.
    destruct (Wallet.getAgentAddress (Ledger.wallet_env w)) as [A|e0]; simpl.
    2:{ split; [done|]. intros e [= <-]. by left. }
    destruct (JS.BigInt amount) as [a|e0]; simpl.
    - split; [|done]. intros r [= <-]. simpl. do 3 (split; [done|]). by exists A, a.
    - split; [done|]. intros e [= <-]. right. by exists A. }
  destruct Hmem as [HmemR HmemT].
  destruct (Ledger.getContract w) eqn:Hc.
  - destruct (Ledger.contract_logPayment w provider amount serviceType
                (Ledger.ethers_id w txHash)) as [receipt|e0] eqn:Hlog.
    + simpl. split; [|done]. intros r [= <-]. simpl. split; [done|]. left.
      do 3 (split; [done|]). by exists receipt.
    + split.
      * intros r Hr. destruct (HmemR r Hr) as (H1 & H2 & H3 & H4). split; [done|].
        right. by repeat (split; [done|]).
      * apply HmemT.
  - split.
    + intros r Hr. destruct (HmemR r Hr) as (H1 & H2 & H3 & H4). split; [done|].
      right. by repeat (split; [done|]).
    + apply HmemT.
Qed.

(** X21. Reading from the in-memory store (no contract configured): the
    payments returned for an address are the stored records whose agent is
    that address up to letter case, so two spellings of one address read the
    same records; the statistics returned are those of the whole store and do
    not depend on the address asked for. *)
Theorem X21_in_memory_reads
    (w : Ledger.World) (mem : Ledger.Memory) (a b : string) :
  Ledger.hasContract w = false ->
  a <> EmptyString -> b <> EmptyString ->
  Ledger.getPaymentsByAgent w mem (Some a)
    = Returned (List.filter
                  (fun r => String.eqb (JS.toLowerCase (Ledger.agent r)) (JS.toLowerCase a))
                  (Ledger.inMemoryLedger mem)) /\
  (JS.toLowerCase a = JS.toLowerCase b ->
   Ledger.getPaymentsByAgent w mem (Some a) = Ledger.getPaymentsByAgent w mem (Some b)) /\
  Ledger.getAgentStats w mem (Some a) = Ledger.getAgentStats w mem (Some b) /\
  Ledger.getAgentStats w mem (Some a)
    = Returned (Ledger.mkAgentStats
                  (pretty (Ledger.m_totalSpent (Ledger.inMemoryStats mem)))
                  (Ledger.m_queryCount (Ledger.inMemoryStats mem))
                  (Ledger.m_firstPayment (Ledger.inMemoryStats mem))
                  (Ledger.m_lastPayment (Ledger.inMemoryStats mem))).
Proof.
  intros Hc Ha Hb.
  assert (Hro : Ledger.getReadOnlyContract w = false).
  { unfold Ledger.getReadOnlyContract. by rewrite Hc. }
  assert (Hra : forall x, x <> EmptyString -> Ledger.resolveAgent w (Some x) = Returned x).
  { intros x Hx. unfold Ledger.resolveAgent. by destruct (String.eqb_spec x EmptyString). }
  unfold Ledger.getPaymentsByAgent, Ledger.getAgentStats.
  rewrite !(Hra a Ha), !(Hra b Hb), Hro. simpl. split; [done|]. split; [|done].
  intros Hab. unfold Ledger.sameAddress. by rewrite Hab.
Qed.


(** X22. The five checks are all the gateway asks. A header that parses to a
    proof which is not expired, whose key is unused, which pays at least the
    route's price for exactly the route's resource and whose signature
    recovers to its [from] is answered with the data (or with 500 when the
    data service fails), and its key is consumed. Nothing else is looked at:
    the proof's [to] is not compared with the gateway's receiver, and its
    nonce and expiry need not come from a requirement the gateway issued. *)
Theorem X22_five_checks_suffice_whoever_the_payee
    (verifyTypedData : Facilitator.Domain -> Facilitator.TypedValue -> string -> outcome string)
    (parsePaymentHeader : string -> option Facilitator.PaymentProof)
    (s : Gateway.Service) (e : Gateway.Env) (token : string) (data : outcome JSON.json)
    (h : string) (proof : Facilitator.PaymentProof) (used : gset string)
    (paid expected : Z) (payer : string) :
  h <> EmptyString ->
  parsePaymentHeader h = Some proof ->
  JS.unixSeconds (Gateway.dateNow e) <= Facilitator.expiry proof ->
  Facilitator.nonceKey proof ∉ used ->
  JS.BigInt (Facilitator.amount proof) = Returned paid ->
  JS.BigInt (Gateway.serviceCost s) = Returned expected ->
  expected <= paid ->
  Facilitator.resource proof = Gateway.serviceResource s token ->
  verifyTypedData Facilitator.PAYMENT_DOMAIN (Facilitator.typedValue proof)
    (Facilitator.signature proof) = Returned payer ->
  JS.toLowerCase payer = JS.toLowerCase (Facilitator.from proof) ->
  Gateway.route verifyTypedData parsePaymentHeader s e token data (Some h) used
    = (match data with
       | Returned d =>
           Gateway.Served d payer (Facilitator.amount proof) (Gateway.serviceName s)
       | Thrown message => Gateway.ServiceFailed message
       end,
       {[ Facilitator.nonceKey proof ]} ∪ used).
Proof. apply route_accepts. Qed.

(** ** Client and gateway together *)

Section EndToEnd.
Import Client.

Lemma serviceCost_BigInt (s : Gateway.Service) :
  exists cost, JS.BigInt (Gateway.serviceCost s) = Returned cost /\ 0 < cost.
Proof.
  destruct s; [exists 100000000000000|exists 50000000000000|exists 200000000000000];
    (split; [reflexivity|lia]).
Qed.

(** The requirement the client reads out of the gateway's 402 body. *)
Lemma parseRequirement_challenge (response : Response)
    (requirement : Facilitator.PaymentRequirement) (message : string) :
  json response
    = Returned (Gateway.body (Gateway.PaymentRequired requirement message)) ->
  parseRequirement response = Returned (Gateway.requirementJson requirement).
Proof. intros Hj. unfold parseRequirement. by rewrite Hj. Qed.

End EndToEnd.

(** X23. The client and the gateway understand each other. Let the first
    request of [payAndFetch] be answered with the gateway's 402 for a route,
    and the second with the gateway's answer to the header the client sends.
    With a wallet whose signatures recover to its address and a header that
    parses back to the proof it encodes, the client signs the gateway's
    receiver, price, resource, nonce (its own draw if the gateway's is 0) and
    expiry; if the paid request arrives by that expiry and the key is unused,
    the gateway serves it: [payAndFetch] returns the served body with
    [paid = true], after exactly the two requests, and the key is in the
    replay set. *)
Theorem X23_payAndFetch_against_the_gateway
    (verifyTypedData : Facilitator.Domain -> Facilitator.TypedValue -> string -> outcome string)
    (parsePaymentHeader : string -> option Facilitator.PaymentProof)
    (w : Client.World) (url : string)
    (s : Gateway.Service) (token : string) (d : JSON.json)
    (first second : Gateway.Env) (used : gset string)
    (A sig : string) (response1 response2 : Client.Response) :
  let resource := Gateway.serviceResource s token in
  let cost := Gateway.serviceCost s in
  let requirement := Gateway.challenge first resource cost in
  let nonce := if Facilitator.rq_nonce requirement =? 0
               then JS.randomNonce (Client.Math_random w)
               else Facilitator.rq_nonce requirement in
  let tp := Facilitator.mkProof sig A (Gateway.receiver first) cost resource nonce
              (Facilitator.rq_expiry requirement) in
  let proof := Client.mkProof sig A (Some (JSON.JStr (Gateway.receiver first)))
                 (Some (JSON.JStr cost)) (Some (JSON.JStr resource))
                 (Some (JSON.JNum nonce))
                 (Some (JSON.JNum (Facilitator.rq_expiry requirement))) in
  let encoded := Client.encodePaymentHeader w proof in
  let route := Gateway.route verifyTypedData parsePaymentHeader s in
  let answer1 := route first token (Returned d) None used in
  let answer2 := route second token (Returned d) (Some encoded) answer1.2 in
  Client.fetch w 0%nat (Client.plainRequest url) = Returned response1 ->
  Client.status response1 = Gateway.status answer1.1 ->
  Client.json response1 = Returned (Gateway.body answer1.1) ->
  Client.fetch w 1%nat (Client.paidRequest url encoded) = Returned response2 ->
  Client.status response2 = Gateway.status answer2.1 ->
  Client.json response2 = Returned (Gateway.body answer2.1) ->
  Wallet.getWallet (Client.wallet_env w) = Returned A ->
  Wallet.signTypedData (Client.wallet_env w) Facilitator.PAYMENT_DOMAIN
    (Client.authValue (Facilitator.typedValue tp)) = Returned sig ->
  verifyTypedData Facilitator.PAYMENT_DOMAIN (Facilitator.typedValue tp) sig = Returned A ->
  encoded <> EmptyString ->
  parsePaymentHeader encoded = Some tp ->
  0 <= Gateway.issueNow first ->
  JS.unixSeconds (Gateway.dateNow second) <= JS.unixSeconds (Gateway.issueNow first) + 300 ->
  Facilitator.nonceKey tp ∉ used ->
  Client.payAndFetch w url None
    = ([Client.plainRequest url; Client.paidRequest url encoded],
       Returned (Client.mkResult
                   (Gateway.body (Gateway.Served d A cost (Gateway.serviceName s)))
                   true (Some (JSON.JStr cost)) (Some proof))) /\
  answer2 = (Gateway.Served d A cost (Gateway.serviceName s),
             {[ Facilitator.nonceKey tp ]} ∪ used).
Proof.
  intros resource cost requirement nonce tp proof encoded route answer1 answer2
    Hf1 Hs1 Hj1 Hf2 Hs2 Hj2 Hw Hsign Hrec Henc Hparse Hnow Htime Hfresh.
  assert (Ha1 : answer1 = (Gateway.PaymentRequired requirement
                             ("This endpoint requires an x402 micropayment of " ++ cost
                                ++ " wei. Include a signed X-402-Payment header."), used)).
  { reflexivity. }
  destruct (serviceCost_BigInt s) as (c & Hc & _).
  assert (Ha2 : answer2 = (Gateway.Served d A cost (Gateway.serviceName s),
                           {[ Facilitator.nonceKey tp ]} ∪ used)).
  { subst answer2. rewrite Ha1. simpl.
    apply (route_accepts verifyTypedData parsePaymentHeader s second token (Returned d)
             encoded tp used c c A); done. }
  split; [|exact Ha2].
  rewrite Ha1 in Hs1, Hj1. rewrite Ha2 in Hs2, Hj2. simpl in Hs1, Hs2, Hj2.
  assert (Hkey : String.eqb (Wallet.privateKey (Client.wallet_env w)) EmptyString = false).
  { unfold Wallet.getWallet in Hw. by destruct (String.eqb _ _). }
  assert (Hexp : (JS.unixSeconds (Gateway.issueNow first) + 300 =? 0) = false).
  { apply Z.eqb_neq. unfold JS.unixSeconds.
    pose proof (Z.div_pos (Gateway.issueNow first) 1000 Hnow ltac:(lia)). lia. }
  unfold Client.payAndFetch. rewrite Hf1, Hs1. simpl.
  rewrite (parseRequirement_challenge _ _ _ Hj1). simpl.
  unfold Client.signProof, Wallet.getAgentAddress, Wallet.signPaymentAuthorization.
  rewrite Hkey, Hw. simpl.
  unfold JSON.orElse. simpl. rewrite Hexp. simpl.
  unfold Facilitator.PAYMENT_DOMAIN, Client.authValue, Facilitator.typedValue in Hsign.
  simpl in Hsign.
  assert (Hresp : Client.ok response2 = true) by (unfold Client.ok; by rewrite Hs2).
  revert Hsign Hf2. unfold encoded, proof, nonce. simpl.
  destruct (JS.randomNonce (Gateway.issueRandom first) =? 0); simpl;
    intros Hsign Hf2; rewrite Hsign; simpl; rewrite Hf2; simpl; by rewrite Hresp, Hj2.
Qed.

(** ** The in-memory store and the agent's payments *)

Section MemoryFacts.
Import Ledger.

(** What one [logPayment] does to the in-memory store, whatever its
    arguments and whatever the contract answers. *)
Lemma logPayment_memory (w : World) (mem : Memory)
    (provider amount serviceType txHash : string) :
  let out := logPayment w mem provider amount serviceType txHash in
  (forall r, out.2 = Returned r -> success r = true) /\
  (out.1 = mem \/
   exists record,
     inMemoryLedger out.1 = (inMemoryLedger mem ++ [record])%list /\
     (inMemoryStats out.1 = inMemoryStats mem \/
      exists a,
        inMemoryStats out.1
          = mkMemoryStats (m_totalSpent (inMemoryStats mem) + a)
              (m_queryCount (inMemoryStats mem) + 1)
              (if m_firstPayment (inMemoryStats mem) =? 0
               then JS.unixSeconds (Date_now w)
               else m_firstPayment (inMemoryStats mem))
              (JS.unixSeconds (Date_now w)))).
Proof.
  intros out. subst out. rewrite logPayment_cases.
  destruct (if getContract w then _ else _) as [receipt|e].
  { simpl. split; [by intros r [= <-]|by left]. }
  unfold logInMemory.
  destruct (Wallet.getAgentAddress (wallet_env w)) as [A|e0]; simpl.
  2:{ split; [done|by left]. }
  destruct (JS.BigInt amount) as [a|e0]; simpl.
  - split; [by intros r [= <-]|]. right. eexists. split; [done|]. right. by exists a.
  - split; [done|]. right. eexists. split; [done|]. by left.
Qed.

Lemma commit_grows (mem : Memory) (c : Commit) :
  let mem' := commit mem c in
  (exists more,
      inMemoryLedger mem' = (inMemoryLedger mem ++ more)%list /\ (length more <= 1)%nat) /\
  m_queryCount (inMemoryStats mem) <= m_queryCount (inMemoryStats mem')
    <= m_queryCount (inMemoryStats mem) + 1 /\
  (m_firstPayment (inMemoryStats mem) <> 0 ->
   m_firstPayment (inMemoryStats mem') = m_firstPayment (inMemoryStats mem)) /\
  Z.of_nat (length (inMemoryLedger mem)) - m_queryCount (inMemoryStats mem)
    <= Z.of_nat (length (inMemoryLedger mem')) - m_queryCount (inMemoryStats mem').
Proof.
  intros mem'. subst mem'. unfold commit.
  destruct (logPayment_memory (c_world c) mem (c_provider c) (c_amount c)
              (c_serviceType c) (c_txHash c)) as [_ [->|(record & Hl & Hs)]].
  { split; [exists []; rewrite app_nil_r; split; [done|simpl; lia]|]. split; [lia|]. split; [done|lia]. }
  rewrite Hl, length_app. simpl.
  split; [exists [record]; split; [done|simpl; lia]|].
  destruct Hs as [->|(a & ->)]; simpl.
  - split; [lia|]. split; [done|lia].
  - split; [lia|]. split; [|lia].
    intros Hne. by destruct (Z.eqb_spec (m_firstPayment (inMemoryStats mem)) 0).
Qed.

End MemoryFacts.

(** X24. The in-memory store only grows. Whatever commits are made (any
    amounts, any answers of the contract), the records held before are still
    there, at most one is added per commit, [queryCount] does not go down
    and rises by at most one per commit, a [firstPayment] that is set is
    never changed, and the number of records not counted in [queryCount]
    (those pushed before an amount failed to convert) never shrinks. *)
Theorem X24_in_memory_store_only_grows
    (cs : list Ledger.Commit) (mem : Ledger.Memory) :
  let mem' := Ledger.commitAll cs mem in
  (exists more,
      Ledger.inMemoryLedger mem' = (Ledger.inMemoryLedger mem ++ more)%list /\
      (length more <= length cs)%nat) /\
  Ledger.m_queryCount (Ledger.inMemoryStats mem)
    <= Ledger.m_queryCount (Ledger.inMemoryStats mem')
    <= Ledger.m_queryCount (Ledger.inMemoryStats mem) + Z.of_nat (length cs) /\
  (Ledger.m_firstPayment (Ledger.inMemoryStats mem) <> 0 ->
   Ledger.m_firstPayment (Ledger.inMemoryStats mem')
     = Ledger.m_firstPayment (Ledger.inMemoryStats mem)) /\
  Z.of_nat (length (Ledger.inMemoryLedger mem)) - Ledger.m_queryCount (Ledger.inMemoryStats mem)
    <= Z.of_nat (length (Ledger.inMemoryLedger mem'))
       - Ledger.m_queryCount (Ledger.inMemoryStats mem').
Proof.
  revert mem. induction cs as [|c cs IH]; intros mem; simpl.
  { split; [exists []; rewrite app_nil_r; split; [done|simpl; lia]|]. split; [lia|]. split; [done|lia]. }
  destruct (commit_grows mem c) as ((m1 & Hl1 & Hn1) & Hq1 & Hf1 & Hd1).
  destruct (IH (Ledger.commit mem c)) as ((m2 & Hl2 & Hn2) & Hq2 & Hf2 & Hd2).
  split; [|split; [lia|split; [|lia]]].
  - exists (m1 ++ m2)%list. rewrite Hl2, Hl1, <- app_assoc. split; [done|].
    rewrite length_app. lia.
  - intros Hne. rewrite Hf2; [by apply Hf1|]. by rewrite Hf1.
Qed.

Section AgentFacts.
Import Agent.

(** One payment block of [analyzeToken] that does not throw. *)
Lemma logged_Returned (w : World) (tokenAddress name cost : string) (data : JSON.json)
    (mem mem' : Ledger.Memory) (breakdown breakdown' : list Entry) :
  logged w tokenAddress name cost data (mem, Returned breakdown)
    = (mem', Returned breakdown') ->
  breakdown' = (breakdown
                  ++ if JSON.truthy (Some data) then [mkEntry name cost true] else [])%list /\
  exists more,
    Ledger.inMemoryLedger mem' = (Ledger.inMemoryLedger mem ++ more)%list /\
    (length more <= if JSON.truthy (Some data) then 1 else 0)%nat.
Proof.
  unfold logged. destruct (JSON.truthy (Some data)).
  2:{ intros [= <- <-]. split; [by rewrite app_nil_r|].
      exists []. rewrite app_nil_r. split; [done|simpl; lia]. }
  pose proof (logPayment_memory (ledgerAt w name) mem PROVIDER_ADDRESS cost name
                (name ++ "-" ++ tokenAddress ++ "-" ++ stampAt w name)) as [Hs Hm].
  destruct (Ledger.logPayment _ _ _ _ _ _) as [m [payment|e]]; [|done].
  intros [= <- <-]. simpl in *. rewrite (Hs payment eq_refl). split; [done|].
  destruct Hm as [->|(record & -> & _)].
  - exists []. rewrite app_nil_r. split; [done|simpl; lia].
  - exists [record]. split; [done|simpl; lia].
Qed.

Lemma logged_Thrown (w : World) (tokenAddress name cost : string) (data : JSON.json)
    (mem : Ledger.Memory) (e : string) :
  logged w tokenAddress name cost data (mem, Thrown e) = (mem, Thrown e).
Proof. done. Qed.

(** The breakdown four payment blocks build is what is due, and its total. *)
Lemma breakdown_due (securityData priceData whaleData sentimentData : JSON.json) :
  (((([] ++ (if JSON.truthy (Some securityData)
             then [mkEntry "security" Config.securityQueryCost true] else []))
       ++ (if JSON.truthy (Some priceData)
           then [mkEntry "price" Config.priceQueryCost true] else []))
      ++ (if JSON.truthy (Some whaleData)
          then [mkEntry "whale" Config.whaleQueryCost true] else []))
     ++ (if JSON.truthy (Some sentimentData)
         then [mkEntry "sentiment" Config.sentimentQueryCost true] else []))%list
  = List.map (fun p => mkEntry p.1 p.2 true)
      (due securityData priceData whaleData sentimentData).
Proof.
  unfold due.
  by destruct (JSON.truthy (Some securityData)), (JSON.truthy (Some priceData)),
              (JSON.truthy (Some whaleData)), (JSON.truthy (Some sentimentData)).
Qed.

Lemma totalOf_due (securityData priceData whaleData sentimentData : JSON.json) :
  exists total,
    totalOf (List.map (fun p => mkEntry p.1 p.2 true)
               (due securityData priceData whaleData sentimentData)) = Returned total /\
    0 <= total <= 400000000000000.
Proof.
  unfold due.
  destruct (JSON.truthy (Some securityData)), (JSON.truthy (Some priceData)),
           (JSON.truthy (Some whaleData)), (JSON.truthy (Some sentimentData));
    eexists; (split; [vm_compute; reflexivity|lia]).
Qed.

Lemma due_length (securityData priceData whaleData sentimentData : JSON.json) :
  length (due securityData priceData whaleData sentimentData)
  = ((if JSON.truthy (Some securityData) then 1 else 0)
     + (if JSON.truthy (Some priceData) then 1 else 0)
     + (if JSON.truthy (Some whaleData) then 1 else 0)
     + (if JSON.truthy (Some sentimentData) then 1 else 0))%nat.
Proof.
  unfold due.
  by destruct (JSON.truthy (Some securityData)), (JSON.truthy (Some priceData)),
              (JSON.truthy (Some whaleData)), (JSON.truthy (Some sentimentData)).
Qed.

End AgentFacts.

(** X25. [analyzeToken] reports the payments it logged. For an invalid
    address nothing is logged and the total is "0". Otherwise, when the call
    returns, the breakdown lists exactly the services whose data arrived, in
    the order security, price, whale, sentiment, each at its configured
    price and each marked successful; the total is the sum of those prices
    (at most 400,000,000,000,000); the in-memory ledger has kept its records
    and gained at most one per service paid. This holds also when the report
    could not be synthesized: the result then has [success = false] and still
    carries the payments, which were logged before. *)
Theorem X25_analyzeToken_reports_the_payments_it_logged
    (w : Agent.World) (mem : Ledger.Memory) (tokenAddress : string) :
  let out := Agent.analyzeToken w mem tokenAddress in
  let securityData := Agent.settled (Agent.analyzeTokenSecurity w) in
  let priceData := Agent.settled (Agent.getTokenPrice w) in
  let whaleData := Agent.settled (Agent.getWhaleTransactions w) in
  let sentimentData :=
    Agent.settled (Agent.getBasicSentiment w (JSON.orElse (Some priceData) JSON.undefined)) in
  let paid := Agent.due securityData priceData whaleData sentimentData in
  (Agent.isAddress w = false ->
   out = (mem, Returned (Agent.mkResult false None
                           (Some ("Invalid token address: " ++ tokenAddress)) "0" []))) /\
  (Agent.isAddress w = true ->
   forall r, out.2 = Returned r ->
     Agent.payments_breakdown r
       = List.map (fun p => Agent.mkEntry p.1 p.2 true) paid /\
     (exists total,
         Agent.totalOf (Agent.payments_breakdown r) = Returned total /\
         Agent.payments_total r = pretty total /\
         0 <= total <= 400000000000000) /\
     (exists more,
         Ledger.inMemoryLedger out.1 = (Ledger.inMemoryLedger mem ++ more)%list /\
         (length more <= length paid)%nat) /\
     match Agent.synthesizeReport w securityData priceData whaleData sentimentData with
     | Returned report =>
         Agent.success r = true /\ Agent.report r = Some report /\ Agent.error r = None
     | Thrown message =>
         Agent.success r = false /\ Agent.report r = None /\
         Agent.error r = Some ("Analysis failed: " ++ message)
     end).
Proof.
  intros out securityData priceData whaleData sentimentData paid.
  subst out. unfold Agent.analyzeToken. split.
  { by intros ->. }
  intros -> r. cbn [negb]. fold securityData priceData whaleData sentimentData.
  destruct (Agent.logged w tokenAddress "security" Config.securityQueryCost securityData
              (mem, Returned [])) as [m1 [b1|e1]] eqn:E1.
  2:{ rewrite !logged_Thrown. done. }
  destruct (Agent.logged w tokenAddress "price" Config.priceQueryCost priceData
              (m1, Returned b1)) as [m2 [b2|e2]] eqn:E2.
  2:{ rewrite !logged_Thrown. done. }
  destruct (Agent.logged w tokenAddress "whale" Config.whaleQueryCost whaleData
              (m2, Returned b2)) as [m3 [b3|e3]] eqn:E3.
  2:{ rewrite !logged_Thrown. done. }
  destruct (Agent.logged w tokenAddress "sentiment" Config.sentimentQueryCost sentimentData
              (m3, Returned b3)) as [m4 [b4|e4]] eqn:E4.
  2:{ done. }
  apply logged_Returned in E1 as (-> & l1 & Hl1 & Hn1).
  apply logged_Returned in E2 as (-> & l2 & Hl2 & Hn2).
  apply logged_Returned in E3 as (-> & l3 & Hl3 & Hn3).
  apply logged_Returned in E4 as (-> & l4 & Hl4 & Hn4).
  rewrite breakdown_due. fold paid.
  destruct (totalOf_due securityData priceData whaleData sentimentData)
    as (total & Ht & Hrange).
  fold paid in Ht. rewrite Ht.
  assert (Hmem : exists more,
             Ledger.inMemoryLedger m4 = (Ledger.inMemoryLedger mem ++ more)%list /\
             (length more <= length paid)%nat).
  { exists (l1 ++ l2 ++ l3 ++ l4)%list. rewrite Hl4, Hl3, Hl2, Hl1, <- !app_assoc.
    split; [done|]. unfold paid. rewrite due_length, !length_app. lia. }
  destruct (Agent.synthesizeReport w securityData priceData whaleData sentimentData)
    as [rep|message]; simpl; intros [= <-]; simpl.
  - split; [done|]. split; [by exists total|]. split; [exact Hmem|done].
  - split; [done|]. split; [by exists total|]. split; [exact Hmem|done].
Qed.

(** ** The failures of the ledger's [logPayment] *)

Section LogPaymentFailures.
Import PaymentLedger.

(** [logPayment] with the two calls into the registry written out: the
    checks it makes, in the order it makes them. *)
Lemma logPayment_checks (m : Msg) (ds : string) (x h : Z) (q : string) (c : chain) :
  let reg := agentRegistry c in
  let ag := AgentRegistry.agentAt reg (msg_sender m) in
  let today := block_timestamp m / ONE_DAY in
  let eff := AgentRegistry.effectiveSpent today ag in
  let total := at0 (totalSpentByAgent (ledger c)) (msg_sender m) + x in
  let count := at0 (paymentCountByAgent (ledger c)) (msg_sender m) + 1 in
  let bySource := at0 (spentBySourceByAgent (ledger c)) (msg_sender m, ds) + x in
  logPayment m ds x h q c =
    if String.eqb ds EmptyString then Revert "PaymentLedger: empty dataSource"
    else if x <=? 0 then Revert "PaymentLedger: zero amount"
    else if String.eqb q EmptyString then Revert "PaymentLedger: empty queryType"
    else if (AgentRegistry.wallet ag =? 0) || negb (AgentRegistry.active ag) then
      Revert "PaymentLedger: agent cannot spend (not registered, inactive, or exceeds budget)"
    else if MAX_UINT256 <? eff + x then Panic 17
    else if AgentRegistry.dailyBudget ag <? eff + x then
      Revert "PaymentLedger: agent cannot spend (not registered, inactive, or exceeds budget)"
    else if negb (this c =? AgentRegistry.paymentLedger reg) then
      Revert "AgentRegistry: caller is not PaymentLedger"
    else if (MAX_UINT256 <? total) || (MAX_UINT256 <? count) || (MAX_UINT256 <? bySource)
    then Panic 17
    else Ok (mkChain (this c) (spent reg today (msg_sender m) x)
               (mkState
                  (payments (ledger c)
                     ++ [mkPayment (msg_sender m) ds x h (block_timestamp m) q])
                  (<[msg_sender m := total]> (totalSpentByAgent (ledger c)))
                  (<[msg_sender m := count]> (paymentCountByAgent (ledger c)))
                  (<[(msg_sender m, ds) := bySource]> (spentBySourceByAgent (ledger c))))).
Proof.
  intros reg ag today eff total count bySource. unfold logPayment.
  destruct ds as [|ch ds']; [reflexivity|].
  change (0 <? Z.of_nat (String.length (String ch ds'))) with true.
  change (String.eqb (String ch ds') EmptyString) with false. cbn iota.
  destruct (Z.ltb_spec 0 x) as [Hx|Hx]; destruct (Z.leb_spec x 0); try lia; [|reflexivity].
  destruct q as [|ch' q']; [reflexivity|].
  change (0 <? Z.of_nat (String.length (String ch' q'))) with true.
  change (String.eqb (String ch' q') EmptyString) with false. cbn iota.
  unfold AgentRegistry.canSpend. cbn [block_timestamp msg_sender]. fold reg ag today.
  destruct ((AgentRegistry.wallet ag =? 0) || negb (AgentRegistry.active ag)) eqn:Hreg;
    [reflexivity|].
  apply orb_false_iff in Hreg as [Hw Ha]. apply negb_false_iff in Ha.
  apply Z.eqb_neq in Hw.
  change (if AgentRegistry.lastResetDay ag <? today then 0
          else AgentRegistry.spentToday ag) with eff.
  unfold checked_add at 1.
  destruct (Z.leb_spec (eff + x) MAX_UINT256);
    destruct (Z.ltb_spec MAX_UINT256 (eff + x)); try lia; [|reflexivity].
  cbn [rbind].
  destruct (Z.leb_spec (eff + x) (AgentRegistry.dailyBudget ag));
    destruct (Z.ltb_spec (AgentRegistry.dailyBudget ag) (eff + x)); try lia;
    [|reflexivity].
  destruct (Z.eqb_spec (this c) (AgentRegistry.paymentLedger reg)) as [Hs|Hs]; cbn [negb].
  - rewrite (recordSpend_spent (mkMsg (this c) (block_timestamp m)) (msg_sender m) x reg Hs)
      by (unfold spendable; auto).
    cbn [rbind block_timestamp]. unfold checked_add. fold today total count bySource.
    destruct (Z.leb_spec total MAX_UINT256); destruct (Z.ltb_spec MAX_UINT256 total);
      try lia; [|reflexivity]. cbn [rbind orb].
    destruct (Z.leb_spec count MAX_UINT256); destruct (Z.ltb_spec MAX_UINT256 count);
      try lia; [|reflexivity]. cbn [rbind orb].
    destruct (Z.leb_spec bySource MAX_UINT256); destruct (Z.ltb_spec MAX_UINT256 bySource);
      try lia; reflexivity.
  - unfold AgentRegistry.recordSpend. cbn [msg_sender]. fold reg.
    by destruct (Z.eqb_spec (this c) (AgentRegistry.paymentLedger reg)).
Qed.

End LogPaymentFailures.

(** X26. The failures of the ledger's [logPayment], in the order they are
    detected: an empty [dataSource], an amount of zero, an empty
    [queryType], an agent that cannot spend (unregistered or inactive), an
    overflow of the spend ([Panic(0x11)]), a spend over the daily budget, a
    ledger the registry does not name as its payment ledger, an overflow of
    one of the three aggregates; otherwise it returns, with the spend
    recorded in the registry and the payment appended. The registry's
    [canSpend] and [recordSpend] decide alike, so of [recordSpend]'s own
    reverts only "caller is not PaymentLedger" can come out of a
    [logPayment]. *)
Theorem X26_logPayment_failures_in_order
    (m : Msg) (ds : string) (x h : Z) (q : string) (c : PaymentLedger.chain) :
  let reg := PaymentLedger.agentRegistry c in
  let ag := AgentRegistry.agentAt reg (msg_sender m) in
  let today := block_timestamp m / ONE_DAY in
  let eff := AgentRegistry.effectiveSpent today ag in
  let l := PaymentLedger.ledger c in
  let total := PaymentLedger.at0 (PaymentLedger.totalSpentByAgent l) (msg_sender m) + x in
  let count := PaymentLedger.at0 (PaymentLedger.paymentCountByAgent l) (msg_sender m) + 1 in
  let bySource :=
    PaymentLedger.at0 (PaymentLedger.spentBySourceByAgent l) (msg_sender m, ds) + x in
  let cannotSpend :=
    "PaymentLedger: agent cannot spend (not registered, inactive, or exceeds budget)" in
  PaymentLedger.logPayment m ds x h q c =
    (if String.eqb ds EmptyString then Revert "PaymentLedger: empty dataSource"
     else if x <=? 0 then Revert "PaymentLedger: zero amount"
     else if String.eqb q EmptyString then Revert "PaymentLedger: empty queryType"
     else if (AgentRegistry.wallet ag =? 0) || negb (AgentRegistry.active ag)
     then Revert cannotSpend
     else if MAX_UINT256 <? eff + x then Panic 17
     else if AgentRegistry.dailyBudget ag <? eff + x then Revert cannotSpend
     else if negb (PaymentLedger.this c =? AgentRegistry.paymentLedger reg)
     then Revert "AgentRegistry: caller is not PaymentLedger"
     else if (MAX_UINT256 <? total) || (MAX_UINT256 <? count) || (MAX_UINT256 <? bySource)
     then Panic 17
     else Ok (PaymentLedger.mkChain (PaymentLedger.this c)
                (PaymentLedger.spent reg today (msg_sender m) x)
                (PaymentLedger.mkState
                   (PaymentLedger.payments l
                      ++ [PaymentLedger.mkPayment (msg_sender m) ds x h (block_timestamp m) q])
                   (<[msg_sender m := total]> (PaymentLedger.totalSpentByAgent l))
                   (<[msg_sender m := count]> (PaymentLedger.paymentCountByAgent l))
                   (<[(msg_sender m, ds) := bySource]>
                      (PaymentLedger.spentBySourceByAgent l))))) /\
  (forall message,
      PaymentLedger.logPayment m ds x h q c = Revert message ->
      In message ["PaymentLedger: empty dataSource"; "PaymentLedger: zero amount";
                  "PaymentLedger: empty queryType"; cannotSpend;
                  "AgentRegistry: caller is not PaymentLedger"]) /\
  (forall code, PaymentLedger.logPayment m ds x h q c = Panic code -> code = 17).
Proof.
  intros reg ag today eff l total count bySource cannotSpend.
  pose proof (logPayment_checks m ds x h q c) as Heq. cbv zeta in Heq.
  fold reg ag today eff l total count bySource in Heq. split; [exact Heq|].
  rewrite Heq. clear Heq.
  destruct (String.eqb ds EmptyString).
  { split; [intros ? [= <-]; simpl; auto|done]. }
  destruct (x <=? 0).
  { split; [intros ? [= <-]; simpl; auto|done]. }
  destruct (String.eqb q EmptyString).
  { split; [intros ? [= <-]; simpl; auto|done]. }
  destruct ((AgentRegistry.wallet ag =? 0) || negb (AgentRegistry.active ag)).
  { split; [intros ? [= <-]; simpl; auto|done]. }
  destruct (MAX_UINT256 <? eff + x).
  { split; [done|by intros ? [= <-]]. }
  destruct (AgentRegistry.dailyBudget ag <? eff + x).
  { split; [intros ? [= <-]; simpl; auto|done]. }
  destruct (negb (PaymentLedger.this c =? AgentRegistry.paymentLedger reg)).
  { split; [intros ? [= <-]; simpl; auto 6|done]. }
  destruct ((MAX_UINT256 <? total) || (MAX_UINT256 <? count) || (MAX_UINT256 <? bySource)).
  { split; [done|by intros ? [= <-]]. }
  done.
Qed.
(** ** Evaluations of the walk-through *)

Lemma X1_agent_list_is_the_set_of_registered_agents_witness :
  NoDup (AgentRegistry.agentList (PaymentLedger.agentRegistry Walkthrough.afterTxs)) /\
  AgentRegistry.getAgentCount (PaymentLedger.agentRegistry Walkthrough.afterTxs)
    = Z.of_nat (length (AgentRegistry.agentList
                          (PaymentLedger.agentRegistry Walkthrough.afterTxs))).
Proof.
  pose proof (X1_agent_list_is_the_set_of_registered_agents Walkthrough.deployer 9
                Walkthrough.txs) as H.
  destruct H as (H1 & H2 & _).
  - repeat (constructor; [simpl; lia|]). constructor.
  - exact (conj H1 H2).
Defined.

Lemma X2_registration_is_permanent_witness :
  AgentRegistry.wallet
    (AgentRegistry.agentAt (PaymentLedger.agentRegistry Walkthrough.deactivated) 7)
  = AgentRegistry.wallet
      (AgentRegistry.agentAt (PaymentLedger.agentRegistry Walkthrough.afterTxs) 7) /\
  AgentRegistry.registerAgent (mkMsg 7 (Scenario.day0 + 2 * ONE_DAY)) "again" 5
    (PaymentLedger.agentRegistry Walkthrough.deactivated)
  = Revert "AgentRegistry: already registered".
Proof.
  pose proof (X2_registration_is_permanent Walkthrough.afterTxs Walkthrough.later 7) as H.
  destruct H as (H1 & _ & _ & H4).
  - vm_compute. discriminate.
  - split; [exact H1|]. by apply H4.
Defined.

Lemma X3_deactivation_is_terminal_witness :
  AgentRegistry.active
    (AgentRegistry.agentAt
       (PaymentLedger.agentRegistry
          (PaymentLedger.execAll
             [PaymentLedger.UpdateBudget (mkMsg 7 (Scenario.day0 + 3 * ONE_DAY)) 2000000]
             Walkthrough.deactivated)) 7) = false.
Proof.
  refine (proj1 (X3_deactivation_is_terminal Walkthrough.deactivated
                   [PaymentLedger.UpdateBudget (mkMsg 7 (Scenario.day0 + 3 * ONE_DAY)) 2000000]
                   7 _ _)).
  - vm_compute. discriminate.
  - reflexivity.
Defined.

Lemma X4_reset_day_monotone_and_spend_accumulates_witness :
  AgentRegistry.lastResetDay
    (AgentRegistry.agentAt (PaymentLedger.agentRegistry Walkthrough.afterTxs) 7)
  <= AgentRegistry.lastResetDay
       (AgentRegistry.agentAt (PaymentLedger.agentRegistry Walkthrough.deactivated) 7).
Proof.
  refine (proj1 (X4_reset_day_monotone_and_spend_accumulates Walkthrough.afterTxs
                   Walkthrough.later 7 _ _)).
  - repeat (constructor; [vm_compute; intuition discriminate|]).
    constructor.
  - vm_compute. discriminate.
Defined.

Lemma X5_only_authorised_callers_change_the_registry_witness :
  AgentRegistry.owner
    (PaymentLedger.agentRegistry
       (PaymentLedger.exec Walkthrough.afterTxs
          (PaymentLedger.RecordSpend (mkMsg 5 (Scenario.day0 + ONE_DAY)) 7 100)))
  = AgentRegistry.owner (PaymentLedger.agentRegistry Walkthrough.afterTxs).
Proof.
  refine (proj1 (X5_only_authorised_callers_change_the_registry Walkthrough.afterTxs
                   (PaymentLedger.RecordSpend (mkMsg 5 (Scenario.day0 + ONE_DAY)) 7 100)
                   7 _)).
  vm_compute. discriminate.
Defined.

Lemma X6_budget_update_and_lowered_budget_witness :
  let reg := PaymentLedger.agentRegistry Walkthrough.afterTxs in
  let m := mkMsg 7 (Scenario.day0 + ONE_DAY + 60) in
  let reg' := transact (AgentRegistry.updateBudget m 500000) reg in
  AgentRegistry.agentAt reg' 7
    = AgentRegistry.set_dailyBudget (AgentRegistry.agentAt reg 7) 500000 /\
  succeeds (AgentRegistry.recordSpend (mkMsg 9 (Scenario.day0 + ONE_DAY + 90)) 7 1 reg')
    = false.
Proof.
  intros reg m reg'.
  pose proof (X6_budget_update_and_lowered_budget reg reg' m 500000) as H.
  destruct H as (_ & _ & H3 & _ & H5 & _).
  - vm_compute. reflexivity.
  - split; [exact H3|].
    refine (proj1 (H5 _ (mkMsg 9 (Scenario.day0 + ONE_DAY + 90)) 1 _ _)).
    + vm_compute. reflexivity.
    + lia.
    + vm_compute. discriminate.
Defined.

Lemma X10_getRecentPayments_returns_the_latest_witness :
  PaymentLedger.getRecentPayments 1 Walkthrough.afterTxs
  = Ok (drop (length (PaymentLedger.payments (PaymentLedger.ledger Walkthrough.afterTxs))
              - Z.to_nat 1)
             (PaymentLedger.payments (PaymentLedger.ledger Walkthrough.afterTxs))).
Proof.
  refine (proj1 (X10_getRecentPayments_returns_the_latest Walkthrough.afterTxs 1 _ _)).
  - lia.
  - vm_compute. discriminate.
Defined.

Lemma X11_nothing_is_logged_before_the_ledger_is_linked_witness :
  PaymentLedger.payments
    (PaymentLedger.ledger
       (PaymentLedger.execAll Walkthrough.unlinked Walkthrough.start)) = [].
Proof.
  refine (proj1 (X11_nothing_is_logged_before_the_ledger_is_linked Walkthrough.deployer 9
                   Walkthrough.unlinked _ _)).
  - lia.
  - intros m Hin. unfold Walkthrough.unlinked in Hin.
    rewrite !elem_of_cons, elem_of_nil in Hin.
    destruct Hin as [Hin|[Hin|[Hin|[]]]]; try discriminate.
    injection Hin as ->. simpl. lia.
Defined.

Lemma X13_payments_of_a_day_stay_within_the_daily_budget_witness :
  let m := mkMsg 7 (Scenario.day0 + ONE_DAY + 30) in
  PaymentLedger.sumAmounts
    (PaymentLedger.paymentsOnDay 7 (PaymentLedger.dayOf (block_timestamp m))
       (PaymentLedger.payments
          (PaymentLedger.ledger
             (PaymentLedger.exec Walkthrough.afterTxs
                (PaymentLedger.LogPayment m "bscscan" 300000 13 "whale")))))
  <= AgentRegistry.dailyBudget
       (AgentRegistry.agentAt (PaymentLedger.agentRegistry Walkthrough.afterTxs) 7).
Proof.
  intros m.
  refine (proj2 (X13_payments_of_a_day_stay_within_the_daily_budget 9
                   (AgentRegistry.init Walkthrough.deployer) Walkthrough.txs
                   m "bscscan" 300000 13 "whale" _ _ _ _)).
  - intros a. unfold AgentRegistry.agentAt. simpl. rewrite lookup_empty. simpl. lia.
  - repeat (constructor; [vm_compute; intuition discriminate|]).
    constructor.
  - vm_compute. discriminate.
  - vm_compute. reflexivity.
Defined.

Lemma X15_a_payment_header_is_honoured_at_most_once_witness :
  let handle := Gateway.handle Scenario.clearSigner Walkthrough.parseB in
  let used1 := (handle Walkthrough.paidPrice ∅).2 in
  let used2 := (Gateway.serve Scenario.clearSigner Walkthrough.parseB
                  [Walkthrough.unpaidWhale] used1).2 in
  Gateway.status (handle Walkthrough.paidPrice ∅).1 = 200 /\
  Gateway.status (handle Walkthrough.replayedPrice used2).1 = 402.
Proof.
  intros handle used1 used2.
  assert (Hfirst : Gateway.status (handle Walkthrough.paidPrice ∅).1 = 200).
  { vm_compute. reflexivity. }
  split; [exact Hfirst|].
  destruct (X15_a_payment_header_is_honoured_at_most_once Scenario.clearSigner
              Walkthrough.parseB Walkthrough.paidPrice [Walkthrough.unpaidWhale]
              Walkthrough.replayedPrice Walkthrough.headerB ∅ eq_refl eq_refl
              (or_introl Hfirst)) as (reason & Hr & _).
  unfold used2, used1, handle. rewrite Hr. reflexivity.
Defined.

Lemma X17_encoded_proof_parses_back_witness :
  Header.parsePaymentHeader Walkthrough.decodeB Walkthrough.headerB
    = Some (Header.proofJson Scenario.proofB) /\
  Header.asProof (Header.proofJson Scenario.proofB) = Some Scenario.proofB.
Proof.
  exact (X17_encoded_proof_parses_back Walkthrough.decodeB Walkthrough.headerB
           Scenario.proofB eq_refl).
Defined.

Lemma X18_created_proof_is_accepted_until_its_expiry_witness :
  exists tp,
    Client.typed Walkthrough.createdB = Some tp /\
    Facilitator.verifyPaymentProof Walkthrough.recoverB 2299000 ∅ tp
      Scenario.priceResource Config.priceQueryCost
    = (Facilitator.mkVerification true (Facilitator.from tp) None,
       {[ Facilitator.nonceKey tp ]} ∪ ∅).
Proof.
  destruct (X18_created_proof_is_accepted_until_its_expiry Walkthrough.recoverB
              Scenario.worldB Scenario.priceResource Scenario.provider
              Config.priceQueryCost Walkthrough.createdB
              (Client.encodePaymentHeader Scenario.worldB Walkthrough.createdB))
    as (tp & Htp & _ & _ & Hamt & _ & _ & _ & _ & Hverify).
  - intros A v sig Hw Hfrom Hs. simpl in Hs. injection Hs as <-.
    unfold Walkthrough.recoverB. by rewrite String.eqb_refl, Hfrom.
  - vm_compute. reflexivity.
  - exists tp. split; [exact Htp|].
    refine (proj1 (Hverify 2299000 ∅ Config.priceQueryCost 50000000000000 50000000000000
                     _ _ _ _) _).
    + apply not_elem_of_empty.
    + reflexivity.
    + reflexivity.
    + lia.
    + vm_compute. discriminate.
Defined.

Lemma X19_without_a_private_key_nothing_is_paid_witness :
  Client.createPaymentProof Walkthrough.worldNoKey Scenario.priceResource Scenario.provider
    Config.priceQueryCost
  = Thrown "PRIVATE_KEY not set in environment. Agent wallet unavailable." /\
  (Client.payAndFetch Walkthrough.worldNoKey "http://gateway/api/x402/price/0xToken" None).1
  = [Client.plainRequest "http://gateway/api/x402/price/0xToken"].
Proof.
  destruct (X19_without_a_private_key_nothing_is_paid Walkthrough.worldNoKey eq_refl)
    as [H1 H2].
  split; [apply H1|]. apply (H2 "http://gateway/api/x402/price/0xToken" None).
Defined.

Lemma X21_in_memory_reads_witness :
  Ledger.getPaymentsByAgent Scenario.ledgerAbsent Scenario.memoryOne (Some Scenario.payer)
  = Ledger.getPaymentsByAgent Scenario.ledgerAbsent Scenario.memoryOne
      (Some Scenario.payerLower).
Proof.
  refine (proj1 (proj2 (X21_in_memory_reads Scenario.ledgerAbsent Scenario.memoryOne
                          Scenario.payer Scenario.payerLower _ _ _)) _).
  - reflexivity.
  - discriminate.
  - discriminate.
  - reflexivity.
Defined.

Lemma X22_five_checks_suffice_whoever_the_payee_witness :
  Facilitator.to Walkthrough.proofSelf
    <> Gateway.receiver (Walkthrough.gatewayAt 1999000) /\
  Gateway.route Scenario.clearSigner Walkthrough.parseSelf Gateway.Price
    (Walkthrough.gatewayAt 1999000) "0xToken" (Returned Scenario.dataB)
    (Some Walkthrough.headerSelf) ∅
  = (Gateway.Served Scenario.dataB Scenario.payer Config.priceQueryCost "price",
     {[ Facilitator.nonceKey Walkthrough.proofSelf ]} ∪ ∅).
Proof.
  split; [vm_compute; discriminate|].
  refine (X22_five_checks_suffice_whoever_the_payee Scenario.clearSigner
            Walkthrough.parseSelf Gateway.Price (Walkthrough.gatewayAt 1999000) "0xToken"
            (Returned Scenario.dataB) Walkthrough.headerSelf Walkthrough.proofSelf ∅
            50000000000000 50000000000000 Scenario.payer _ _ _ _ _ _ _ _ _ _).
  - discriminate.
  - reflexivity.
  - vm_compute. discriminate.
  - apply not_elem_of_empty.
  - reflexivity.
  - reflexivity.
  - lia.
  - reflexivity.
  - reflexivity.
  - reflexivity.
Defined.

Lemma X23_payAndFetch_against_the_gateway_witness :
  (Client.payAndFetch Walkthrough.worldG Walkthrough.priceUrl None).1
  = [Client.plainRequest Walkthrough.priceUrl;
     Client.paidRequest Walkthrough.priceUrl Walkthrough.encodedG] /\
  exists r,
    (Client.payAndFetch Walkthrough.worldG Walkthrough.priceUrl None).2 = Returned r /\
    Client.paid r = true.
Proof.
  destruct (X23_payAndFetch_against_the_gateway Walkthrough.recoverB Walkthrough.parseG
              Walkthrough.worldG Walkthrough.priceUrl Gateway.Price "0xToken" Scenario.dataB
              (Walkthrough.gatewayAt 1999000) (Walkthrough.gatewayAt 2000000) ∅
              Scenario.payer ("signed-by-" ++ Scenario.payer)
              Walkthrough.challengeG Walkthrough.servedG) as [H _].
  - reflexivity.
  - reflexivity.
  - reflexivity.
  - reflexivity.
  - reflexivity.
  - reflexivity.
  - reflexivity.
  - reflexivity.
  - reflexivity.
  - discriminate.
  - reflexivity.
  - simpl. lia.
  - vm_compute. discriminate.
  - apply not_elem_of_empty.
  - rewrite H. split; [reflexivity|]. eexists. split; reflexivity.
Defined.
